(** * Event dispatch core of knative-eventing: client pool, retry backoff,
      and the destination / dead-letter / reply pipeline.

    Shallow embedding of
      - src/pkg/kncloudevents/http_client_new.go  (client cache),
      - src/unnamed/part_003, second file        (generateBackoffFn),
      - src/unnamed/part_003, first file         (send / executeRequest on
                                                  the Request API),
      - src/unnamed/part_005                     (send / executeRequest with
                                                  createRequest and newClient).

    Go values are modelled as follows: a nil-able pointer is an [option],
    [time.Duration] and [int] are [Z], [http.Header] and the client cache are
    [gmap]s keyed by strings, a returned [(value, error)] pair is a [result].
    Package state and the outside world (network, clock, standard output) are
    threaded explicitly. *)

From Stdlib Require Import ZArith String List Ascii.
From stdpp Require Import gmap strings list fin_maps pretty.

Local Open Scope string_scope.

(** ** Errors *)

(** [errorString] is an error built from a message ([errors.New], [fmt.Errorf]
    without [%w]); [wrapError msg e] is [fmt.Errorf("msg: %w", e)]. *)
Inductive error : Type :=
| errorString (s : string)
| wrapError (msg : string) (cause : error).

Fixpoint Error (e : error) : string :=
  match e with
  | errorString s => s
  | wrapError msg cause => msg ++ ": " ++ Error cause
  end.

Inductive result (A : Type) : Type :=
| Ok (a : A)
| Err (e : error).
Arguments Ok {A} a.
Arguments Err {A} e.

Definition is_Err {A} (r : result A) : Prop :=
  match r with Ok _ => False | Err _ => True end.

(** ** URLs and addressables *)

(** The fields of [apis.URL] (a [net/url.URL]) that the dispatcher reads, or
    that tell a rewritten URL from its input. *)
Record URL : Type := mkURL {
  Scheme : string;
  Opaque : string;
  Host : string;
  Path : string;
  RawQuery : string;
  Fragment : string;
}.

(** [duckv1.Addressable]: the URL pointer and the CA certificates pointer. *)
Record Addressable : Type := mkAddressable {
  AddrURL : option URL;
  CACerts : option string;
}.

(** ** Libraries the code calls (outside this repository) *)

Record Libs : Type := mkLibs {
  (** [String] of net/url.URL *)
  url_String : URL -> string;
  (** [x509.SystemCertPool]: [Some err] when the system pool cannot be read *)
  x509_SystemCertPool : option error;
  (** [AppendCertsFromPEM] of x509.CertPool *)
  x509_AppendCertsFromPEM : string -> bool;
}.

(** [String] of apis.URL: the empty string on a nil receiver. *)
Definition URL_String (L : Libs) (u : option URL) : string :=
  match u with
  | None => ""
  | Some u => url_String L u
  end.

(** ** The client cache (http_client_new.go) *)

Record ConnectionArgs : Type := mkConnectionArgs {
  MaxIdleConns : Z;
  MaxIdleConnsPerHost : Z;
}.

(** A [*nethttp.Client] built by [createNewClient]: [clientPtr] is the
    identity of the allocation, [RootCAs] the PEM material merged into the
    system roots ([None]: the transport's default TLS configuration),
    [Tuning] what [configureTransport] wrote to the cloned transport. *)
Record Client : Type := mkClient {
  clientPtr : nat;
  RootCAs : option string;
  Tuning : option ConnectionArgs;
  Timeout : Z;
}.

(** Package variables [clients] and [connectionArgs], the allocator, and the
    lines written by [fmt.Printf]. [clientsMutex] makes every operation below
    atomic, so each is one state transition. *)
Record PoolState : Type := mkPoolState {
  clients : gmap string Client;
  connectionArgs : option ConnectionArgs;
  allocated : nat;
  printed : list string;
}.

Definition init : PoolState :=
  {| clients := ∅; connectionArgs := None; allocated := 0; printed := [] |}.

Definition set_clients (m : gmap string Client) (st : PoolState) : PoolState :=
  {| clients := m; connectionArgs := connectionArgs st;
     allocated := allocated st; printed := printed st |}.

Section ClientPool.
Variable L : Libs.

Definition createNewClient (addressable : Addressable) (st : PoolState)
  : result Client * PoolState :=
  let fresh (cas : option string) :=
    (Ok {| clientPtr := allocated st; RootCAs := cas;
           Tuning := connectionArgs st; Timeout := 0 |},
     {| clients := clients st; connectionArgs := connectionArgs st;
        allocated := S (allocated st); printed := printed st |}) in
  match CACerts addressable with
  | Some pem =>
      if bool_decide (pem = "") then fresh None
      else
        match x509_SystemCertPool L with
        | Some err => (Err (wrapError "could not get system cert pool" err), st)
        | None =>
            if x509_AppendCertsFromPEM L pem then fresh (Some pem)
            else (Err (errorString "failed to append CA certs from PEM to cert pool"), st)
        end
  | None => fresh None
  end.

Definition getClientForAddressable (addressable : Addressable) (st : PoolState)
  : result Client * PoolState :=
  let clientKey := URL_String L (AddrURL addressable) in
  match clients st !! clientKey with
  | Some client => (Ok client, st)
  | None =>
      match createNewClient addressable st with
      | (Err err, st') =>
          (Err (wrapError "failed to create new client for addressable" err), st')
      | (Ok newClient, st') =>
          (Ok newClient, set_clients (<[clientKey := newClient]> (clients st')) st')
      end
  end.

Definition AddOrUpdateAddressableHandler (addressable : Addressable) (st : PoolState)
  : PoolState :=
  let clientKey := URL_String L (AddrURL addressable) in
  match createNewClient addressable st with
  | (Err err, st') =>
      {| clients := clients st'; connectionArgs := connectionArgs st';
         allocated := allocated st';
         printed := printed st' ++ ["failed to create new client: " ++ Error err] |}
  | (Ok client, st') => set_clients (<[clientKey := client]> (clients st')) st'
  end.

Definition DeleteAddressableHandler (addressable : Addressable) (st : PoolState)
  : PoolState :=
  let clientKey := URL_String L (AddrURL addressable) in
  set_clients (delete clientKey (clients st)) st.

Definition same_config (ca cur : option ConnectionArgs) : bool :=
  match cur, ca with
  | Some cur, Some ca =>
      bool_decide (MaxIdleConns ca = MaxIdleConns cur)
      && bool_decide (MaxIdleConnsPerHost ca = MaxIdleConnsPerHost cur)
  | _, _ => false
  end.

(** [ConfigureConnectionArgs]. The call to [configureConnectionArgsOldClient]
    and [CloseIdleConnections] act on state outside this file's package
    variables and are not part of [PoolState]. *)
Definition ConfigureConnectionArgs (ca : option ConnectionArgs) (st : PoolState)
  : PoolState :=
  if same_config ca (connectionArgs st) then st
  else
    {| clients := if bool_decide (0 < size (clients st))%nat then ∅ else clients st;
       connectionArgs := ca;
       allocated := allocated st; printed := printed st |}.

(** The exported and package-level operations on the cache, as one
    transition system. *)
Inductive PoolOp : Type :=
| OpGet (a : Addressable)
| OpUpsert (a : Addressable)
| OpDelete (a : Addressable)
| OpConfigure (ca : option ConnectionArgs).

Definition run_op (op : PoolOp) (st : PoolState) : PoolState :=
  match op with
  | OpGet a => snd (getClientForAddressable a st)
  | OpUpsert a => AddOrUpdateAddressableHandler a st
  | OpDelete a => DeleteAddressableHandler a st
  | OpConfigure ca => ConfigureConnectionArgs ca st
  end.

(** CA material that is present (non-nil, non-empty) and that the
    certificate pool rejects. *)
Definition unparsable_CACerts (a : Addressable) : Prop :=
  exists pem, CACerts a = Some pem /\ pem <> "" /\
              x509_AppendCertsFromPEM L pem = false.

End ClientPool.

(** ** HTTP headers and responses *)

(** [http.Header]. Keys are given in canonical MIME form, on which the
    canonicalisation done by [Get] and [Set] is the identity; a nil header
    and an empty one read the same. *)
Abbreviation Header := (gmap string (list string)).

Definition Header_Get (h : Header) (key : string) : string :=
  match h !! key with
  | Some (v :: _) => v
  | _ => ""
  end.

Definition Header_Set (key value : string) (h : Header) : Header :=
  <[key := [value]]> h.

(** [*nethttp.Response]. [Body] is what [bytes.Buffer.ReadFrom] collected from
    the body stream and [ReadErr] the error it returned. *)
Record Response : Type := mkResponse {
  StatusCode : Z;
  Status : string;
  RespHeader : Header;
  Body : string;
  ReadErr : option error;
}.

Definition io_EOF : error := errorString "EOF".

#[global] Instance error_eq_dec : EqDecision error.
Proof. solve_decision. Defined.

(** ** Retry configuration and backoff (part_003, client file) *)

(** The fields of [RetryConfig] that the code under study reads. *)
Record RetryConfig : Type := mkRetryConfig {
  RetryMax : Z;
  CheckRetry : option Response -> option error -> bool * option error;
  Backoff : Z -> option Response -> Z;
  RequestTimeout : Z;
  RetryAfterMaxDuration : option Z;
}.

Definition RetryAfterHeader : string := "Retry-After".
Definition StatusTooManyRequests : Z := 429.
Definition StatusServiceUnavailable : Z := 503.
Definition StatusInternalServerError : Z := 500.
Definition StatusOK : Z := 200.
Definition StatusMultipleChoices : Z := 300.

(** [time.Second], in nanoseconds. *)
Definition Second : Z := 1000000000.

(** Two's complement wrap-around of an [int64] result. *)
Definition wrap64 (z : Z) : Z := ((z + 2 ^ 63) mod 2 ^ 64 - 2 ^ 63)%Z.

Definition digit_of (c : ascii) : option Z :=
  let n := Z.of_nat (nat_of_ascii c) in
  if ((48 <=? n) && (n <=? 57))%Z then Some (n - 48)%Z else None.

Fixpoint parse_digits (s : string) (acc : Z) : option Z :=
  match s with
  | EmptyString => Some acc
  | String c rest =>
      match digit_of c with
      | Some d => parse_digits rest (10 * acc + d)%Z
      | None => None
      end
  end.

(** [strconv.ParseInt(s, 10, 64)]: an optional sign, at least one decimal
    digit, nothing else, and a value in the [int64] range; [None] stands for
    a syntax or range error. *)
Definition ParseInt (s : string) : option Z :=
  let '(neg, digits) :=
    match s with
    | String "+"%char rest => (false, rest)
    | String "-"%char rest => (true, rest)
    | _ => (false, s)
    end in
  match digits with
  | EmptyString => None
  | _ =>
      match parse_digits digits 0 with
      | Some un =>
          let n := if neg then (- un)%Z else un in
          if ((- 2 ^ 63 <=? n) && (n <=? 2 ^ 63 - 1))%Z then Some n else None
      | None => None
      end
  end.

Section Backoff.
(** [nethttp.ParseTime] followed by [time.Until] at the moment of the call:
    [None] when the string is not an HTTP date. *)
Variable ParseTime_Until : string -> option Z.

(** The message printed when neither parse succeeds is not modelled. *)
Definition parseRetryAfterDuration (resp : option Response) : Z :=
  match resp with
  | None => 0%Z
  | Some r =>
      let retryAfterString := Header_Get (RespHeader r) RetryAfterHeader in
      if bool_decide (String.length retryAfterString <= 0)%nat then 0%Z
      else
        match ParseInt retryAfterString with
        | Some retryAfterInt => wrap64 (retryAfterInt * Second)
        | None =>
            match ParseTime_Until retryAfterString with
            | None => 0%Z
            | Some d => d
            end
        end
  end.

Definition generateBackoffFn (config : RetryConfig) (attemptNum : Z)
  (resp : option Response) : Z :=
  let retryAfterDuration :=
    match RetryAfterMaxDuration config with
    | Some maxDuration =>
        match resp with
        | Some r =>
            if bool_decide (StatusCode r = StatusTooManyRequests)
               || bool_decide (StatusCode r = StatusServiceUnavailable)
            then
              let d := parseRetryAfterDuration resp in
              if bool_decide (maxDuration < d)%Z then maxDuration else d
            else 0%Z
        | None => 0%Z
        end
    | None => 0%Z
    end in
  let backoffDuration := Backoff config attemptNum resp in
  if bool_decide (retryAfterDuration > backoffDuration)%Z then retryAfterDuration
  else backoffDuration.

End Backoff.

(** ** Messages, transformers and dispatch records (part_003, part_005) *)

Definition NoDuration : Z := (-1)%Z.
Definition NoResponse : Z := (-1)%Z.

Record DispatchInfo : Type := mkDispatchInfo {
  Duration : Z;
  ResponseCode : Z;
  ResponseHeader : Header;
  ResponseBody : string;
}.

(** The zero value [DispatchInfo{}]. *)
Definition zeroDispatchInfo : DispatchInfo :=
  {| Duration := 0; ResponseCode := 0; ResponseHeader := ∅; ResponseBody := "" |}.

Record Event : Type := mkEvent {
  ID : string;
  EventType : string;
  Source : string;
  Data : string;
}.

(** A [binding.Message]: the caller's event ([binding.ToMessage]) or an HTTP
    response read back as a message ([cehttp.NewMessage]). *)
Inductive Message : Type :=
| ToMessage (e : Event)
| NewMessage (header : Header) (body : string).

Inductive Encoding : Type :=
| EncodingBinary
| EncodingStructured
| EncodingEvent
| EncodingUnknown.

#[global] Instance Encoding_eq_dec : EqDecision Encoding.
Proof. solve_decision. Defined.

(** A [binding.Transformer] handed to the request writer. *)
Inductive Transformer : Type :=
| KnativeErrorTransformers (destination : URL) (code : Z) (data : string)
| PopulateSpan (target : string).

Record senderConfig : Type := mkSenderConfig {
  reply : option Addressable;
  deadLetterSink : option Addressable;
  additionalHeaders : Header;
  retryConfig : option RetryConfig;
}.

(** What reaches the retrying HTTP client: the request as written, the
    message and transformers it was written from, the retry configuration,
    and (part_005) the pooled client copy that carries it. *)
Record Sent : Type := mkSent {
  sentTarget : Addressable;
  sentURL : string;
  sentMessage : Message;
  sentTransformers : list Transformer;
  sentHeader : Header;
  sentBody : string;
  sentRetryConfig : option RetryConfig;
  sentClient : option Client;
}.

(** The result of [SendWithRetries] / [DoWithRetries]: the time it took and
    the response or the error. *)
Record RoundTrip : Type := mkRoundTrip {
  elapsed : Z;
  answer : result Response;
}.

(** The network, as seen from the dispatcher: what a send returns may depend
    on everything sent before. *)
Definition Network : Type := list Sent -> Sent -> RoundTrip.

Record World : Type := mkWorld {
  pool : PoolState;
  wire : list Sent;
  finished : list Message;
}.

(** A Go call either returns or panics. *)
Inductive outcome (A : Type) : Type :=
| Returns (a : A)
| Panics (reason : string).
Arguments Returns {A} a.
Arguments Panics {A} reason.

(** Collaborators of the dispatcher that are not in the sources at hand. *)
Record Deps : Type := mkDeps {
  libs : Libs;
  (** [trace.Span.IsRecordingEvents] *)
  span_IsRecordingEvents : bool;
  (** [http.NewRequestWithContext] with method POST: [Some err] on failure *)
  http_NewRequest : string -> option error;
  (** [cehttp.WriteRequest]: header and body written from the message *)
  cehttp_WriteRequest : Message -> list Transformer -> result (Header * string);
  (** [ReadEncoding] of [cehttp.NewMessage header body] *)
  ReadEncoding : Header -> string -> Encoding;
  (** [utils.PassThroughHeaders] *)
  PassThroughHeaders : Header -> Header;
  (** [eventingapis.KnNamespaceHeader] *)
  KnNamespaceHeader : string;
  (** [network.GetServiceHostname] of broker-filter in [system.Namespace] *)
  brokerFilterHost : string;
  (** [json.Unmarshal] into [broker.ErrExtensionInfo]: destination and body *)
  json_Unmarshal_ErrExtensionInfo : string -> result (option URL * string);
  (** [attributes.KnativeErrorDataExtensionMaxLength] *)
  KnativeErrorDataExtensionMaxLength : Z;
  (** [NewCloudEventRequest] (part_003): [Some err] on failure *)
  NewCloudEventRequest : Addressable -> option error;
}.

(** [base64.StdEncoding.EncodedLen] (padded encoding). *)
Definition base64_EncodedLen (n : Z) : Z := ((n + 2) / 3 * 4)%Z.

(** The slice expression [s[:n]] on a string that is long enough. *)
Fixpoint string_take (n : nat) (s : string) : string :=
  match n, s with
  | S n', String c rest => String c (string_take n' rest)
  | _, _ => EmptyString
  end.

Fixpoint string_drop (n : nat) (s : string) : string :=
  match n, s with
  | S n', String _ rest => string_drop n' rest
  | _, _ => s
  end.

(** The alphabet of [base64.StdEncoding]. *)
Definition encodeStd : string :=
  "ABCDEFGHIJKLMNOPQRSTUVWXYZabcdefghijklmnopqrstuvwxyz0123456789+/".

Definition encodeStd_at (i : N) : ascii :=
  match String.get (N.to_nat i) encodeStd with
  | Some c => c
  | None => "="%char
  end.

(** [enc.encode[val>>shift&0x3F]] *)
Definition sextet (val shift : N) : ascii :=
  encodeStd_at (N.land (N.shiftr val shift) 63).

(** What [base64.StdEncoding.Encode] writes for [src]: four bytes for every
    three of the source, the last group padded with [=]. *)
Fixpoint base64_Encode (src : string) : string :=
  match src with
  | EmptyString => EmptyString
  | String a EmptyString =>
      let val := N.shiftl (N_of_ascii a) 16 in
      String (sextet val 18) (String (sextet val 12) "==")
  | String a (String b EmptyString) =>
      let val := N.lor (N.shiftl (N_of_ascii a) 16) (N.shiftl (N_of_ascii b) 8) in
      String (sextet val 18) (String (sextet val 12) (String (sextet val 6) "="))
  | String a (String b (String c rest)) =>
      let val := N.lor (N.lor (N.shiftl (N_of_ascii a) 16) (N.shiftl (N_of_ascii b) 8))
                   (N_of_ascii c) in
      String (sextet val 18)
        (String (sextet val 12)
           (String (sextet val 6) (String (sextet val 0) (base64_Encode rest))))
  end.

Fixpoint zeros (n : nat) : string :=
  match n with
  | O => EmptyString
  | S n' => String zero (zeros n')
  end.

(** [make([]byte, len)]: a negative length panics. *)
Definition make_bytes (len : Z) : outcome string :=
  if bool_decide (len < 0)%Z then Panics "makeslice: len out of range"
  else Returns (zeros (Z.to_nat len)).

(** [base64.StdEncoding.Encode(dst, src)]: the encoding is written into [dst]
    from its start, without a check of its length; writing past the end of
    [dst] panics. *)
Definition Encode (dst src : string) : outcome string :=
  let encoded := base64_Encode src in
  if bool_decide (String.length dst < String.length encoded)%nat
  then Panics "index out of range"
  else Returns (encoded ++ string_drop (String.length encoded) dst).

Definition isFailure (statusCode : Z) : bool :=
  bool_decide (statusCode < StatusOK)%Z
  || bool_decide (statusCode >= StatusMultipleChoices)%Z.

Definition sanitizeURL (url : option URL) : option URL :=
  match url with
  | None => None
  | Some u =>
      if bool_decide (Scheme u = "http") || bool_decide (Scheme u = "https")
      then Some u
      else Some {| Scheme := "http"; Opaque := ""; Host := Host u; Path := "/";
                   RawQuery := ""; Fragment := "" |}
  end.

(** The assignment [addressable.URL = sanitizeURL(addressable.URL)]. *)
Definition sanitized (a : Addressable) : Addressable :=
  {| AddrURL := sanitizeURL (AddrURL a); CACerts := CACerts a |}.

Definition sanitizeAddressable (addressable : option Addressable)
  : option Addressable :=
  match addressable with
  | None => None
  | Some a => Some (sanitized a)
  end.

(** The zero value [apis.URL{}], also what [URL()] yields on a nil receiver. *)
Definition emptyURL : URL :=
  {| Scheme := ""; Opaque := ""; Host := ""; Path := ""; RawQuery := ""; Fragment := "" |}.

(** The buffer is made with the clamped length, but [Encode] is handed the
    whole body: the call panics when the encoding is longer than the buffer. *)
Definition dispatchExecutionInfoTransformers (D : Deps)
  (destination : option URL) (dispatchExecutionInfo : DispatchInfo)
  : outcome (list Transformer) :=
  let destination0 := match destination with None => emptyURL | Some u => u end in
  let build (destination : option URL) (httpResponseBody : string) :=
    let destination := sanitizeURL destination in
    let bodyLen := Z.of_nat (String.length httpResponseBody) in
    let encodedLen := base64_EncodedLen bodyLen in
    let encodedLen :=
      if bool_decide (encodedLen > KnativeErrorDataExtensionMaxLength D)%Z
      then KnativeErrorDataExtensionMaxLength D else encodedLen in
    match make_bytes encodedLen with
    | Panics r => Panics r
    | Returns encodedBuf =>
        match Encode encodedBuf httpResponseBody with
        | Panics r => Panics r
        | Returns encodedBuf =>
            Returns [KnativeErrorTransformers
                       (match destination with None => emptyURL | Some u => u end)
                       (ResponseCode dispatchExecutionInfo)
                       (string_take (Z.to_nat encodedLen) encodedBuf)]
        end
    end in
  if bool_decide (Host destination0 = brokerFilterHost D) then
    match json_Unmarshal_ErrExtensionInfo D (ResponseBody dispatchExecutionInfo) with
    | Err _ => Returns []
    | Ok (errDestination, errResponseBody) => build errDestination errResponseBody
    end
  else build (Some destination0) (ResponseBody dispatchExecutionInfo).

(** The error [ReadFrom] left, when it is one the code treats as a failure. *)
Definition read_failed (response : Response) : bool :=
  match ReadErr response with
  | Some readErr => negb (bool_decide (readErr = io_EOF))
  | None => false
  end.

(** The common end of [executeRequest] (part_003 lines 253-287, part_005
    lines 246-280, the same text in both): from the recording of the status
    code on. Where the body could not be read the code calls [err.Error()] on
    the nil [err] of the successful send, which panics. *)
Definition processResponse (D : Deps) (dispatchInfo : DispatchInfo)
  (response : Response)
  : outcome (option Message * DispatchInfo * option error) :=
  let dispatchInfo :=
    {| Duration := Duration dispatchInfo;
       ResponseCode := StatusCode response;
       ResponseHeader := PassThroughHeaders D (RespHeader response);
       ResponseBody := ResponseBody dispatchInfo |} in
  if isFailure (StatusCode response) then
    if read_failed response then Panics "nil pointer dereference"
    else
      Returns (None,
               {| Duration := Duration dispatchInfo;
                  ResponseCode := ResponseCode dispatchInfo;
                  ResponseHeader := ResponseHeader dispatchInfo;
                  ResponseBody := Body response |},
               Some (errorString ("unexpected HTTP response, expected 2xx, got "
                                  ++ pretty (StatusCode response))))
  else
    if read_failed response then Panics "nil pointer dereference"
    else
      let responseMessageBody := Body response in
      if bool_decide (ReadEncoding D (RespHeader response) responseMessageBody
                      = EncodingUnknown)
      then Returns (None, dispatchInfo, None)
      else Returns (Some (NewMessage (RespHeader response) responseMessageBody),
                    dispatchInfo, None).

(** The deferred loop over [messagesToFinish]. *)
Definition finish (msgs : list Message) (w : World) : World :=
  {| pool := pool w; wire := wire w; finished := finished w ++ msgs |}.

Definition transmit (s : Sent) (w : World) : World :=
  {| pool := pool w; wire := wire w ++ [s]; finished := finished w |}.

Definition with_pool (p : PoolState) (w : World) : World :=
  {| pool := p; wire := wire w; finished := finished w |}.

Definition initialDispatchInfo : DispatchInfo :=
  {| Duration := NoDuration; ResponseCode := NoResponse;
     ResponseHeader := ∅; ResponseBody := "" |}.

(** [dispatchInfo] after a failed send: the three assignments of the
    [err != nil] branch. *)
Definition sendFailedInfo (dispatchTime : Z) (err : error) : DispatchInfo :=
  {| Duration := dispatchTime;
     ResponseCode := StatusInternalServerError;
     ResponseHeader := ∅;
     ResponseBody := "dispatch error: " ++ Error err |}.

(** The [Kn-Namespace] propagation of [send]: the header of the inbound
    request, when set, is written onto the outgoing response headers. *)
Definition propagateNamespace (D : Deps) (additional responseAdditionalHeaders : Header)
  : Header :=
  if bool_decide (Header_Get additional (KnNamespaceHeader D) <> "")
  then Header_Set (KnNamespaceHeader D)
                  (Header_Get additional (KnNamespaceHeader D))
                  responseAdditionalHeaders
  else responseAdditionalHeaders.

Definition with_ResponseHeader (h : Header) (i : DispatchInfo) : DispatchInfo :=
  {| Duration := Duration i; ResponseCode := ResponseCode i;
     ResponseHeader := h; ResponseBody := ResponseBody i |}.

Definition opt_list {A} (o : option A) : list A :=
  match o with Some a => [a] | None => [] end.

(** ** The dispatcher of part_005 *)

Module Part005.
Section Dispatch.
Variable D : Deps.
Variable net : Network.

Definition createRequest (message : Message) (target : Addressable)
  (additionalHeaders : Header) (transformers : list Transformer)
  : result (Header * string) :=
  match http_NewRequest D (URL_String (libs D) (AddrURL target)) with
  | Some err => Err (wrapError "could not create http request" err)
  | None =>
      match cehttp_WriteRequest D message transformers with
      | Err err => Err (wrapError "could not write message to request" err)
      | Ok (header, body) => Ok (additionalHeaders ∪ header, body)
      end
  end.

Definition newClient (target : Addressable) (st : PoolState)
  : result Client * PoolState :=
  match getClientForAddressable (libs D) target st with
  | (Err err, st') =>
      (Err (wrapError "failed to get http client for addressable" err), st')
  | (Ok c, st') => (Ok c, st')
  end.

(** The client [DoWithRetries] hands to the retrying client: the pooled one,
    or a copy with the configured request timeout. *)
Definition retryingClient (c : Client) (retryConfig : option RetryConfig) : Client :=
  match retryConfig with
  | None => c
  | Some cfg =>
      if bool_decide (RequestTimeout cfg <> 0%Z)
      then {| clientPtr := clientPtr c; RootCAs := RootCAs c;
              Tuning := Tuning c; Timeout := RequestTimeout cfg |}
      else c
  end.

Definition executeRequest (target : Addressable) (message : Message)
  (additionalHeaders : Header) (retryConfig : option RetryConfig)
  (transformers : list Transformer) (w : World)
  : outcome (option Message * DispatchInfo * option error) * World :=
  let dispatchInfo := initialDispatchInfo in
  let transformers :=
    if span_IsRecordingEvents D
    then (transformers ++ [PopulateSpan (URL_String (libs D) (AddrURL target))])%list
    else transformers in
  match createRequest message target additionalHeaders transformers with
  | Err err => (Returns (None, dispatchInfo, Some err), w)
  | Ok (header, body) =>
      match newClient target (pool w) with
      | (Err err, st) => (Returns (None, dispatchInfo, Some err), with_pool st w)
      | (Ok client, st) =>
          let w := with_pool st w in
          let req :=
            {| sentTarget := target;
               sentURL := URL_String (libs D) (AddrURL target);
               sentMessage := message; sentTransformers := transformers;
               sentHeader := header; sentBody := body;
               sentRetryConfig := retryConfig;
               sentClient := Some (retryingClient client retryConfig) |} in
          let rt := net (wire w) req in
          let w := transmit req w in
          match answer rt with
          | Err err => (Returns (None, sendFailedInfo (elapsed rt) err, Some err), w)
          | Ok response =>
              (processResponse D
                 {| Duration := elapsed rt; ResponseCode := NoResponse;
                    ResponseHeader := ∅; ResponseBody := "" |} response, w)
          end
      end
  end.

Definition send (message : Message) (destination : Addressable)
  (config : senderConfig) (w : World)
  : outcome (option DispatchInfo * option error) * World :=
  let U := URL_String (libs D) in
  match AddrURL destination with
  | None =>
      (Returns (Some zeroDispatchInfo,
                Some (errorString "can not dispatch message to nil destination.URL")),
       finish [message] w)
  | Some _ =>
  let destination := sanitized destination in
  let reply := sanitizeAddressable (reply config) in
  let deadLetterSink := sanitizeAddressable (deadLetterSink config) in
  let additionalHeadersForDestination :=
    Header_Set "Prefer" "reply" (additionalHeaders config) in
  match executeRequest destination message additionalHeadersForDestination
          (retryConfig config) [] w with
  | (Panics r, w) => (Panics r, finish [message] w)
  | (Returns (_, dispatchExecutionInfo, Some err), w) =>
      match deadLetterSink with
      | Some dls =>
          match dispatchExecutionInfoTransformers D (AddrURL destination)
                  dispatchExecutionInfo with
          | Panics r => (Panics r, finish [message] w)
          | Returns dispatchTransformers =>
          match executeRequest dls message (additionalHeaders config)
                  (retryConfig config) dispatchTransformers w with
          | (Panics r, w) => (Panics r, finish [message] w)
          | (Returns (_, dispatchExecutionInfo, Some deadLetterErr), w) =>
              (Returns (Some dispatchExecutionInfo,
                        Some (errorString
                                ("unable to complete request to either "
                                 ++ U (AddrURL destination) ++ " (" ++ Error err
                                 ++ ") or " ++ U (AddrURL dls) ++ " ("
                                 ++ Error deadLetterErr ++ ")"))),
               finish [message] w)
          | (Returns (deadLetterResponse, dispatchExecutionInfo, None), w) =>
              (Returns (Some dispatchExecutionInfo, None),
               finish ([message] ++ opt_list deadLetterResponse)%list w)
          end
          end
      | None =>
          (Returns (Some dispatchExecutionInfo,
                    Some (errorString
                            ("unable to complete request to "
                             ++ U (AddrURL destination) ++ ": " ++ Error err))),
           finish [message] w)
      end
  | (Returns (responseMessage, dispatchExecutionInfo, None), w) =>
      let responseAdditionalHeaders :=
        propagateNamespace D (additionalHeaders config)
          (ResponseHeader dispatchExecutionInfo) in
      let dispatchExecutionInfo :=
        with_ResponseHeader responseAdditionalHeaders dispatchExecutionInfo in
      match responseMessage with
      | None => (Returns (Some dispatchExecutionInfo, None), finish [message] w)
      | Some responseMessage =>
      let messagesToFinish := [message; responseMessage] in
      match reply with
      | None => (Returns (Some dispatchExecutionInfo, None), finish messagesToFinish w)
      | Some rep =>
      match executeRequest rep responseMessage responseAdditionalHeaders
              (retryConfig config) [] w with
      | (Panics r, w) => (Panics r, finish messagesToFinish w)
      | (Returns (_, dispatchExecutionInfo, Some err), w) =>
          match deadLetterSink with
          | Some dls =>
              match dispatchExecutionInfoTransformers D (AddrURL rep)
                      dispatchExecutionInfo with
              | Panics r => (Panics r, finish messagesToFinish w)
              | Returns dispatchTransformers =>
              match executeRequest dls message responseAdditionalHeaders
                      (retryConfig config) dispatchTransformers w with
              | (Panics r, w) => (Panics r, finish messagesToFinish w)
              | (Returns (_, dispatchExecutionInfo, Some deadLetterErr), w) =>
                  (Returns (Some dispatchExecutionInfo,
                            Some (errorString
                                    ("failed to forward reply to "
                                     ++ U (AddrURL rep) ++ " (" ++ Error err
                                     ++ ") and failed to send it to the dead letter sink "
                                     ++ U (AddrURL dls) ++ " ("
                                     ++ Error deadLetterErr ++ ")"))),
                   finish messagesToFinish w)
              | (Returns (deadLetterResponse, dispatchExecutionInfo, None), w) =>
                  (Returns (Some dispatchExecutionInfo, None),
                   finish (messagesToFinish ++ opt_list deadLetterResponse)%list w)
              end
              end
          | None =>
              (Returns (Some dispatchExecutionInfo,
                        Some (errorString
                                ("failed to forward reply to "
                                 ++ U (AddrURL rep) ++ ": " ++ Error err))),
               finish messagesToFinish w)
          end
      | (Returns (responseResponseMessage, dispatchExecutionInfo, None), w) =>
          (Returns (Some dispatchExecutionInfo, None),
           finish (messagesToFinish ++ opt_list responseResponseMessage)%list w)
      end
      end
      end
  end
  end.

End Dispatch.
End Part005.

(** ** The dispatcher of part_003 *)

Module Part003.
Section Dispatch.
Variable D : Deps.
Variable net : Network.

(** Modelled from the spec: [WriteRequestWithAdditionalHeaders] is not among
    the sources. Section 4.3 has the request built by serialising the event
    onto it and merging the caller-supplied headers; the merge is the one
    [createRequest] of part_005 does. *)
Definition WriteRequestWithAdditionalHeaders (message : Message)
  (additionalHeaders : Header) (transformers : list Transformer)
  : result (Header * string) :=
  match cehttp_WriteRequest D message transformers with
  | Err err => Err (wrapError "could not write message to request" err)
  | Ok (header, body) => Ok (additionalHeaders ∪ header, body)
  end.

(** [req.SendWithRetries] is the network here: the pooled client is fetched
    inside it. [dispatchInfo.Duration] is assigned in the error branch only. *)
Definition executeRequest (target : Addressable) (message : Message)
  (additionalHeaders : Header) (retryConfig : option RetryConfig)
  (transformers : list Transformer) (w : World)
  : outcome (option Message * DispatchInfo * option error) * World :=
  let dispatchInfo := initialDispatchInfo in
  match NewCloudEventRequest D target with
  | Some err => (Returns (None, dispatchInfo, Some err), w)
  | None =>
      let transformers :=
        if span_IsRecordingEvents D
        then (transformers ++ [PopulateSpan (URL_String (libs D) (AddrURL target))])%list
        else transformers in
      match WriteRequestWithAdditionalHeaders message additionalHeaders transformers with
      | Err err => (Returns (None, dispatchInfo, Some err), w)
      | Ok (header, body) =>
          let req :=
            {| sentTarget := target;
               sentURL := URL_String (libs D) (AddrURL target);
               sentMessage := message; sentTransformers := transformers;
               sentHeader := header; sentBody := body;
               sentRetryConfig := retryConfig;
               sentClient := None |} in
          let rt := net (wire w) req in
          let w := transmit req w in
          match answer rt with
          | Err err => (Returns (None, sendFailedInfo (elapsed rt) err, Some err), w)
          | Ok response => (processResponse D dispatchInfo response, w)
          end
      end
  end.

Definition send (message : Message) (destination : Addressable)
  (config : senderConfig) (w : World)
  : outcome (option DispatchInfo * option error) * World :=
  let U := URL_String (libs D) in
  let destination := sanitized destination in
  let reply := sanitizeAddressable (reply config) in
  let deadLetterSink := sanitizeAddressable (deadLetterSink config) in
  (* from [if config.additionalHeaders.Get(KnNamespaceHeader)] to the end *)
  let forward (messagesToFinish : list Message) (responseMessage : option Message)
        (responseAdditionalHeaders : Header)
        (dispatchExecutionInfo : option DispatchInfo) (w : World) :=
      let responseAdditionalHeaders :=
        propagateNamespace D (additionalHeaders config) responseAdditionalHeaders in
      let dispatchExecutionInfo :=
        with_ResponseHeader responseAdditionalHeaders <$> dispatchExecutionInfo in
      match responseMessage with
      | None => (Returns (dispatchExecutionInfo, None), finish messagesToFinish w)
      | Some responseMessage =>
      let messagesToFinish := (messagesToFinish ++ [responseMessage])%list in
      match reply with
      | None => (Returns (dispatchExecutionInfo, None), finish messagesToFinish w)
      | Some rep =>
      match executeRequest rep responseMessage responseAdditionalHeaders
              (retryConfig config) [] w with
      | (Panics r, w) => (Panics r, finish messagesToFinish w)
      | (Returns (_, dispatchExecutionInfo, Some err), w) =>
          match deadLetterSink with
          | Some dls =>
              match dispatchExecutionInfoTransformers D (AddrURL rep)
                      dispatchExecutionInfo with
              | Panics r => (Panics r, finish messagesToFinish w)
              | Returns dispatchTransformers =>
              match executeRequest dls message responseAdditionalHeaders
                      (retryConfig config) dispatchTransformers w with
              | (Panics r, w) => (Panics r, finish messagesToFinish w)
              | (Returns (_, dispatchExecutionInfo, Some deadLetterErr), w) =>
                  (Returns (Some dispatchExecutionInfo,
                            Some (errorString
                                    ("failed to forward reply to "
                                     ++ U (AddrURL rep) ++ " (" ++ Error err
                                     ++ ") and failed to send it to the dead letter sink "
                                     ++ U (AddrURL dls) ++ " ("
                                     ++ Error deadLetterErr ++ ")"))),
                   finish messagesToFinish w)
              | (Returns (deadLetterResponse, dispatchExecutionInfo, None), w) =>
                  (Returns (Some dispatchExecutionInfo, None),
                   finish (messagesToFinish ++ opt_list deadLetterResponse)%list w)
              end
              end
          | None =>
              (Returns (Some dispatchExecutionInfo,
                        Some (errorString
                                ("failed to forward reply to "
                                 ++ U (AddrURL rep) ++ ": " ++ Error err))),
               finish messagesToFinish w)
          end
      | (Returns (responseResponseMessage, dispatchExecutionInfo, None), w) =>
          (Returns (Some dispatchExecutionInfo, None),
           finish (messagesToFinish ++ opt_list responseResponseMessage)%list w)
      end
      end
      end in
  match AddrURL destination with
  | Some _ =>
      let additionalHeadersForDestination :=
        Header_Set "Prefer" "reply" (additionalHeaders config) in
      match executeRequest destination message additionalHeadersForDestination
              (retryConfig config) [] w with
      | (Panics r, w) => (Panics r, finish [message] w)
      | (Returns (_, dispatchExecutionInfo, Some err), w) =>
          match deadLetterSink with
          | Some dls =>
              match dispatchExecutionInfoTransformers D (AddrURL destination)
                      dispatchExecutionInfo with
              | Panics r => (Panics r, finish [message] w)
              | Returns dispatchTransformers =>
              match executeRequest dls message (additionalHeaders config)
                      (retryConfig config) dispatchTransformers w with
              | (Panics r, w) => (Panics r, finish [message] w)
              | (Returns (_, dispatchExecutionInfo, Some deadLetterErr), w) =>
                  (Returns (Some dispatchExecutionInfo,
                            Some (errorString
                                    ("unable to complete request to either "
                                     ++ U (AddrURL destination) ++ " (" ++ Error err
                                     ++ ") or " ++ U (AddrURL dls) ++ " ("
                                     ++ Error deadLetterErr ++ ")"))),
                   finish [message] w)
              | (Returns (deadLetterResponse, dispatchExecutionInfo, None), w) =>
                  (Returns (Some dispatchExecutionInfo, None),
                   finish ([message] ++ opt_list deadLetterResponse)%list w)
              end
              end
          | None =>
              (Returns (Some dispatchExecutionInfo,
                        Some (errorString
                                ("unable to complete request to "
                                 ++ U (AddrURL destination) ++ ": " ++ Error err))),
               finish [message] w)
          end
      | (Returns (responseMessage, dispatchExecutionInfo, None), w) =>
          forward [message] responseMessage (ResponseHeader dispatchExecutionInfo)
            (Some dispatchExecutionInfo) w
      end
  | None =>
      (* No destination url, try to send to reply if available *)
      forward [] (Some message) (additionalHeaders config) None w
  end.

End Dispatch.
End Part003.

(** ** The two dispatchers side by side *)

Inductive Version : Type := V003 | V005.

Definition executeRequest_of (v : Version) :=
  match v with
  | V003 => Part003.executeRequest
  | V005 => Part005.executeRequest
  end.

Definition send_of (v : Version) :=
  match v with
  | V003 => Part003.send
  | V005 => Part005.send
  end.

(** The transformers [executeRequest] writes the request with. *)
Definition withSpan (D : Deps) (target : Addressable)
  (transformers : list Transformer) : list Transformer :=
  if span_IsRecordingEvents D
  then (transformers ++ [PopulateSpan (URL_String (libs D) (AddrURL target))])%list
  else transformers.

(** [executeRequest] gets as far as the network: every step before the call
    to [SendWithRetries] / [DoWithRetries] succeeds. *)
Definition requestBuilt (v : Version) (D : Deps) (target : Addressable)
  (message : Message) (transformers : list Transformer) (w : World) : bool :=
  let written :=
    match cehttp_WriteRequest D message (withSpan D target transformers) with
    | Ok _ => true
    | Err _ => false
    end in
  match v with
  | V003 =>
      match NewCloudEventRequest D target with
      | None => written
      | Some _ => false
      end
  | V005 =>
      match http_NewRequest D (URL_String (libs D) (AddrURL target)) with
      | None =>
          written &&
          match fst (getClientForAddressable (libs D) target (pool w)) with
          | Ok _ => true
          | Err _ => false
          end
      | Some _ => false
      end
  end.

(** The [dispatchInfo] with which the response is processed. *)
Definition infoAtResponse (v : Version) (rt : RoundTrip) : DispatchInfo :=
  match v with
  | V003 => initialDispatchInfo
  | V005 => {| Duration := elapsed rt; ResponseCode := NoResponse;
               ResponseHeader := ∅; ResponseBody := "" |}
  end.

(** ** The Retry-After rule in the words of the specification *)

(** The Retry-After delay of section 4.2: computed only on a 429 or 503
    response, clamped to the ceiling when it exceeds it. *)
Definition retryAfterDelay (ParseTime_Until : string -> option Z)
  (ceiling : Z) (resp : option Response) : Z :=
  match resp with
  | Some r =>
      if bool_decide (StatusCode r = 429%Z \/ StatusCode r = 503%Z) then
        Z.min ceiling (parseRetryAfterDuration ParseTime_Until resp)
      else 0%Z
  | None => 0%Z
  end.

(** ** Fixtures: a concrete environment to run the definitions in *)

Definition testLibs : Libs :=
  {| url_String := fun u => Scheme u ++ "://" ++ Host u ++ Path u;
     x509_SystemCertPool := None;
     x509_AppendCertsFromPEM := fun pem => String.prefix "-----BEGIN CERTIFICATE-----" pem |}.

Definition testDeps : Deps :=
  {| libs := testLibs;
     span_IsRecordingEvents := false;
     http_NewRequest := fun _ => None;
     cehttp_WriteRequest := fun m _ =>
       match m with
       | ToMessage e =>
           Ok ({["Ce-Id" := [ID e]; "Ce-Specversion" := ["1.0"]]}, Data e)
       | NewMessage h b => Ok (h, b)
       end;
     ReadEncoding := fun h _ =>
       match h !! "Ce-Specversion" with
       | Some _ => EncodingBinary
       | None => EncodingUnknown
       end;
     PassThroughHeaders := fun h => h;
     KnNamespaceHeader := "Kn-Namespace";
     brokerFilterHost := "broker-filter.knative-eventing.svc.cluster.local";
     json_Unmarshal_ErrExtensionInfo := fun _ => Err (errorString "invalid character");
     KnativeErrorDataExtensionMaxLength := 1024;
     NewCloudEventRequest := fun _ => None |}.

Definition httpURL (host : string) : URL :=
  {| Scheme := "http"; Opaque := ""; Host := host; Path := "/";
     RawQuery := ""; Fragment := "" |}.

Definition addressableOf (host : string) : Addressable :=
  {| AddrURL := Some (httpURL host); CACerts := None |}.

Definition noURL : Addressable := {| AddrURL := None; CACerts := None |}.

Definition badCerts (host : string) : Addressable :=
  {| AddrURL := Some (httpURL host); CACerts := Some "not a certificate" |}.

Definition ping : Message :=
  ToMessage {| ID := "1"; EventType := "dev.knative.sources.ping";
               Source := "/apis/v1/namespaces/default/pingsources/p"; Data := "{}" |}.

Definition respond (code : Z) (h : Header) (body : string) : RoundTrip :=
  {| elapsed := 5;
     answer := Ok {| StatusCode := code; Status := pretty code; RespHeader := h;
                     Body := body; ReadErr := None |} |}.

Definition refuse : RoundTrip :=
  {| elapsed := 7; answer := Err (errorString "connection refused") |}.

(** A network in which the host [broken] answers 500, the host [down]
    refuses connections, and every other host answers 200 without a body. *)
Definition testNet : Network := fun _ s =>
  if bool_decide (sentURL s = "http://broken/") then respond 500 ∅ "boom"
  else if bool_decide (sentURL s = "http://down/") then refuse
  else respond 200 ∅ "".

Definition emptyWorld : World := {| pool := init; wire := []; finished := [] |}.

Definition plainConfig : senderConfig :=
  {| reply := None; deadLetterSink := None;
     additionalHeaders := {["X-Request-Id" := ["42"]]}; retryConfig := None |}.

Definition replyConfig : senderConfig :=
  {| reply := Some (addressableOf "reply"); deadLetterSink := None;
     additionalHeaders := ∅; retryConfig := None |}.

Definition linear (ceiling : option Z) : RetryConfig :=
  {| RetryMax := 3;
     CheckRetry := fun _ _ => (true, None);
     Backoff := fun n _ => (n * Second)%Z;
     RequestTimeout := 0;
     RetryAfterMaxDuration := ceiling |}.

Definition deadLetterConfig : senderConfig :=
  {| reply := None; deadLetterSink := Some (addressableOf "dls");
     additionalHeaders := ∅; retryConfig := Some (linear None) |}.

Definition tooManyRequests (retryAfter : string) : Response :=
  {| StatusCode := 429; Status := "429 Too Many Requests";
     RespHeader := {["Retry-After" := [retryAfter]]}; Body := ""; ReadErr := None |}.

Definition noDates : string -> option Z := fun _ => None.

(** The cache after a first lookup of the addressable [sink] without CA
    certificates: one client, allocation 0. *)
Definition poolWithSink : PoolState :=
  snd (getClientForAddressable testLibs (addressableOf "sink") init).

Definition sinkClient : Client :=
  {| clientPtr := 0; RootCAs := None; Tuning := None; Timeout := 0 |}.

Definition goodCerts (host : string) : Addressable :=
  {| AddrURL := Some (httpURL host);
     CACerts := Some "-----BEGIN CERTIFICATE-----MIIB-----END CERTIFICATE-----" |}.

(** A network in which every host answers 200 with a plain body. *)
Definition quietNet : Network := fun _ _ => respond 200 ∅ "ok".

(** ** Runs of cache operations *)

Definition run_ops (L : Libs) (ops : list PoolOp) (st : PoolState) : PoolState :=
  fold_left (fun st op => run_op L op st) ops st.

(** The shape of the cache: every client in it is an allocation made
    earlier, built with the tuning now in force and without a timeout of its
    own, and no allocation sits under two URLs. *)
Definition pool_wf (st : PoolState) : Prop :=
  (forall k c, clients st !! k = Some c ->
     (clientPtr c < allocated st)%nat
     /\ Tuning c = connectionArgs st
     /\ Timeout c = 0%Z)
  /\ (forall k1 k2 c1 c2,
        clients st !! k1 = Some c1 -> clients st !! k2 = Some c2 ->
        clientPtr c1 = clientPtr c2 -> k1 = k2).

(** ** The cache as the dispatcher of part_005 uses it *)

(** A request went out on the client that the cache holds for its URL, or on
    a copy of it with the request timeout of the retry configuration. *)
Definition sent_on_pooled_client (rc : option RetryConfig) (p : PoolState)
  (s : Sent) : Prop :=
  exists c, clients p !! sentURL s = Some c
            /\ sentClient s = Some (Part005.retryingClient c rc).

Definition cache_kept (p p' : PoolState) : Prop :=
  forall k c, clients p !! k = Some c -> clients p' !! k = Some c.

Definition pooled_run (rc : option RetryConfig) (w w' : World) : Prop :=
  (pool_wf (pool w) -> pool_wf (pool w'))
  /\ cache_kept (pool w) (pool w')
  /\ exists l, wire w' = (wire w ++ l)%list
               /\ Forall (sent_on_pooled_client rc (pool w')) l.

(** ** SendMessage and its options (part_003, part_005: the same text) *)

(** A [SendOption] writes to the configuration it is given and may return an
    error. *)
Definition SendOption : Type := senderConfig -> senderConfig * option error.

Definition WithReply (r : option Addressable) : SendOption := fun sc =>
  ({| reply := r; deadLetterSink := deadLetterSink sc;
      additionalHeaders := additionalHeaders sc; retryConfig := retryConfig sc |},
   None).

Definition WithDeadLetterSink (dls : option Addressable) : SendOption := fun sc =>
  ({| reply := reply sc; deadLetterSink := dls;
      additionalHeaders := additionalHeaders sc; retryConfig := retryConfig sc |},
   None).

Definition WithHeader (header : Header) : SendOption := fun sc =>
  ({| reply := reply sc; deadLetterSink := deadLetterSink sc;
      additionalHeaders := header; retryConfig := retryConfig sc |},
   None).

(** The options that these two files define. *)
Inductive builtin_option : SendOption -> Prop :=
| builtin_WithReply r : builtin_option (WithReply r)
| builtin_WithDeadLetterSink dls : builtin_option (WithDeadLetterSink dls)
| builtin_WithHeader header : builtin_option (WithHeader header).

(** The loop of [SendMessage] over its options. *)
Fixpoint applyOptions (options : list SendOption) (config : senderConfig)
  : result senderConfig :=
  match options with
  | [] => Ok config
  | opt :: rest =>
      match opt config with
      | (_, Some err) => Err (wrapError "could not apply option" err)
      | (config, None) => applyOptions rest config
      end
  end.

Definition newSenderConfig : senderConfig :=
  {| reply := None; deadLetterSink := None; additionalHeaders := ∅;
     retryConfig := None |}.

Definition SendMessage (v : Version) (D : Deps) (net : Network) (message : Message)
  (destination : Addressable) (options : list SendOption) (w : World)
  : outcome (option DispatchInfo * option error) * World :=
  match applyOptions options newSenderConfig with
  | Err err => (Returns (None, Some err), w)
  | Ok config => send_of v D net message destination config w
  end.

Definition SendEvent (v : Version) (D : Deps) (net : Network) (event : Event)
  (destination : Addressable) (options : list SendOption) (w : World)
  : outcome (option DispatchInfo * option error) * World :=
  SendMessage v D net (ToMessage event) destination options w.

(** ** The sending client (part_003, client file) *)

Module ClientImpl.

(** A [kncloudevents.Request], by the two fields this file reads: the target
    and the HTTP request it wraps (header and body). *)
Record Request : Type := mkRequest {
  target : Addressable;
  header : Header;
  body : string;
}.

(** A [RequestOption] writes to the request it is given and may return an
    error. *)
Definition RequestOption : Type := Request -> Request * option error.

Record MetricTag : Type := mkMetricTag {
  Name : string;
  Namespace : string;
  ResourceGroup : string;
}.

(** [source.ReportArgs] as [reportMetrics] fills it. *)
Record ReportArgs : Type := mkReportArgs {
  argNamespace : string;
  argEventSource : string;
  argEventType : string;
  argName : string;
  argResourceGroup : string;
}.

(** [statsReporter] is kept as whether it is set; what it is told goes to
    [reports] of the world. *)
Record clientImpl : Type := mkClientImpl {
  timeout : Z;
  statsReporter : bool;
  requestOptions : list RequestOption;
}.

Definition newClientImpl : clientImpl :=
  {| timeout := 0; statsReporter := false; requestOptions := [] |}.

Definition SetTimeout (t : Z) (c : clientImpl) : clientImpl :=
  {| timeout := t; statsReporter := statsReporter c;
     requestOptions := requestOptions c |}.

Definition SetStatsReporter (reporter : bool) (c : clientImpl) : clientImpl :=
  {| timeout := timeout c; statsReporter := reporter;
     requestOptions := requestOptions c |}.

Definition AddRequestOptions (opts : list RequestOption) (c : clientImpl)
  : clientImpl :=
  if bool_decide (0 < length opts)%nat
  then {| timeout := timeout c; statsReporter := statsReporter c;
          requestOptions := (requestOptions c ++ opts)%list |}
  else c.

(** What the HTTP client is handed: the request, the client struct that
    carries it, and the retry configuration when the retrying client wraps
    it. *)
Record Dispatched : Type := mkDispatched {
  dRequest : Request;
  dClient : Client;
  dRetry : option RetryConfig;
}.

Definition Transport : Type := list Dispatched -> Dispatched -> result Response.

Record State : Type := mkState {
  cache : PoolState;
  sent : list Dispatched;
  reports : list (ReportArgs * Z);
}.

Definition with_Timeout (t : Z) (c : Client) : Client :=
  {| clientPtr := clientPtr c; RootCAs := RootCAs c; Tuning := Tuning c;
     Timeout := t |}.

Section Client.
Variable L : Libs.
(** [http.NewEventFromHTTPRequest] on the request of the response *)
Variable NewEventFromHTTPRequest : Request -> result Event.
(** [retryablehttp.FromRequest]: [Some err] on failure *)
Variable FromRequest : Request -> option error.
Variable transport : Transport.

Fixpoint applyOptionList (opts : list RequestOption) (req : Request)
  : Request * option error :=
  match opts with
  | [] => (req, None)
  | opt :: rest =>
      match opt req with
      | (req, Some err) => (req, Some (wrapError "could not apply request option" err))
      | (req, None) => applyOptionList rest req
      end
  end.

Definition applyRequestOptions (c : clientImpl) (req : Request)
  : Request * option error :=
  applyOptionList (requestOptions c) req.

Definition getConfiguredHttpClient (c : clientImpl) (target : Addressable)
  (st : PoolState) : result Client * PoolState :=
  match getClientForAddressable L target st with
  | (Err err, st) => (Err (wrapError "failed to get client for addressable" err), st)
  | (Ok client, st) =>
      (Ok (if bool_decide (timeout c > 0)%Z then with_Timeout (timeout c) client
           else client), st)
  end.

(** [MetricTagFrom(ctx)] is the [tags] argument; [response.Request] is the
    request that was sent. *)
Definition reportMetrics (c : clientImpl) (tags : option MetricTag)
  (req : Request) (answer : result Response) (w : State) : State :=
  if statsReporter c then
    match answer with
    | Err _ => w
    | Ok response =>
        match NewEventFromHTTPRequest req with
        | Err _ => w
        | Ok event =>
            match tags with
            | None => w
            | Some tags =>
                {| cache := cache w; sent := sent w;
                   reports :=
                     (reports w ++
                      [({| argNamespace := Namespace tags;
                           argEventSource := Source event;
                           argEventType := EventType event;
                           argName := Name tags;
                           argResourceGroup := ResourceGroup tags |},
                        StatusCode response)])%list |}
            end
        end
    end
  else w.

Definition dispatch (c : clientImpl) (tags : option MetricTag) (d : Dispatched)
  (st : PoolState) (w : State) : result Response * State :=
  let answer := transport (sent w) d in
  (answer,
   reportMetrics c tags (dRequest d) answer
     {| cache := st; sent := (sent w ++ [d])%list; reports := reports w |}).

Definition Send (c : clientImpl) (tags : option MetricTag) (req : Request)
  (w : State) : result Response * State :=
  match applyRequestOptions c req with
  | (_, Some err) => (Err (wrapError "could not apply request options" err), w)
  | (req, None) =>
      match getConfiguredHttpClient c (target req) (cache w) with
      | (Err err, st) =>
          (Err (wrapError "failed to get client for addressable" err),
           {| cache := st; sent := sent w; reports := reports w |})
      | (Ok client, st) =>
          dispatch c tags {| dRequest := req; dClient := client; dRetry := None |} st w
      end
  end.

Definition SendWithRetries (c : clientImpl) (tags : option MetricTag)
  (req : Request) (config : option RetryConfig) (w : State)
  : result Response * State :=
  match config with
  | None => Send c tags req w
  | Some cfg =>
      match applyRequestOptions c req with
      | (_, Some err) => (Err (wrapError "could not apply request options" err), w)
      | (req, None) =>
          match getConfiguredHttpClient c (target req) (cache w) with
          | (Err err, st) =>
              (Err (wrapError "failed to get client for addressable" err),
               {| cache := st; sent := sent w; reports := reports w |})
          | (Ok client, st) =>
              let client :=
                if bool_decide (RequestTimeout cfg <> 0%Z)
                then with_Timeout (RequestTimeout cfg) client else client in
              match FromRequest req with
              | Some err =>
                  (Err (wrapError "could not create retryable request" err),
                   {| cache := st; sent := sent w; reports := reports w |})
              | None =>
                  dispatch c tags
                    {| dRequest := req; dClient := client; dRetry := Some cfg |} st w
              end
          end
      end
  end.

End Client.

(** The timeout a call runs under: the request timeout of the retry
    configuration when it is set, else the timeout of the sending client when
    it is positive, else that of the pooled client. *)
Definition effectiveTimeout (c : clientImpl) (config : option RetryConfig)
  (pooled : Client) : Z :=
  match config with
  | Some cfg =>
      if bool_decide (RequestTimeout cfg <> 0%Z) then RequestTimeout cfg
      else if bool_decide (timeout c > 0)%Z then timeout c else Timeout pooled
  | None => if bool_decide (timeout c > 0)%Z then timeout c else Timeout pooled
  end.

End ClientImpl.

(** ** The fake client of the tests (part_004) *)

Module FakeClient.

Record FakeClient : Type := mkFakeClient {
  delay : Z;
  sentEvents : list Event;
  requestOptions : list ClientImpl.RequestOption;
}.

Definition NewFakeClient : FakeClient :=
  {| delay := 0; sentEvents := []; requestOptions := [] |}.

Definition NewFakeClientWithDelay (d : Z) : FakeClient :=
  {| delay := d; sentEvents := []; requestOptions := [] |}.

Definition AddRequestOptions (opts : list ClientImpl.RequestOption)
  (c : FakeClient) : FakeClient :=
  {| delay := delay c; sentEvents := sentEvents c;
     requestOptions := (requestOptions c ++ opts)%list |}.

Section Fake.
(** [binding.ToEvent] on the message of the request *)
Variable ToEvent : ClientImpl.Request -> result Event.

Fixpoint applyRequestOptions (opts : list ClientImpl.RequestOption)
  (req : ClientImpl.Request) : ClientImpl.Request * option error :=
  match opts with
  | [] => (req, None)
  | opt :: rest =>
      match opt req with
      | (req, Some err) => (req, Some (wrapError "could not apply request option" err))
      | (req, None) => applyRequestOptions rest req
      end
  end.

(** [Send] returns a response whose only field set is [StatusCode], given
    here by that code. The sleep of [delay] is not modelled. *)
Definition Send (c : FakeClient) (request : ClientImpl.Request)
  : result Z * FakeClient :=
  match applyRequestOptions (requestOptions c) request with
  | (_, Some err) => (Err err, c)
  | (request, None) =>
      match ToEvent request with
      | Err err => (Err err, c)
      | Ok event =>
          (Ok StatusOK,
           {| delay := delay c; sentEvents := (sentEvents c ++ [event])%list;
              requestOptions := requestOptions c |})
      end
  end.

Definition SendWithRetries (c : FakeClient) (request : ClientImpl.Request)
  (config : option RetryConfig) : result Z * FakeClient :=
  Send c request.

(** A run of calls, each with its retry configuration. *)
Fixpoint sendAll (c : FakeClient)
  (calls : list (ClientImpl.Request * option RetryConfig))
  : list (result Z) * FakeClient :=
  match calls with
  | [] => ([], c)
  | (request, config) :: rest =>
      let '(r, c) := SendWithRetries c request config in
      let '(rs, c) := sendAll c rest in
      (r :: rs, c)
  end.

(** The event a call records, if it records one. *)
Definition recorded (c : FakeClient) (request : ClientImpl.Request) : option Event :=
  match applyRequestOptions (requestOptions c) request with
  | (_, Some _) => None
  | (request, None) =>
      match ToEvent request with
      | Ok event => Some event
      | Err _ => None
      end
  end.

End Fake.
End FakeClient.

(** ** Token review (part_001, auth) *)

Module Auth.

Record UserInfo : Type := mkUserInfo {
  Username : string;
  UID : string;
  Groups : list string;
}.

Record TokenReviewStatus : Type := mkTokenReviewStatus {
  Authenticated : bool;
  User : UserInfo;
  StatusError : string;
}.

Record TokenReview : Type := mkTokenReview {
  Token : string;
  Audiences : list string;
  Status : TokenReviewStatus;
}.

Definition zeroStatus : TokenReviewStatus :=
  {| Authenticated := false;
     User := {| Username := ""; UID := ""; Groups := [] |};
     StatusError := "" |}.

Section Verify.
(** [TokenReviews().Create]: what it returns, and the object it was passed as
    that object is after the call. *)
Variable Create : TokenReview -> result TokenReview * TokenReview.
(** [fmt.Errorf] with the given string as its format and no arguments *)
Variable Errorf : string -> string.

Definition VerifyJWT (jwt audience : string) : result UserInfo :=
  let tokenReview :=
    {| Token := jwt; Audiences := [audience]; Status := zeroStatus |} in
  match Create tokenReview with
  | (Err err, _) => Err (wrapError "could not create token review" err)
  | (Ok tokenReviewResult, tokenReview) =>
      if bool_decide (StatusError (Status tokenReviewResult) <> "")
      then Err (errorString (Errorf (StatusError (Status tokenReviewResult))))
      else if negb (Authenticated (Status tokenReviewResult))
      then Err (errorString "token review status: user not authenticated")
      else Ok (User (Status tokenReview))
  end.

End Verify.
End Auth.

(** ** The event of a ping source (runner.go) *)

Module MTPing.

(** The fields of [sourcesv1.PingSource] that [makeEvent] reads.
    [CloudEventOverrides] is a pointer to a struct whose [Extensions] is a
    map that may be nil. *)
Record PingSource : Type := mkPingSource {
  Name : string;
  Namespace : string;
  ContentType : string;
  Data : string;
  DataBase64 : string;
  CloudEventOverrides : option (option (gmap string string));
}.

Section MakeEvent.
(** [cloudevents.Event] and the calls made on it *)
Variable CloudEvent : Type.
Variable NewEvent : CloudEvent.
Variable SetType : string -> CloudEvent -> CloudEvent.
Variable SetSource : string -> CloudEvent -> CloudEvent.
Variable SetExtension : string -> string -> CloudEvent -> CloudEvent.
Variable SetData : string -> string -> CloudEvent -> CloudEvent * option error.
(** [sourcesv1.PingSourceEventType], [sourcesv1.PingSourceSource] *)
Variable PingSourceEventType : string.
Variable PingSourceSource : string -> string -> string.
(** [base64.StdEncoding.DecodeString], its error dropped *)
Variable DecodeString : string -> string.
(** the order in which [range] visits the entries of a map *)
Variable rangeOver : gmap string string -> list (string * string).
(** [fmt.Sprintf] of the [SetData] error message *)
Variable SetDataError : string -> string -> error -> string.

Definition makeEvent (source : PingSource) : CloudEvent * option error :=
  let event := NewEvent in
  let event := SetType PingSourceEventType event in
  let event := SetSource (PingSourceSource (Namespace source) (Name source)) event in
  let event :=
    match CloudEventOverrides source with
    | Some (Some extensions) =>
        fold_left (fun event kv => SetExtension (fst kv) (snd kv) event)
          (rangeOver extensions) event
    | _ => event
    end in
  let data :=
    if bool_decide (DataBase64 source <> "") then Some (DecodeString (DataBase64 source))
    else if bool_decide (Data source <> "") then Some (Data source)
    else None in
  match data with
  | Some data =>
      match SetData (ContentType source) data event with
      | (event, Some err) =>
          (event, Some (errorString (SetDataError (ContentType source) data err)))
      | (event, None) => (event, None)
      end
  | None => (event, None)
  end.

End MakeEvent.
End MTPing.

(** ** The store delegate of the API server source (part_002) *)

Module ApiServer.

Inductive Level : Type := LevelDebug | LevelInfo | LevelError.

(** A log call, by its level and its message or format string; the fields
    and arguments logged with it are left out. *)
Definition LogLine : Type := (Level * string)%type.

Inductive Change : Type := Added | Updated | Deleted.

Section Delegate.
(** The object handed to the store *)
Variable Obj : Type.
(** [events.MakeAddEvent], [MakeUpdateEvent], [MakeDeleteEvent] with the
    fields of the delegate *)
Variable MakeEvent : Change -> Obj -> result Event.
(** [uuid.New().String()], by the number of ids drawn so far *)
Variable uuid_New : nat -> string.
(** [kncloudevents.NewRequest] for the target: [Some err] on failure *)
Variable NewRequest : option error.
(** [req.BindEvent]: [Some err] on failure *)
Variable BindEvent : Event -> option error.
(** [a.ce.Send] on the request bound to the event: the response and the
    error, either of which may be nil *)
Variable ceSend : Event -> option Response * option error.

Record State : Type := mkState {
  ids : nat;
  logged : list LogLine;
  delivered : list Event;
}.

Definition log (l : Level) (msg : string) (st : State) : State :=
  {| ids := ids st; logged := (logged st ++ [(l, msg)])%list;
     delivered := delivered st |}.

Definition SetID (id : string) (e : Event) : Event :=
  {| ID := id; EventType := EventType e; Source := Source e; Data := Data e |}.

(** [delivered] lists the events handed to [Send]. The deferred debug line
    is written on every way out, a panic included. *)
Definition sendCloudEvent (event : Event) (st : State) : outcome unit * State :=
  let event := SetID (uuid_New (ids st)) event in
  let st := {| ids := S (ids st); logged := logged st; delivered := delivered st |} in
  let finished := log LevelDebug "Finished sending cloudevent id: " in
  let st := log LevelDebug "sending cloudevent id: %s, source: %s, subject: %s" st in
  match NewRequest with
  | Some err =>
      (Returns tt, finished (log LevelError "failed to create cloudevent request" st))
  | None =>
      match BindEvent event with
      | Some err =>
          (Returns tt,
           finished (log LevelError "failed to bind cloudevent to request" st))
      | None =>
          let st := {| ids := ids st; logged := logged st;
                       delivered := (delivered st ++ [event])%list |} in
          match ceSend event with
          | (None, _) => (Panics "nil pointer dereference", finished st)
          | (Some resp, _) =>
              if bool_decide (StatusCode resp < 200)%Z
                 || bool_decide (StatusCode resp >= 400)%Z
              then (Returns tt, finished (log LevelError "failed to send cloudevent" st))
              else (Returns tt,
                    finished
                      (log LevelDebug
                         "cloudevent sent id: %s, source: %s, subject: %s" st))
          end
      end
  end.

(** [Add], [Update] and [Delete]: the same text but for the event maker and
    the level of the log line. *)
Definition handle (change : Change) (obj : Obj) (st : State)
  : outcome (option error) * State :=
  match MakeEvent change obj with
  | Err err => (Returns (Some err), log LevelInfo "event creation failed" st)
  | Ok event =>
      match sendCloudEvent event st with
      | (Panics r, st) => (Panics r, st)
      | (Returns _, st) => (Returns None, st)
      end
  end.

End Delegate.
End ApiServer.

(** ** Further fixtures *)

(** A network in which the host [echo] answers 200 with an event, the host
    [down] refuses connections, and every other host answers 200 without a
    body. *)
Definition echoNet : Network := fun _ s =>
  if bool_decide (sentURL s = "http://echo/")
  then respond 200 {["Ce-Specversion" := ["1.0"]]} "pong"
  else if bool_decide (sentURL s = "http://down/") then refuse
  else respond 200 ∅ "".

Definition forwardConfig (replyHost : string) (dls : option Addressable)
  : senderConfig :=
  {| reply := Some (addressableOf replyHost); deadLetterSink := dls;
     additionalHeaders := {["Kn-Namespace" := ["default"]]}; retryConfig := None |}.

Definition tunedPool : PoolState :=
  ConfigureConnectionArgs (Some {| MaxIdleConns := 10; MaxIdleConnsPerHost := 2 |})
    poolWithSink.

Definition pingRequest : ClientImpl.Request :=
  {| ClientImpl.target := addressableOf "sink";
     ClientImpl.header := {["Ce-Id" := ["1"]]};
     ClientImpl.body := "{}" |}.

Definition pingEvent : Event :=
  {| ID := "1"; EventType := "dev.knative.sources.ping";
     Source := "/apis/v1/namespaces/default/pingsources/p"; Data := "{}" |}.

Definition okTransport : ClientImpl.Transport := fun _ _ =>
  Ok {| StatusCode := 202; Status := "202 Accepted"; RespHeader := ∅;
        Body := ""; ReadErr := None |}.

Definition slowClient : ClientImpl.clientImpl :=
  ClientImpl.SetStatsReporter true
    (ClientImpl.SetTimeout 30 ClientImpl.newClientImpl).

Definition freshState : ClientImpl.State :=
  {| ClientImpl.cache := init; ClientImpl.sent := []; ClientImpl.reports := [] |}.

Definition pingTag : ClientImpl.MetricTag :=
  {| ClientImpl.Name := "p"; ClientImpl.Namespace := "default";
     ClientImpl.ResourceGroup := "pingsources.sources.knative.dev" |}.

Definition readsAsPing : ClientImpl.Request -> result Event :=
  fun _ => Ok pingEvent.

Definition noContextError : ClientImpl.Request -> option error :=
  fun _ => None.

(** One call through [slowClient] on an empty cache. *)
Definition pingCall : result Response * ClientImpl.State :=
  ClientImpl.SendWithRetries testLibs readsAsPing noContextError okTransport
    slowClient (Some pingTag) pingRequest None freshState.

(** A body of 769 bytes: its base64 encoding takes 1028. *)
Definition longBody : string := string_of_list_ascii (repeat "x"%char 769).

(** A network in which the host [broken] answers 500 with [longBody] and
    every other host answers 200 without a body. *)
Definition verboseNet : Network := fun _ s =>
  if bool_decide (sentURL s = "http://broken/") then respond 500 ∅ longBody
  else respond 200 ∅ "".

(** A response with status 200 whose body cannot be read to the end. *)
Definition tornResponse : Response :=
  {| StatusCode := 200; Status := "200 OK"; RespHeader := ∅; Body := "";
     ReadErr := Some (errorString "unexpected EOF") |}.

Definition tornNet : Network := fun _ _ =>
  {| elapsed := 5; answer := Ok tornResponse |}.

(** * Properties *)

(** ** URL sanitization *)

(** C9: sanitizing a nil URL gives nil; a URL whose scheme is [http] or
    [https] comes back unchanged; any other URL is rewritten to scheme
    [http], its own host, path [/] and nothing else. *)
Theorem sanitizeURL_spec :
  sanitizeURL None = None
  /\ (forall u, Scheme u = "http" \/ Scheme u = "https" ->
        sanitizeURL (Some u) = Some u)
  /\ (forall u, Scheme u <> "http" -> Scheme u <> "https" ->
        exists u', sanitizeURL (Some u) = Some u'
                   /\ Scheme u' = "http" /\ Host u' = Host u /\ Path u' = "/"
                   /\ Opaque u' = "" /\ RawQuery u' = "" /\ Fragment u' = "").
Proof.
  split; [reflexivity|]. split.
  - intros u [H|H]; unfold sanitizeURL; rewrite H; reflexivity.
  - intros u Hhttp Hhttps. unfold sanitizeURL.
    rewrite (bool_decide_eq_false_2 _ Hhttp), (bool_decide_eq_false_2 _ Hhttps).
    simpl. eexists. split; [reflexivity|]. simpl. repeat split.
Qed.

Lemma sanitizeURL_spec_witness :
  (exists u', sanitizeURL (Some (mkURL "" "" "sink.default.svc" "" "" "")) = Some u'
              /\ Scheme u' = "http" /\ Host u' = "sink.default.svc" /\ Path u' = "/"
              /\ Opaque u' = "" /\ RawQuery u' = "" /\ Fragment u' = "")
  /\ sanitizeURL (Some (mkURL "https" "" "sink" "/events" "a=b" ""))
     = Some (mkURL "https" "" "sink" "/events" "a=b" "").
Proof.
  split.
  - apply (proj2 (proj2 sanitizeURL_spec)); simpl; discriminate.
  - apply (proj1 (proj2 sanitizeURL_spec)). right. reflexivity.
Defined.

(** ** Backoff *)

Section BackoffFacts.
Variable PT : string -> option Z.

Lemma generateBackoffFn_max cfg n resp ceiling :
  RetryAfterMaxDuration cfg = Some ceiling ->
  generateBackoffFn PT cfg n resp
  = Z.max (Backoff cfg n resp) (retryAfterDelay PT ceiling resp).
Proof.
  intros Hc. unfold generateBackoffFn, retryAfterDelay. rewrite Hc.
  unfold StatusTooManyRequests, StatusServiceUnavailable.
  generalize (parseRetryAfterDuration PT resp) (Backoff cfg n resp).
  intros d b.
  destruct resp as [r|]; repeat case_bool_decide; simpl in *;
    repeat case_bool_decide; first [lia | tauto].
Qed.

Lemma generateBackoffFn_nil cfg n resp :
  RetryAfterMaxDuration cfg = None ->
  generateBackoffFn PT cfg n resp = Z.max (Backoff cfg n resp) 0.
Proof.
  intros Hc. unfold generateBackoffFn. rewrite Hc. case_bool_decide; lia.
Qed.

(** C3: with a positive ceiling, the backoff for attempt [n] is the larger of
    the configured backoff and the Retry-After delay; that delay is zero
    unless the response is a 429 or a 503, is the ceiling when the header asks
    for more, and is the header's value when it asks for no more. *)
Theorem backoff_with_positive_ceiling cfg ceiling n resp :
  RetryAfterMaxDuration cfg = Some ceiling -> (0 < ceiling)%Z ->
  generateBackoffFn PT cfg n resp
  = Z.max (Backoff cfg n resp) (retryAfterDelay PT ceiling resp)
  /\ (resp = None -> retryAfterDelay PT ceiling resp = 0%Z)
  /\ (forall r, resp = Some r ->
        StatusCode r <> 429%Z -> StatusCode r <> 503%Z ->
        retryAfterDelay PT ceiling resp = 0%Z)
  /\ (forall r, resp = Some r ->
        StatusCode r = 429%Z \/ StatusCode r = 503%Z ->
        ((ceiling < parseRetryAfterDuration PT resp)%Z ->
           retryAfterDelay PT ceiling resp = ceiling)
        /\ ((parseRetryAfterDuration PT resp <= ceiling)%Z ->
           retryAfterDelay PT ceiling resp = parseRetryAfterDuration PT resp)).
Proof.
  intros Hc _. split; [exact (generateBackoffFn_max cfg n resp ceiling Hc)|].
  split; [intros ->; reflexivity|]. split.
  - intros r -> N1 N2. unfold retryAfterDelay.
    rewrite bool_decide_eq_false_2 by tauto. reflexivity.
  - intros r -> Hs. unfold retryAfterDelay.
    rewrite (bool_decide_eq_true_2 _ Hs). split; intros; lia.
Qed.

(** C4, as amended: with a nil or a zero ceiling the Retry-After header plays
    no part whenever the configured backoff is not negative: the backoff is
    the configured one. With a nil ceiling it is in every case the larger of
    the configured backoff and zero. *)
Theorem backoff_without_ceiling cfg n resp :
  RetryAfterMaxDuration cfg = None \/ RetryAfterMaxDuration cfg = Some 0%Z ->
  ((0 <= Backoff cfg n resp)%Z ->
     generateBackoffFn PT cfg n resp = Backoff cfg n resp)
  /\ (RetryAfterMaxDuration cfg = None ->
     generateBackoffFn PT cfg n resp = Z.max (Backoff cfg n resp) 0).
Proof.
  intros Hc. split.
  - intros Hpos. destruct Hc as [Hc|Hc].
    + rewrite (generateBackoffFn_nil _ _ _ Hc). lia.
    + rewrite (generateBackoffFn_max _ _ _ _ Hc). unfold retryAfterDelay.
      destruct resp as [r|]; [case_bool_decide|]; lia.
  - apply generateBackoffFn_nil.
Qed.

End BackoffFacts.

Lemma backoff_with_positive_ceiling_witness :
  generateBackoffFn noDates (linear (Some (10 * Second)%Z)) 2 (Some (tooManyRequests "30"))
  = Z.max (2 * Second) (retryAfterDelay noDates (10 * Second) (Some (tooManyRequests "30")))
  /\ retryAfterDelay noDates (10 * Second) (Some (tooManyRequests "30")) = (10 * Second)%Z.
Proof.
  pose proof (backoff_with_positive_ceiling noDates (linear (Some (10 * Second)%Z))
                (10 * Second)%Z 2 (Some (tooManyRequests "30")) eq_refl eq_refl)
    as (H1 & _ & _ & H4).
  split; [exact H1|].
  apply (H4 _ eq_refl); [left; reflexivity | vm_compute; reflexivity].
Defined.

Lemma backoff_without_ceiling_witness :
  generateBackoffFn noDates (linear None) 2 (Some (tooManyRequests "30"))
  = (2 * Second)%Z.
Proof.
  apply (proj1 (backoff_without_ceiling noDates (linear None) 2
                  (Some (tooManyRequests "30")) (or_introl eq_refl))).
  vm_compute. discriminate.
Defined.

(** C4, as stated, fails: a configured backoff of -1ns under a nil ceiling
    gives a backoff of 0, not -1ns. *)
Lemma backoff_without_ceiling_counterexample :
  ~ (forall PT cfg n resp,
       RetryAfterMaxDuration cfg = None \/ RetryAfterMaxDuration cfg = Some 0%Z ->
       generateBackoffFn PT cfg n resp = Backoff cfg n resp).
Proof.
  intros H.
  specialize (H noDates
                {| RetryMax := 1; CheckRetry := fun _ _ => (false, None);
                   Backoff := fun _ _ => (-1)%Z; RequestTimeout := 0;
                   RetryAfterMaxDuration := None |}
                1%Z None (or_introl eq_refl)).
  vm_compute in H. discriminate H.
Qed.

(** ** The client cache *)

Section PoolFacts.
Variable L : Libs.

Lemma createNewClient_unparsable a st :
  unparsable_CACerts L a ->
  exists e,
    createNewClient L a st = (Err e, st)
    /\ (x509_SystemCertPool L = None ->
        e = errorString "failed to append CA certs from PEM to cert pool").
Proof.
  intros (pem & Hpem & Hne & Happ). unfold createNewClient.
  rewrite Hpem, (bool_decide_eq_false_2 _ Hne), Happ.
  destruct (x509_SystemCertPool L); eexists; (split; [reflexivity|]);
    [discriminate | reflexivity].
Qed.

Lemma createNewClient_clients a st r st' :
  createNewClient L a st = (r, st') ->
  clients st' = clients st /\ connectionArgs st' = connectionArgs st.
Proof.
  unfold createNewClient. intros H.
  repeat (case_match; simplify_eq); simpl; auto.
Qed.

Lemma getClientForAddressable_hit a st c :
  clients st !! URL_String L (AddrURL a) = Some c ->
  getClientForAddressable L a st = (Ok c, st).
Proof. intros H. unfold getClientForAddressable. rewrite H. reflexivity. Qed.

Lemma getClientForAddressable_cached a st c st' :
  getClientForAddressable L a st = (Ok c, st') ->
  clients st' !! URL_String L (AddrURL a) = Some c.
Proof.
  unfold getClientForAddressable. intros H.
  destruct (clients st !! URL_String L (AddrURL a)) eqn:Hk.
  - simplify_eq. exact Hk.
  - destruct (createNewClient L a st) as [[c'|e] st1]; simplify_eq.
    simpl. apply lookup_insert_eq.
Qed.

(** C6, as amended: when the CA material of an addressable is present and
    does not parse, [createNewClient] returns an error and builds nothing;
    [getClientForAddressable] hands that error on when the cache has no
    client for the URL; the upsert handler prints the error and leaves the
    cache as it was. The handler replaces the cached client whenever the
    creation succeeds. *)
Theorem unparsable_certs_create_error a st :
  unparsable_CACerts L a ->
  exists e,
    createNewClient L a st = (Err e, st)
    /\ (x509_SystemCertPool L = None ->
        e = errorString "failed to append CA certs from PEM to cert pool")
    /\ (clients st !! URL_String L (AddrURL a) = None ->
        getClientForAddressable L a st
        = (Err (wrapError "failed to create new client for addressable" e), st))
    /\ clients (AddOrUpdateAddressableHandler L a st) = clients st
    /\ printed (AddOrUpdateAddressableHandler L a st)
       = (printed st ++ [("failed to create new client: " ++ Error e)%string])%list
    /\ (forall b c st',
          createNewClient L b st = (Ok c, st') ->
          clients (AddOrUpdateAddressableHandler L b st)
          = <[URL_String L (AddrURL b) := c]> (clients st)).
Proof.
  intros Hbad. destruct (createNewClient_unparsable a st Hbad) as (e & Hc & He).
  exists e. split; [exact Hc|]. split; [exact He|]. split.
  { intros Hmiss. unfold getClientForAddressable. rewrite Hmiss, Hc. reflexivity. }
  unfold AddOrUpdateAddressableHandler. rewrite Hc. simpl.
  split; [reflexivity|]. split; [reflexivity|].
  intros b c st' Hb. rewrite Hb. simpl.
  destruct (createNewClient_clients _ _ _ _ Hb) as [-> _]. reflexivity.
Qed.

(** C10, as amended: a lookup whose URL has a cached client returns that
    client and changes nothing, whatever CA certificates the addressable
    carries; and an entry of the cache stays as it is under every operation
    except an upsert for its URL that succeeds in creating a client, a delete
    for its URL, and a reconfiguration with different tuning, which empties
    the cache. *)
Theorem cache_keyed_by_url :
  (forall a st c,
     clients st !! URL_String L (AddrURL a) = Some c ->
     getClientForAddressable L a st = (Ok c, st))
  /\ (forall url certs certs' st c st',
        getClientForAddressable L {| AddrURL := url; CACerts := certs |} st = (Ok c, st') ->
        getClientForAddressable L {| AddrURL := url; CACerts := certs' |} st' = (Ok c, st'))
  /\ (forall op st k c,
        clients st !! k = Some c ->
        clients (run_op L op st) !! k = Some c
        \/ (exists a c' st', op = OpUpsert a /\ URL_String L (AddrURL a) = k
                             /\ createNewClient L a st = (Ok c', st')
                             /\ clients (run_op L op st) !! k = Some c')
        \/ (exists a, op = OpDelete a /\ URL_String L (AddrURL a) = k
                      /\ clients (run_op L op st) !! k = None)
        \/ (exists ca, op = OpConfigure ca
                       /\ same_config ca (connectionArgs st) = false
                       /\ clients (run_op L op st) = ∅)).
Proof.
  split; [exact getClientForAddressable_hit|]. split.
  { intros url certs certs' st c st' H.
    apply getClientForAddressable_hit.
    exact (getClientForAddressable_cached _ _ _ _ H). }
  intros op st k c Hk. destruct op as [a|a|a|ca]; simpl.
  - left. unfold getClientForAddressable.
    destruct (clients st !! URL_String L (AddrURL a)) eqn:Ha; [exact Hk|].
    destruct (createNewClient L a st) as [[c'|e] st1] eqn:Hc; simpl;
      destruct (createNewClient_clients _ _ _ _ Hc) as [Hcl _]; rewrite Hcl;
      [|exact Hk].
    rewrite lookup_insert_ne; [exact Hk|]. intros <-. congruence.
  - unfold AddOrUpdateAddressableHandler.
    destruct (createNewClient L a st) as [[c'|e] st1] eqn:Hc; simpl;
      destruct (createNewClient_clients _ _ _ _ Hc) as [Hcl _]; rewrite Hcl.
    + destruct (decide (URL_String L (AddrURL a) = k)) as [<-|Hne].
      * right. left. exists a, c', st1.
        split; [reflexivity|]. split; [reflexivity|]. split; [exact Hc|].
        apply lookup_insert_eq.
      * left. rewrite lookup_insert_ne; auto.
    + left. exact Hk.
  - unfold DeleteAddressableHandler. simpl.
    destruct (decide (URL_String L (AddrURL a) = k)) as [<-|Hne].
    + right. right. left. exists a. repeat split. apply lookup_delete_eq.
    + left. rewrite lookup_delete_ne; auto.
  - unfold ConfigureConnectionArgs.
    destruct (same_config ca (connectionArgs st)) eqn:Hs; [left; exact Hk|].
    right. right. right. exists ca. split; [reflexivity|]. split; [exact Hs|].
    simpl. rewrite bool_decide_eq_true_2; [reflexivity|].
    destruct (decide (clients st = ∅)) as [He|Hne].
    + rewrite He in Hk. rewrite lookup_empty in Hk. discriminate.
    + apply map_size_non_empty_iff in Hne. lia.
Qed.

End PoolFacts.

Lemma unparsable_certs_create_error_witness :
  exists e,
    createNewClient testLibs (badCerts "sink") init = (Err e, init)
    /\ (x509_SystemCertPool testLibs = None ->
        e = errorString "failed to append CA certs from PEM to cert pool")
    /\ (clients init !! URL_String testLibs (AddrURL (badCerts "sink")) = None ->
        getClientForAddressable testLibs (badCerts "sink") init
        = (Err (wrapError "failed to create new client for addressable" e), init))
    /\ clients (AddOrUpdateAddressableHandler testLibs (badCerts "sink") init)
       = clients init
    /\ printed (AddOrUpdateAddressableHandler testLibs (badCerts "sink") init)
       = (printed init ++ [("failed to create new client: " ++ Error e)%string])%list
    /\ (forall b c st',
          createNewClient testLibs b init = (Ok c, st') ->
          clients (AddOrUpdateAddressableHandler testLibs b init)
          = <[URL_String testLibs (AddrURL b) := c]> (clients init)).
Proof.
  apply (unparsable_certs_create_error testLibs (badCerts "sink") init).
  exists "not a certificate". repeat split. discriminate.
Defined.

(** C6, as stated, fails for the upsert handler: with a client cached for
    the URL, an upsert whose CA material does not parse returns nothing to
    its caller and does not replace the cached client, and the next lookup
    for that addressable yields the old client without an error. *)
Lemma upsert_unparsable_certs_counterexample :
  unparsable_CACerts testLibs (badCerts "sink")
  /\ clients poolWithSink !! "http://sink/" = Some sinkClient
  /\ clients (AddOrUpdateAddressableHandler testLibs (badCerts "sink") poolWithSink)
       !! "http://sink/" = Some sinkClient
  /\ getClientForAddressable testLibs (badCerts "sink")
       (AddOrUpdateAddressableHandler testLibs (badCerts "sink") poolWithSink)
     = (Ok sinkClient,
        AddOrUpdateAddressableHandler testLibs (badCerts "sink") poolWithSink).
Proof.
  split; [exists "not a certificate"; repeat split; discriminate|].
  split; [reflexivity|]. split; reflexivity.
Qed.

Lemma cache_keyed_by_url_witness :
  getClientForAddressable testLibs (goodCerts "sink") poolWithSink
  = (Ok sinkClient, poolWithSink).
Proof.
  apply (proj1 (cache_keyed_by_url testLibs)). reflexivity.
Defined.

(** C10, as stated, fails: a reconfiguration with new tuning removes a cached
    entry, and it is neither the upsert nor the delete handler. *)
Lemma cache_keyed_by_url_counterexample :
  ~ (forall L op st k c,
       clients st !! k = Some c ->
       clients (run_op L op st) !! k <> Some c ->
       (exists a, op = OpUpsert a /\ URL_String L (AddrURL a) = k)
       \/ (exists a, op = OpDelete a /\ URL_String L (AddrURL a) = k)).
Proof.
  intros H.
  destruct (H testLibs
              (OpConfigure (Some {| MaxIdleConns := 10; MaxIdleConnsPerHost := 2 |}))
              poolWithSink "http://sink/" sinkClient eq_refl)
    as [(a & Ha & _)|(a & Ha & _)]; [|discriminate Ha..].
  vm_compute. discriminate.
Qed.

(** ** One call of executeRequest *)

Section ExecuteFacts.
Variable D : Deps.
Variable net : Network.

Lemma with_pool_same w : with_pool (pool w) w = w.
Proof. destruct w; reflexivity. Qed.

Lemma getClientForAddressable_err L a st e st' :
  getClientForAddressable L a st = (Err e, st') -> st' = st.
Proof.
  unfold getClientForAddressable, createNewClient. intros H.
  repeat (case_match; simplify_eq); reflexivity.
Qed.

(** When a step before the network fails, nothing is sent and the record
    still holds both sentinels. *)
Lemma executeRequest_not_built v target message hdr rc tr w :
  requestBuilt v D target message tr w = false ->
  exists err,
    executeRequest_of v D net target message hdr rc tr w
    = (Returns (None, initialDispatchInfo, Some err), w).
Proof.
  unfold requestBuilt, withSpan. intros H. destruct v; simpl.
  - unfold Part003.executeRequest, Part003.WriteRequestWithAdditionalHeaders.
    destruct (NewCloudEventRequest D target); [eauto|].
    destruct (cehttp_WriteRequest D message _) as [[h b]|e]; [discriminate|eauto].
  - unfold Part005.executeRequest, Part005.createRequest, Part005.newClient.
    destruct (http_NewRequest D _); [eauto|].
    destruct (cehttp_WriteRequest D message _) as [[h b]|e]; [|eauto].
    destruct (getClientForAddressable (libs D) target (pool w)) as [[c|e] st] eqn:Hg;
      [discriminate|].
    apply getClientForAddressable_err in Hg. subst st. rewrite with_pool_same. eauto.
Qed.

(** When every step before the network succeeds, exactly one request is
    sent: to the target, written from the message given, with the headers
    given laid over those of the message, under the retry configuration
    given; what comes back decides the result. *)
Lemma executeRequest_built v target message hdr rc tr w :
  requestBuilt v D target message tr w = true ->
  exists s w1 written,
    wire w1 = (wire w ++ [s])%list
    /\ finished w1 = finished w
    /\ sentTarget s = target
    /\ sentMessage s = message
    /\ sentRetryConfig s = rc
    /\ sentTransformers s = withSpan D target tr
    /\ cehttp_WriteRequest D message (withSpan D target tr) = Ok (written, sentBody s)
    /\ sentHeader s = hdr ∪ written
    /\ executeRequest_of v D net target message hdr rc tr w
       = (match answer (net (wire w) s) with
          | Err err =>
              Returns (None, sendFailedInfo (elapsed (net (wire w) s)) err, Some err)
          | Ok response =>
              processResponse D (infoAtResponse v (net (wire w) s)) response
          end, w1).
Proof.
  unfold requestBuilt. intros H. destruct v; simpl in *.
  - unfold Part003.executeRequest, Part003.WriteRequestWithAdditionalHeaders.
    fold (withSpan D target tr).
    destruct (NewCloudEventRequest D target); [discriminate|].
    destruct (cehttp_WriteRequest D message _) as [[h b]|e] eqn:Hw; [|discriminate].
    match goal with |- context [net (wire w) ?r] => exists r, (transmit r w), h end.
    do 8 (split; [first [reflexivity | exact Hw]|]).
    destruct (answer _); reflexivity.
  - unfold Part005.executeRequest, Part005.createRequest, Part005.newClient.
    fold (withSpan D target tr).
    destruct (http_NewRequest D _); [discriminate|].
    destruct (cehttp_WriteRequest D message _) as [[h b]|e] eqn:Hw; [|discriminate].
    destruct (getClientForAddressable (libs D) target (pool w)) as [[c|e] st];
      [|discriminate].
    match goal with
    | |- context [net _ ?r] => exists r, (transmit r (with_pool st w)), h
    end.
    do 8 (split; [first [reflexivity | exact Hw]|]).
    destruct (answer _); reflexivity.
Qed.

Lemma processResponse_cases info r :
  (read_failed r = true /\ processResponse D info r = Panics "nil pointer dereference")
  \/ (read_failed r = false /\ isFailure (StatusCode r) = true
      /\ exists err,
         processResponse D info r
         = Returns (None,
                    {| Duration := Duration info; ResponseCode := StatusCode r;
                       ResponseHeader := PassThroughHeaders D (RespHeader r);
                       ResponseBody := Body r |}, Some err))
  \/ (read_failed r = false /\ isFailure (StatusCode r) = false
      /\ exists out,
         processResponse D info r
         = Returns (out,
                    {| Duration := Duration info; ResponseCode := StatusCode r;
                       ResponseHeader := PassThroughHeaders D (RespHeader r);
                       ResponseBody := ResponseBody info |}, None)
         /\ (out = None <->
             ReadEncoding D (RespHeader r) (Body r) = EncodingUnknown)).
Proof.
  unfold processResponse.
  destruct (read_failed r), (isFailure (StatusCode r)); simpl; auto.
  - right. left. eauto.
  - right. right. split; [reflexivity|]. split; [reflexivity|].
    case_bool_decide; eexists; (split; [reflexivity|]); split; congruence.
Qed.

(** A call adds at most one request to the wire and finishes no message. *)
Lemma executeRequest_wire v target message hdr rc tr w :
  finished (snd (executeRequest_of v D net target message hdr rc tr w)) = finished w
  /\ (wire (snd (executeRequest_of v D net target message hdr rc tr w)) = wire w
      \/ exists s, wire (snd (executeRequest_of v D net target message hdr rc tr w))
                   = (wire w ++ [s])%list).
Proof.
  destruct (requestBuilt v D target message tr w) eqn:Hb.
  - destruct (executeRequest_built v target message hdr rc tr w Hb)
      as (s & w1 & wr & Hw & Hf & _ & _ & _ & _ & _ & _ & ->).
    simpl. split; [exact Hf|]. right. eauto.
  - destruct (executeRequest_not_built v target message hdr rc tr w Hb) as (e & ->).
    simpl. auto.
Qed.

Lemma processResponse_result info r o info' err :
  processResponse D info r = Returns (o, info', err) ->
  ResponseCode info' = StatusCode r
  /\ (err = None <-> isFailure (StatusCode r) = false)
  /\ (forall m, o = Some m ->
        err = None /\ m = NewMessage (RespHeader r) (Body r)
        /\ ReadEncoding D (RespHeader r) (Body r) <> EncodingUnknown).
Proof.
  unfold processResponse.
  destruct (isFailure (StatusCode r)), (read_failed r); try discriminate.
  - intros H. simplify_eq. simpl. split; [reflexivity|].
    split; [split; discriminate|]. intros m0 Hm0. discriminate.
  - case_bool_decide as He; intros H; simplify_eq; simpl;
      (split; [reflexivity|]); (split; [split; reflexivity|]);
      intros m0 Hm0; simplify_eq; auto.
Qed.

(** What one call of [executeRequest] does to the world and what it can
    return. *)
Lemma executeRequest_effect v target message hdr rc tr w out w' :
  executeRequest_of v D net target message hdr rc tr w = (out, w') ->
  finished w' = finished w
  /\ (wire w' = wire w
      \/ exists s,
          wire w' = (wire w ++ [s])%list
          /\ sentTarget s = target
          /\ sentMessage s = message
          /\ sentRetryConfig s = rc
          /\ sentTransformers s = withSpan D target tr
          /\ exists written,
               cehttp_WriteRequest D message (withSpan D target tr)
               = Ok (written, sentBody s)
               /\ sentHeader s = hdr ∪ written)
  /\ (forall o info err,
        out = Returns (o, info, err) ->
        (err = None <-> isFailure (ResponseCode info) = false)
        /\ (forall m, o = Some m ->
              err = None
              /\ exists h b, m = NewMessage h b
                             /\ ReadEncoding D h b <> EncodingUnknown)).
Proof.
  intros He. destruct (requestBuilt v D target message tr w) eqn:Hb.
  - destruct (executeRequest_built v target message hdr rc tr w Hb)
      as (s & w1 & wr & Hw & Hf & Ht & Hm & Hrc & Htr & Hwr & Hh & He').
    rewrite He' in He. inversion He; subst out w'. clear He.
    split; [exact Hf|]. split.
    { right. exists s. repeat (split; [assumption|]). exists wr. auto. }
    intros o info err Hr.
    destruct (answer (net (wire w) s)) as [r|e].
    + destruct (processResponse_result _ _ _ _ _ Hr) as (Hc & Hi & Hmsg).
      rewrite Hc. split; [exact Hi|]. intros m Hmo.
      destruct (Hmsg m Hmo) as (? & ? & ?). eauto.
    + simplify_eq. simpl. split; [split; discriminate | discriminate].
  - destruct (executeRequest_not_built v target message hdr rc tr w Hb)
      as (e & He'). rewrite He' in He. inversion He; subst out w'.
    split; [reflexivity|]. split; [left; reflexivity|].
    intros o info err Hr. simplify_eq. simpl.
    split; [split; discriminate | discriminate].
Qed.

End ExecuteFacts.

Section RecordFacts.
Variable D : Deps.
Variable net : Network.

(** C5, as amended: when [executeRequest] stops before the network (the
    dispatch step never started) the record holds -1 for the duration and -1
    for the status code; when the send returns an error the record holds
    status code 500, not the sentinel, and a body that reports the error; when
    a response arrives the record holds its status code, and its body only
    when the status is a failure. A result without an error has an empty
    body. *)
Theorem dispatch_info_records v target message hdr rc tr w :
  (requestBuilt v D target message tr w = false ->
   exists err,
     executeRequest_of v D net target message hdr rc tr w
     = (Returns (None, initialDispatchInfo, Some err), w)
     /\ Duration initialDispatchInfo = NoDuration
     /\ ResponseCode initialDispatchInfo = NoResponse
     /\ ResponseBody initialDispatchInfo = "")
  /\ (requestBuilt v D target message tr w = true ->
      exists s w1,
        wire w1 = (wire w ++ [s])%list
        /\ (forall e, answer (net (wire w) s) = Err e ->
            exists info,
              executeRequest_of v D net target message hdr rc tr w
              = (Returns (None, info, Some e), w1)
              /\ Duration info = elapsed (net (wire w) s)
              /\ ResponseCode info = 500%Z
              /\ ResponseBody info = "dispatch error: " ++ Error e)
        /\ (forall r, answer (net (wire w) s) = Ok r -> read_failed r = false ->
            exists out info err,
              executeRequest_of v D net target message hdr rc tr w
              = (Returns (out, info, err), w1)
              /\ ResponseCode info = StatusCode r
              /\ (isFailure (StatusCode r) = true ->
                  out = None /\ is_Some err /\ ResponseBody info = Body r)
              /\ (isFailure (StatusCode r) = false ->
                  err = None /\ ResponseBody info = "")))
  /\ (forall out info w',
        executeRequest_of v D net target message hdr rc tr w
        = (Returns (out, info, None), w') ->
        ResponseBody info = "").
Proof.
  split; [|split].
  - intros Hb. destruct (executeRequest_not_built D net v target message hdr rc tr w Hb)
      as (e & He). exists e. repeat split. exact He.
  - intros Hb. destruct (executeRequest_built D net v target message hdr rc tr w Hb)
      as (s & w1 & wr & Hw & _ & _ & _ & _ & _ & _ & _ & He).
    exists s, w1. split; [exact Hw|]. split.
    + intros e Ha. rewrite Ha in He. eexists. split; [exact He|]. repeat split.
    + intros r Ha Hr. rewrite Ha in He.
      destruct (processResponse_cases D (infoAtResponse v (net (wire w) s)) r)
        as [(Hf & _)|[(_ & Hfail & err & Hp)|(_ & Hok & out & Hp & _)]];
        [congruence| |]; rewrite Hp in He.
      * eexists _, _, _. split; [exact He|]. split; [reflexivity|].
        split; [intros _; repeat split; eauto | congruence].
      * eexists _, _, _. split; [exact He|]. split; [reflexivity|].
        split; [congruence|]. intros _. split; [reflexivity|].
        destruct v; reflexivity.
  - intros out info w' He.
    destruct (requestBuilt v D target message tr w) eqn:Hb.
    + destruct (executeRequest_built D net v target message hdr rc tr w Hb)
        as (s & w1 & wr & _ & _ & _ & _ & _ & _ & _ & _ & He').
      rewrite He' in He. destruct (answer (net (wire w) s)) as [r|e]; [|congruence].
      destruct (processResponse_cases D (infoAtResponse v (net (wire w) s)) r)
        as [(_ & Hp)|[(_ & _ & err & Hp)|(_ & _ & o & Hp & _)]];
        rewrite Hp in He; simplify_eq.
      destruct v; reflexivity.
    + destruct (executeRequest_not_built D net v target message hdr rc tr w Hb)
        as (e & He'). congruence.
Qed.

End RecordFacts.

Lemma dispatch_info_records_witness :
  exists err,
    executeRequest_of V005 testDeps testNet (badCerts "sink") ping ∅ None [] emptyWorld
    = (Returns (None, initialDispatchInfo, Some err), emptyWorld)
    /\ Duration initialDispatchInfo = NoDuration
    /\ ResponseCode initialDispatchInfo = NoResponse
    /\ ResponseBody initialDispatchInfo = "".
Proof.
  apply (proj1 (dispatch_info_records testDeps testNet V005 (badCerts "sink") ping
                  ∅ None [] emptyWorld)).
  vm_compute. reflexivity.
Defined.

(** C5, as stated, fails: a send that ends in a transport error, with no
    response received, leaves status code 500 in the record, not -1. *)
Lemma dispatch_info_records_counterexample :
  exists s info w',
    executeRequest_of V005 testDeps testNet (addressableOf "down") ping ∅ None []
      emptyWorld
    = (Returns (None, info, Some (errorString "connection refused")), w')
    /\ wire w' = [s]
    /\ answer (testNet [] s) = Err (errorString "connection refused")
    /\ ResponseCode info = 500%Z
    /\ ResponseCode info <> NoResponse.
Proof.
  eexists _, _, _. split; [vm_compute; reflexivity|].
  split; [reflexivity|]. split; [vm_compute; reflexivity|].
  split; [reflexivity|]. vm_compute. discriminate.
Qed.

(** ** The pipeline *)

Ltac exec_step D net v :=
  match goal with
  | |- context [executeRequest_of v D net ?t ?m ?h ?rc ?tr ?w] =>
      let H := fresh "Hw" in
      destruct (executeRequest_wire D net v t m h rc tr w) as [_ H];
      destruct (executeRequest_of v D net t m h rc tr w) as [[[[? ?] [?|]]|?] ?];
      simpl in H
  end.

Ltac trans_step :=
  match goal with
  | |- context [dispatchExecutionInfoTransformers ?D ?u ?i] =>
      destruct (dispatchExecutionInfoTransformers D u i)
  end.

Ltac wire_chain :=
  repeat match goal with
         | H : _ \/ _ |- _ => destruct H as [H|[? H]]
         end;
  simpl;
  repeat match goal with
         | H : wire _ = _ |- _ => progress rewrite H
         end;
  first [ exists []; rewrite app_nil_r; reflexivity
        | eexists; rewrite <- ?app_assoc; simpl; reflexivity ].

Section SendFacts.
Variable D : Deps.
Variable net : Network.

Lemma sanitizeURL_Some u : exists u', sanitizeURL (Some u) = Some u'.
Proof. unfold sanitizeURL. case_match; eauto. Qed.

(** Whatever [send] puts on the wire comes after what its first call of
    [executeRequest], the one for the destination, put there. *)
Lemma send_wire_after_primary v message destination config w u :
  AddrURL destination = Some u ->
  exists l,
    wire (snd (send_of v D net message destination config w))
    = (wire (snd (executeRequest_of v D net (sanitized destination) message
                    (Header_Set "Prefer" "reply" (additionalHeaders config))
                    (retryConfig config) [] w)) ++ l)%list.
Proof.
  intros Hu. destruct (sanitizeURL_Some u) as [u' Hu'].
  destruct v; cbn [send_of].
  - unfold Part003.send. cbv zeta.
    replace (AddrURL (sanitized destination)) with (Some u')
      by (unfold sanitized; simpl; rewrite Hu; auto).
    change Part003.executeRequest with (executeRequest_of V003).
    exec_step D net V003; [| |wire_chain].
    + destruct (sanitizeAddressable (deadLetterSink config)); [|wire_chain].
      trans_step; [|wire_chain].
      exec_step D net V003; wire_chain.
    + destruct o; [|wire_chain].
      destruct (sanitizeAddressable (reply config)); [|wire_chain].
      exec_step D net V003; [| |wire_chain].
      * destruct (sanitizeAddressable (deadLetterSink config)); [|wire_chain].
        trans_step; [|wire_chain].
        exec_step D net V003; wire_chain.
      * wire_chain.
  - unfold Part005.send. rewrite Hu. cbv zeta.
    change Part005.executeRequest with (executeRequest_of V005).
    exec_step D net V005; [| |wire_chain].
    + destruct (sanitizeAddressable (deadLetterSink config)); [|wire_chain].
      trans_step; [|wire_chain].
      exec_step D net V005; wire_chain.
    + destruct o; [|wire_chain].
      destruct (sanitizeAddressable (reply config)); [|wire_chain].
      exec_step D net V005; [| |wire_chain].
      * destruct (sanitizeAddressable (deadLetterSink config)); [|wire_chain].
        trans_step; [|wire_chain].
        exec_step D net V005; wire_chain.
      * wire_chain.
Qed.

End SendFacts.

Ltac exec_effect D net v :=
  match goal with
  | |- context [executeRequest_of v D net ?t ?m ?h ?rc ?tr ?w] =>
      let E := fresh "E" in
      let Hf := fresh "Hf" in
      let Hw := fresh "Hw" in
      let Hr := fresh "Hr" in
      destruct (executeRequest_of v D net t m h rc tr w)
        as [[[[? ?] [?|]]|?] ?] eqn:E;
      destruct (executeRequest_effect D net v _ _ _ _ _ _ _ _ E) as (Hf & Hw & Hr)
  end.

Ltac split_hops :=
  repeat match goal with
         | H : wire _ = wire _ \/ _ |- _ =>
             let s := fresh "s" in
             let Ht := fresh "Ht" in
             let Hm := fresh "Hm" in
             let Hrc := fresh "Hrc" in
             destruct H as [H|(s & H & Ht & Hm & Hrc & _ & _)]
         end;
  simpl;
  repeat match goal with
         | H : wire _ = _ |- _ => progress rewrite H
         end.

Ltac run_send D net v :=
  repeat first
    [ exec_effect D net v
    | trans_step
    | match goal with
      | |- context [match ?o with Some _ => _ | None => _ end] => is_var o; destruct o
      end ].

Ltac hop_to t :=
  match goal with
  | H : sentTarget ?s = sanitized t |- _ => constr:(Some s)
  | _ => constr:(@None Sent)
  end.

Ltac reply_hop config :=
  match goal with
  | Hr : reply config = Some ?rep, H : sentTarget ?s = sanitized ?rep |- _ =>
      constr:(Some s)
  | _ => constr:(@None Sent)
  end.

Ltac dead_letter_hop config :=
  match goal with
  | Hd : deadLetterSink config = Some ?dls, H : sentTarget ?s = sanitized ?dls |- _ =>
      constr:(Some s)
  | _ => constr:(@None Sent)
  end.

Ltac shape_done destination config :=
  let a := hop_to destination in
  let b := reply_hop config in
  let c := dead_letter_hop config in
  exists a, b, c;
  split; [simpl; rewrite <- ?app_assoc; simpl; rewrite ?app_nil_r; reflexivity|];
  repeat split; intros; simplify_eq; solve [auto | congruence].

Section ShapeFacts.
Variable D : Deps.
Variable net : Network.

(** What a call of [send] hands to the retrying client: at most one request
    for the destination, then at most one for the reply target, then at most
    one for the dead-letter sink. *)
Lemma send_wire_shape v message destination config w :
  exists a b c : option Sent,
    wire (snd (send_of v D net message destination config w))
    = (wire w ++ opt_list a ++ opt_list b ++ opt_list c)%list
    /\ (forall s, a = Some s ->
          AddrURL destination <> None
          /\ sentTarget s = sanitized destination
          /\ sentMessage s = message
          /\ sentRetryConfig s = retryConfig config)
    /\ (forall s, b = Some s ->
          Some (sentTarget s) = sanitizeAddressable (reply config)
          /\ sentRetryConfig s = retryConfig config
          /\ (AddrURL destination = None -> v = V003 /\ sentMessage s = message))
    /\ (forall s, c = Some s ->
          Some (sentTarget s) = sanitizeAddressable (deadLetterSink config)
          /\ sentMessage s = message
          /\ sentRetryConfig s = retryConfig config
          /\ (AddrURL destination = None -> v = V003)).
Proof.
  destruct v; cbn [send_of].
  - unfold Part003.send. cbv zeta.
    change Part003.executeRequest with (executeRequest_of V003).
    replace (AddrURL (sanitized destination)) with (sanitizeURL (AddrURL destination))
      by reflexivity.
    destruct (AddrURL destination) as [u|] eqn:Hu;
      [destruct (sanitizeURL_Some u) as [u' ->]|cbn [sanitizeURL]];
      destruct (reply config) as [rep|] eqn:Hrep,
               (deadLetterSink config) as [dls|] eqn:Hdls;
      cbn [sanitizeAddressable];
      run_send D net V003; split_hops; shape_done destination config.
  - unfold Part005.send. cbv zeta.
    change Part005.executeRequest with (executeRequest_of V005).
    destruct (AddrURL destination) as [u|] eqn:Hu;
      destruct (reply config) as [rep|] eqn:Hrep,
               (deadLetterSink config) as [dls|] eqn:Hdls;
      cbn [sanitizeAddressable];
      run_send D net V005; split_hops; shape_done destination config.
Qed.

End ShapeFacts.

(** ** The base64 step of the transformers *)

Lemma base64_Encode_length src :
  Z.of_nat (String.length (base64_Encode src))
  = base64_EncodedLen (Z.of_nat (String.length src)).
Proof.
  assert (H : forall s,
             Z.of_nat (String.length (base64_Encode s))
             = base64_EncodedLen (Z.of_nat (String.length s))
             /\ (forall a, Z.of_nat (String.length (base64_Encode (String a s)))
                           = base64_EncodedLen (Z.of_nat (String.length (String a s))))
             /\ (forall a b,
                   Z.of_nat (String.length (base64_Encode (String a (String b s))))
                   = base64_EncodedLen
                       (Z.of_nat (String.length (String a (String b s)))))).
  { unfold base64_EncodedLen.
    induction s as [|c s (IH0 & IH1 & IH2)].
    - repeat split; intros; reflexivity.
    - split; [apply IH1|]. split; [intros a; apply IH2|].
      intros a b. cbn [base64_Encode String.length].
      rewrite !Nat2Z.inj_succ, IH0.
      replace (Z.succ (Z.succ (Z.succ (Z.of_nat (String.length s)))) + 2)%Z
        with (Z.of_nat (String.length s) + 2 + 1 * 3)%Z by lia.
      rewrite Z.div_add by lia. lia. }
  apply H.
Qed.

Lemma base64_EncodedLen_nonneg n : (0 <= n)%Z -> (0 <= base64_EncodedLen n)%Z.
Proof.
  intros Hn. unfold base64_EncodedLen.
  assert (0 <= (n + 2) / 3)%Z by (apply Z.div_pos; lia). lia.
Qed.

Lemma zeros_length n : String.length (zeros n) = n.
Proof. induction n as [|n IH]; simpl; congruence. Qed.

Lemma string_take_all s : string_take (String.length s) s = s.
Proof. induction s as [|c s IH]; simpl; congruence. Qed.

Lemma string_drop_all n s : String.length s = n -> string_drop n s = "".
Proof.
  revert s. induction n as [|n IH]; intros [|c s] H; simpl in *;
    try reflexivity; try discriminate.
  apply IH. congruence.
Qed.

Lemma string_app_empty s : s ++ "" = s.
Proof.
  induction s as [|c s IH]; [reflexivity|].
  change (String c (s ++ "") = String c s). congruence.
Qed.

(** The clamped buffer holds the encoding exactly when no clamping took
    place; when it did, making or filling the buffer panics. *)
Lemma encode_clamped (maxLen : Z) (body : string) :
  match make_bytes
          (if bool_decide (base64_EncodedLen (Z.of_nat (String.length body)) > maxLen)%Z
           then maxLen
           else base64_EncodedLen (Z.of_nat (String.length body))) with
  | Panics _ => (base64_EncodedLen (Z.of_nat (String.length body)) > maxLen)%Z
  | Returns buf =>
      match Encode buf body with
      | Panics _ => (base64_EncodedLen (Z.of_nat (String.length body)) > maxLen)%Z
      | Returns buf' =>
          (base64_EncodedLen (Z.of_nat (String.length body)) <= maxLen)%Z
          /\ string_take
               (Z.to_nat
                  (if bool_decide
                        (base64_EncodedLen (Z.of_nat (String.length body)) > maxLen)%Z
                   then maxLen
                   else base64_EncodedLen (Z.of_nat (String.length body))))
               buf'
             = base64_Encode body
      end
  end.
Proof.
  pose proof (base64_Encode_length body) as Hlen.
  pose proof (base64_EncodedLen_nonneg (Z.of_nat (String.length body))
                (Nat2Z.is_nonneg _)) as Hpos.
  set (n := base64_EncodedLen (Z.of_nat (String.length body))) in *.
  unfold make_bytes, Encode.
  destruct (decide (n > maxLen)%Z) as [Hn|Hn].
  - rewrite !(bool_decide_eq_true_2 _ Hn).
    destruct (decide (maxLen < 0)%Z) as [Hm|Hm].
    + rewrite (bool_decide_eq_true_2 _ Hm). exact Hn.
    + rewrite (bool_decide_eq_false_2 _ Hm), zeros_length.
      rewrite bool_decide_eq_true_2 by lia. exact Hn.
  - rewrite !(bool_decide_eq_false_2 _ Hn).
    rewrite (bool_decide_eq_false_2 (n < 0)%Z) by lia.
    rewrite zeros_length. rewrite bool_decide_eq_false_2 by lia.
    split; [lia|].
    rewrite string_drop_all by (rewrite zeros_length; lia).
    rewrite string_app_empty.
    replace (Z.to_nat n) with (String.length (base64_Encode body)) by lia.
    apply string_take_all.
Qed.

(** The transformers of a failure at a host that is not the broker filter:
    one, with the sanitized URL, the status code and the whole body in
    base64, unless the encoding is longer than the extension may be. *)
Lemma dispatchExecutionInfoTransformers_plain D u info :
  Host u <> brokerFilterHost D ->
  ((base64_EncodedLen (Z.of_nat (String.length (ResponseBody info)))
    > KnativeErrorDataExtensionMaxLength D)%Z ->
   exists r, dispatchExecutionInfoTransformers D (Some u) info = Panics r)
  /\ ((base64_EncodedLen (Z.of_nat (String.length (ResponseBody info)))
       <= KnativeErrorDataExtensionMaxLength D)%Z ->
      exists u',
        sanitizeURL (Some u) = Some u'
        /\ dispatchExecutionInfoTransformers D (Some u) info
           = Returns [KnativeErrorTransformers u' (ResponseCode info)
                        (base64_Encode (ResponseBody info))]).
Proof.
  intros Hh. unfold dispatchExecutionInfoTransformers. cbv zeta.
  rewrite (bool_decide_eq_false_2 _ Hh).
  pose proof (encode_clamped (KnativeErrorDataExtensionMaxLength D) (ResponseBody info))
    as Hc.
  destruct (make_bytes _) as [buf|r]; [destruct (Encode buf _) as [buf'|r]|].
  - destruct Hc as [Hle Htake]. split; [lia|]. intros _.
    destruct (sanitizeURL_Some u) as [u' Hu']. exists u'. split; [exact Hu'|].
    rewrite Hu', Htake. reflexivity.
  - split; [eauto | lia].
  - split; [eauto | lia].
Qed.

(** The same for the sanitized URL of an addressable. *)
Lemma dispatchExecutionInfoTransformers_sanitized D a u info :
  AddrURL a = Some u ->
  Host u <> brokerFilterHost D ->
  exists u',
    AddrURL (sanitized a) = Some u'
    /\ ((base64_EncodedLen (Z.of_nat (String.length (ResponseBody info)))
         > KnativeErrorDataExtensionMaxLength D)%Z ->
        exists r,
          dispatchExecutionInfoTransformers D (AddrURL (sanitized a)) info = Panics r)
    /\ ((base64_EncodedLen (Z.of_nat (String.length (ResponseBody info)))
         <= KnativeErrorDataExtensionMaxLength D)%Z ->
        dispatchExecutionInfoTransformers D (AddrURL (sanitized a)) info
        = Returns [KnativeErrorTransformers u' (ResponseCode info)
                     (base64_Encode (ResponseBody info))]).
Proof.
  intros Hu Hh. destruct (sanitizeURL_Some u) as [u' Hu'].
  assert (Hs : AddrURL (sanitized a) = Some u')
    by (unfold sanitized; simpl; rewrite Hu; exact Hu').
  exists u'. split; [exact Hs|]. rewrite Hs.
  assert (Hh' : Host u' <> brokerFilterHost D).
  { unfold sanitizeURL in Hu'. case_match; simplify_eq; exact Hh. }
  destruct (dispatchExecutionInfoTransformers_plain D u' info Hh') as [Hp Hr].
  split; [exact Hp|]. intros Hle. destruct (Hr Hle) as (u'' & Hu'' & ->).
  assert (Some u'' = Some u') as [= ->]; [|reflexivity].
  rewrite <- Hu'', <- Hu'.
  destruct (bool_decide (Scheme u = "http") || bool_decide (Scheme u = "https"))
    eqn:Hsch; cbn [sanitizeURL]; rewrite Hsch; [cbn [sanitizeURL]; rewrite Hsch|];
    reflexivity.
Qed.

Section PipelineFacts.
Variable D : Deps.
Variable net : Network.

(** C1, as amended: in part_005 a call whose destination has no URL fails
    at once with an error and sends nothing. In part_003 such a call is not an
    error and nothing is sent to the destination: without a reply target the
    call succeeds and sends nothing; with one, the message itself is taken for
    the response and goes to the reply target, and all the call sends is at
    most that request and, after it, at most one request with the message to
    the dead-letter sink. If the reply hop succeeds the call returns its
    record and no error; if it fails without a dead-letter sink the call
    returns an error that names the reply target; if it fails with one, the
    message goes to the sink with the transformers built from the reply URL
    and the record of the failed hop, and the call returns no error when the
    sink takes it, or an error that names both targets and both causes. *)
Theorem nil_destination_url message destination config w :
  AddrURL destination = None ->
  Part005.send D net message destination config w
  = (Returns (Some zeroDispatchInfo,
              Some (errorString "can not dispatch message to nil destination.URL")),
     finish [message] w)
  /\ (reply config = None ->
      Part003.send D net message destination config w
      = (Returns (None, None), finish [message] w))
  /\ (forall rep,
        reply config = Some rep ->
        (exists b c : option Sent,
           wire (snd (Part003.send D net message destination config w))
           = (wire w ++ opt_list b ++ opt_list c)%list
           /\ (forall s, b = Some s ->
                 sentTarget s = sanitized rep
                 /\ sentMessage s = message
                 /\ sentRetryConfig s = retryConfig config)
           /\ (forall s, c = Some s ->
                 Some (sentTarget s) = sanitizeAddressable (deadLetterSink config)
                 /\ sentMessage s = message
                 /\ sentRetryConfig s = retryConfig config))
        /\ forall out1 w1,
             executeRequest_of V003 D net (sanitized rep) message
               (propagateNamespace D (additionalHeaders config)
                  (additionalHeaders config))
               (retryConfig config) [] w
             = (out1, w1) ->
             (requestBuilt V003 D (sanitized rep) message [] w = true ->
              exists s,
                wire w1 = (wire w ++ [s])%list
                /\ sentTarget s = sanitized rep
                /\ sentMessage s = message)
             /\ (forall rr info,
                   out1 = Returns (rr, info, None) ->
                   Part003.send D net message destination config w
                   = (Returns (Some info, None),
                      finish ([message] ++ opt_list rr)%list w1))
             /\ (forall rr info err,
                   out1 = Returns (rr, info, Some err) ->
                   (deadLetterSink config = None ->
                    Part003.send D net message destination config w
                    = (Returns (Some info,
                                Some (errorString
                                        ("failed to forward reply to "
                                         ++ URL_String (libs D) (AddrURL (sanitized rep))
                                         ++ ": " ++ Error err))),
                       finish [message] w1))
                   /\ (forall dls tr out2 w2,
                         deadLetterSink config = Some dls ->
                         dispatchExecutionInfoTransformers D (AddrURL (sanitized rep))
                           info
                         = Returns tr ->
                         executeRequest_of V003 D net (sanitized dls) message
                           (propagateNamespace D (additionalHeaders config)
                              (additionalHeaders config))
                           (retryConfig config) tr w1
                         = (out2, w2) ->
                         (requestBuilt V003 D (sanitized dls) message tr w1 = true ->
                          exists s,
                            wire w2 = (wire w1 ++ [s])%list
                            /\ sentTarget s = sanitized dls
                            /\ sentMessage s = message
                            /\ sentTransformers s = withSpan D (sanitized dls) tr)
                         /\ (forall dr info2 err2,
                               out2 = Returns (dr, info2, Some err2) ->
                               Part003.send D net message destination config w
                               = (Returns
                                    (Some info2,
                                     Some (errorString
                                             ("failed to forward reply to "
                                              ++ URL_String (libs D)
                                                   (AddrURL (sanitized rep))
                                              ++ " (" ++ Error err
                                              ++ ") and failed to send it to the dead letter sink "
                                              ++ URL_String (libs D)
                                                   (AddrURL (sanitized dls))
                                              ++ " (" ++ Error err2 ++ ")"))),
                                  finish [message] w2))
                         /\ (forall dr info2,
                               out2 = Returns (dr, info2, None) ->
                               Part003.send D net message destination config w
                               = (Returns (Some info2, None),
                                  finish ([message] ++ opt_list dr)%list w2))))).
Proof.
  intros Hu.
  assert (Hs : AddrURL (sanitized destination) = None)
    by (unfold sanitized; simpl; rewrite Hu; reflexivity).
  split; [|split].
  - unfold Part005.send. rewrite Hu. reflexivity.
  - intros Hr. unfold Part003.send. cbv zeta. rewrite Hs, Hr. reflexivity.
  - intros rep Hr. split.
    + destruct (send_wire_shape D net V003 message destination config w)
        as (a & b & c & Hw & Ha & Hb & Hc).
      destruct a as [s|]; [destruct (Ha s eq_refl) as [Hne _]; congruence|].
      exists b, c. split; [exact Hw|]. split.
      * intros s ->. destruct (Hb s eq_refl) as (Ht & Hrc & Hm).
        rewrite Hr in Ht. cbn [sanitizeAddressable] in Ht. simplify_eq.
        destruct (Hm Hu) as [_ Hmsg]. auto.
      * intros s ->. destruct (Hc s eq_refl) as (Ht & Hm & Hrc & _). auto.
    + intros out1 w1 H1. split.
      { intros Hb.
        destruct (executeRequest_built D net V003 (sanitized rep) message
                    (propagateNamespace D (additionalHeaders config)
                       (additionalHeaders config))
                    (retryConfig config) [] w Hb)
          as (s & w' & wr & Hw & _ & Ht & Hm & _ & _ & _ & _ & He).
        rewrite He in H1. inversion H1; subst. exists s. auto. }
      cbn [executeRequest_of] in *.
      unfold Part003.send. cbv zeta. rewrite Hs, Hr. cbn [sanitizeAddressable].
      rewrite H1. split; [intros; subst out1; reflexivity|].
      intros rr info err ->. split; [intros ->; reflexivity|].
      intros dls tr out2 w2 -> Htr H2. cbn [sanitizeAddressable]. rewrite Htr. split.
      { intros Hb.
        destruct (executeRequest_built D net V003 (sanitized dls) message
                    (propagateNamespace D (additionalHeaders config)
                       (additionalHeaders config))
                    (retryConfig config) tr w1 Hb)
          as (s & w' & wr & Hw & _ & Ht & Hm & _ & Htrs & _ & _ & He).
        cbn [executeRequest_of] in He. rewrite He in H2. inversion H2; subst.
        exists s. auto. }
      rewrite H2. split; intros; subst out2; reflexivity.
Qed.

(** C2: when the send to the destination fails and a dead-letter sink is set,
    the code builds the transformers from the destination URL and the record
    of the failed attempt, and it is here that the call can panic: for a
    destination other than the broker filter it panics exactly when the
    base64 encoding of the recorded body is longer than
    [KnativeErrorDataExtensionMaxLength], and nothing is sent to the sink
    then. It panics as well when the first call of [executeRequest] does.
    Otherwise there is one transformer, with the sanitized destination URL,
    the recorded status code and the recorded body in base64, and the
    dead-letter hop is a call of [executeRequest] on the sink with the
    original message, the caller's headers, the same retry configuration and
    this transformer; the request it sends carries exactly these. If that hop
    fails too, the call returns an error that names both URLs and both
    causes; if it succeeds, the call returns no error. *)
Theorem dead_letter_after_failure v message destination config w u dls :
  AddrURL destination = Some u ->
  deadLetterSink config = Some dls ->
  (forall r w1,
     executeRequest_of v D net (sanitized destination) message
       (Header_Set "Prefer" "reply" (additionalHeaders config))
       (retryConfig config) [] w
     = (Panics r, w1) ->
     send_of v D net message destination config w = (Panics r, finish [message] w1))
  /\ (forall rm info err w1,
        executeRequest_of v D net (sanitized destination) message
          (Header_Set "Prefer" "reply" (additionalHeaders config))
          (retryConfig config) [] w
        = (Returns (rm, info, Some err), w1) ->
        (forall r,
           dispatchExecutionInfoTransformers D (AddrURL (sanitized destination)) info
           = Panics r ->
           send_of v D net message destination config w
           = (Panics r, finish [message] w1))
        /\ (Host u <> brokerFilterHost D ->
            ((base64_EncodedLen (Z.of_nat (String.length (ResponseBody info)))
              > KnativeErrorDataExtensionMaxLength D)%Z
             <-> exists r,
                   dispatchExecutionInfoTransformers D
                     (AddrURL (sanitized destination)) info
                   = Panics r))
        /\ (forall tr,
              dispatchExecutionInfoTransformers D (AddrURL (sanitized destination))
                info
              = Returns tr ->
              (Host u <> brokerFilterHost D ->
               exists u',
                 AddrURL (sanitized destination) = Some u'
                 /\ tr = [KnativeErrorTransformers u' (ResponseCode info)
                            (base64_Encode (ResponseBody info))])
              /\ forall out2 w2,
                   executeRequest_of v D net (sanitized dls) message
                     (additionalHeaders config) (retryConfig config) tr w1
                   = (out2, w2) ->
                   (requestBuilt v D (sanitized dls) message tr w1 = true ->
                    exists s,
                      wire w2 = (wire w1 ++ [s])%list
                      /\ sentTarget s = sanitized dls
                      /\ sentMessage s = message
                      /\ sentRetryConfig s = retryConfig config
                      /\ sentTransformers s = withSpan D (sanitized dls) tr)
                   /\ (forall dr info' dlErr,
                         out2 = Returns (dr, info', Some dlErr) ->
                         send_of v D net message destination config w
                         = (Returns
                              (Some info',
                               Some (errorString
                                       ("unable to complete request to either "
                                        ++ URL_String (libs D)
                                             (AddrURL (sanitized destination))
                                        ++ " (" ++ Error err ++ ") or "
                                        ++ URL_String (libs D) (AddrURL (sanitized dls))
                                        ++ " (" ++ Error dlErr ++ ")"))),
                            finish [message] w2))
                   /\ (forall dr info',
                         out2 = Returns (dr, info', None) ->
                         send_of v D net message destination config w
                         = (Returns (Some info', None),
                            finish ([message] ++ opt_list dr)%list w2)))).
Proof.
  intros Hu Hd.
  destruct (sanitizeURL_Some u) as [u' Hu'].
  assert (Hs : AddrURL (sanitized destination) = Some u')
    by (unfold sanitized; simpl; rewrite Hu; exact Hu').
  assert (Hsend : forall out1 w1,
             executeRequest_of v D net (sanitized destination) message
               (Header_Set "Prefer" "reply" (additionalHeaders config))
               (retryConfig config) [] w
             = (out1, w1) ->
             send_of v D net message destination config w
             = match out1 with
               | Panics r => (Panics r, finish [message] w1)
               | Returns (_, info, Some err) =>
                   match dispatchExecutionInfoTransformers D
                           (AddrURL (sanitized destination)) info with
                   | Panics r => (Panics r, finish [message] w1)
                   | Returns tr =>
                       match executeRequest_of v D net (sanitized dls) message
                               (additionalHeaders config) (retryConfig config) tr w1
                       with
                       | (Panics r, w2) => (Panics r, finish [message] w2)
                       | (Returns (_, info', Some dlErr), w2) =>
                           (Returns
                              (Some info',
                               Some (errorString
                                       ("unable to complete request to either "
                                        ++ URL_String (libs D)
                                             (AddrURL (sanitized destination))
                                        ++ " (" ++ Error err ++ ") or "
                                        ++ URL_String (libs D) (AddrURL (sanitized dls))
                                        ++ " (" ++ Error dlErr ++ ")"))),
                            finish [message] w2)
                       | (Returns (dr, info', None), w2) =>
                           (Returns (Some info', None),
                            finish ([message] ++ opt_list dr)%list w2)
                       end
                   end
               | Returns (_, _, None) => send_of v D net message destination config w
               end).
  { intros out1 w1 H1. destruct v; cbn [send_of executeRequest_of] in *.
    - unfold Part003.send. cbv zeta. rewrite Hd. cbn [sanitizeAddressable].
      rewrite Hs. rewrite H1. destruct out1 as [[[rm info] [err|]]|r]; reflexivity.
    - unfold Part005.send. rewrite Hu. cbv zeta. rewrite Hd.
      cbn [sanitizeAddressable]. rewrite H1.
      destruct out1 as [[[rm info] [err|]]|r]; reflexivity. }
  split.
  { intros r w1 H1. rewrite (Hsend _ _ H1). reflexivity. }
  intros rm info err w1 H1. rewrite (Hsend _ _ H1). split; [|split].
  - intros r ->. reflexivity.
  - intros Hh.
    destruct (dispatchExecutionInfoTransformers_sanitized D destination u info Hu Hh)
      as (u'' & _ & Hp & Hr).
    split; [exact Hp|]. intros [r Hr'].
    destruct (Z_gt_le_dec
                (base64_EncodedLen (Z.of_nat (String.length (ResponseBody info))))
                (KnativeErrorDataExtensionMaxLength D)) as [Hgt|Hle]; [exact Hgt|].
    rewrite (Hr Hle) in Hr'. discriminate.
  - intros tr Htr. rewrite Htr. split.
    + intros Hh.
      destruct (dispatchExecutionInfoTransformers_sanitized D destination u info Hu Hh)
        as (u'' & Hs'' & Hp & Hr).
      exists u''. split; [exact Hs''|].
      destruct (Z_gt_le_dec
                  (base64_EncodedLen (Z.of_nat (String.length (ResponseBody info))))
                  (KnativeErrorDataExtensionMaxLength D)) as [Hgt|Hle].
      * destruct (Hp Hgt) as [r Hr']. congruence.
      * rewrite (Hr Hle) in Htr. congruence.
    + intros out2 w2 H2. split.
      { intros Hb.
        destruct (executeRequest_built D net v (sanitized dls) message
                    (additionalHeaders config) (retryConfig config) tr w1 Hb)
          as (s & w' & wr & Hw & _ & Ht & Hm & Hrc & Htrs & _ & _ & He).
        rewrite He in H2. inversion H2; subst. exists s. auto. }
      rewrite H2. split; intros; subst out2; reflexivity.
Qed.

(** C7: with a destination URL, and every step before the network
    succeeding, the first request the call sends goes to the destination,
    carries the original message, has the header [Prefer: reply], and has
    every other header the caller supplied, whatever the reply target is. *)
Theorem prefer_reply_on_destination v message destination config w u :
  AddrURL destination = Some u ->
  requestBuilt v D (sanitized destination) message [] w = true ->
  exists s rest,
    wire (snd (send_of v D net message destination config w))
    = (wire w ++ s :: rest)%list
    /\ sentTarget s = sanitized destination
    /\ sentMessage s = message
    /\ sentHeader s !! "Prefer" = Some ["reply"]
    /\ (forall k vs, k <> "Prefer" ->
          additionalHeaders config !! k = Some vs ->
          sentHeader s !! k = Some vs).
Proof.
  intros Hu Hb.
  destruct (send_wire_after_primary D net v message destination config w u Hu)
    as [l Hl].
  destruct (executeRequest_built D net v (sanitized destination) message
              (Header_Set "Prefer" "reply" (additionalHeaders config))
              (retryConfig config) [] w Hb)
    as (s & w1 & wr & Hw & _ & Ht & Hm & _ & _ & _ & Hh & He).
  rewrite He in Hl. simpl in Hl. rewrite Hw, <- app_assoc in Hl.
  exists s, l. split; [exact Hl|]. split; [exact Ht|]. split; [exact Hm|].
  rewrite Hh. unfold Header_Set. split.
  - apply lookup_union_Some_l. apply lookup_insert_eq.
  - intros k vs Hk Hv. apply lookup_union_Some_l.
    rewrite lookup_insert_ne by congruence. exact Hv.
Qed.

(** C8: when the destination answers with a 2xx status and the response does
    not read as an event (unknown encoding), what follows depends on the read
    of the body. When the body was read, [executeRequest] returns no message
    and no error, and the call completes without an error after that single
    request: nothing is forwarded to the reply target, if there is one. When
    the read of the body failed, [executeRequest] panics, where it calls
    [Error] on the nil error of the successful send, and so does the call. *)
Theorem undecodable_response_is_no_reply v message destination config w u r :
  AddrURL destination = Some u ->
  requestBuilt v D (sanitized destination) message [] w = true ->
  (forall s, sentTarget s = sanitized destination -> answer (net (wire w) s) = Ok r) ->
  (200 <= StatusCode r < 300)%Z ->
  ReadEncoding D (RespHeader r) (Body r) = EncodingUnknown ->
  exists s w1,
    wire w1 = (wire w ++ [s])%list
    /\ (read_failed r = false ->
        exists info,
          executeRequest_of v D net (sanitized destination) message
            (Header_Set "Prefer" "reply" (additionalHeaders config))
            (retryConfig config) [] w
          = (Returns (None, info, None), w1)
          /\ send_of v D net message destination config w
             = (Returns (Some (with_ResponseHeader
                                 (propagateNamespace D (additionalHeaders config)
                                    (ResponseHeader info)) info), None),
                finish [message] w1))
    /\ (read_failed r = true ->
        exists reason,
          executeRequest_of v D net (sanitized destination) message
            (Header_Set "Prefer" "reply" (additionalHeaders config))
            (retryConfig config) [] w
          = (Panics reason, w1)
          /\ send_of v D net message destination config w
             = (Panics reason, finish [message] w1)).
Proof.
  intros Hu Hb Hnet Hcode Henc.
  destruct (executeRequest_built D net v (sanitized destination) message
              (Header_Set "Prefer" "reply" (additionalHeaders config))
              (retryConfig config) [] w Hb)
    as (s & w1 & wr & Hw & _ & Ht & _ & _ & _ & _ & _ & He).
  rewrite (Hnet s Ht) in He.
  assert (Hok : isFailure (StatusCode r) = false).
  { unfold isFailure, StatusOK, StatusMultipleChoices.
    rewrite !bool_decide_eq_false_2 by lia. reflexivity. }
  destruct (sanitizeURL_Some u) as [u' Hu'].
  assert (Hs : AddrURL (sanitized destination) = Some u')
    by (unfold sanitized; simpl; rewrite Hu; exact Hu').
  unfold processResponse in He. rewrite Hok in He.
  exists s, w1. split; [exact Hw|]. split; intros Hread; rewrite Hread in He.
  - rewrite (bool_decide_eq_true_2 _ Henc) in He.
    eexists. split; [exact He|].
    destruct v; cbn [send_of executeRequest_of] in *.
    + unfold Part003.send. cbv zeta. rewrite Hs, He. reflexivity.
    + unfold Part005.send. rewrite Hu. cbv zeta. rewrite He. reflexivity.
  - eexists. split; [exact He|].
    destruct v; cbn [send_of executeRequest_of] in *.
    + unfold Part003.send. cbv zeta. rewrite Hs, He. reflexivity.
    + unfold Part005.send. rewrite Hu. cbv zeta. rewrite He. reflexivity.
Qed.

End PipelineFacts.

Lemma nil_destination_url_witness :
  Part005.send testDeps testNet ping noURL replyConfig emptyWorld
  = (Returns (Some zeroDispatchInfo,
              Some (errorString "can not dispatch message to nil destination.URL")),
     finish [ping] emptyWorld)
  /\ exists b c : option Sent,
       wire (snd (Part003.send testDeps testNet ping noURL replyConfig emptyWorld))
       = (wire emptyWorld ++ opt_list b ++ opt_list c)%list
       /\ (forall s, b = Some s ->
             sentTarget s = sanitized (addressableOf "reply")
             /\ sentMessage s = ping
             /\ sentRetryConfig s = retryConfig replyConfig)
       /\ (forall s, c = Some s ->
             Some (sentTarget s) = sanitizeAddressable (deadLetterSink replyConfig)
             /\ sentMessage s = ping
             /\ sentRetryConfig s = retryConfig replyConfig).
Proof.
  split.
  - apply (proj1 (nil_destination_url testDeps testNet ping noURL replyConfig
                    emptyWorld eq_refl)).
  - apply (proj1 (proj2 (proj2 (nil_destination_url testDeps testNet ping noURL
                                  replyConfig emptyWorld eq_refl))
                    (addressableOf "reply") eq_refl)).
Defined.

(** C1, as stated, fails on part_003: a call without a destination URL and
    with a reply target returns no error, and a request has gone out. *)
Lemma nil_destination_url_counterexample :
  ~ (forall v D net message destination config w,
       AddrURL destination = None ->
       exists info err,
         fst (send_of v D net message destination config w)
         = Returns (info, Some err)
         /\ wire (snd (send_of v D net message destination config w)) = wire w).
Proof.
  intros H.
  destruct (H V003 testDeps testNet ping noURL replyConfig emptyWorld eq_refl)
    as (info & err & H1 & _).
  vm_compute in H1. discriminate H1.
Qed.

(** The failing input of C2: the destination answers 500 with a body of 769
    bytes and a dead-letter sink is set. The call panics after the request to
    the destination; nothing reaches the sink. With the four-byte body of
    [testNet] the sink gets the message with the one transformer. *)
Lemma dead_letter_after_failure_witness :
  (exists w1,
     send_of V005 testDeps verboseNet ping (addressableOf "broken") deadLetterConfig
       emptyWorld
     = (Panics "index out of range", finish [ping] w1)
     /\ map sentURL (wire w1) = ["http://broken/"])
  /\ (exists info w2,
        send_of V005 testDeps testNet ping (addressableOf "broken") deadLetterConfig
          emptyWorld
        = (Returns (Some info, None), finish [ping] w2)
        /\ map sentURL (wire w2) = ["http://broken/"; "http://dls/"]
        /\ map sentTransformers (wire w2)
           = [[]; [KnativeErrorTransformers (httpURL "broken") 500 "Ym9vbQ=="]]).
Proof.
  split.
  - eexists. split.
    + apply (proj1 (proj2 (dead_letter_after_failure testDeps verboseNet V005 ping
                             (addressableOf "broken") deadLetterConfig emptyWorld
                             (httpURL "broken") (addressableOf "dls") eq_refl eq_refl)
                      None
                      {| Duration := 5; ResponseCode := 500; ResponseHeader := ∅;
                         ResponseBody := longBody |}
                      (errorString "unexpected HTTP response, expected 2xx, got 500")
                      _ eq_refl)
               "index out of range").
      vm_compute. reflexivity.
    + reflexivity.
  - eexists _, _. split.
    + apply (proj2 (proj2 (proj2 (proj2 (proj2 (proj2
               (dead_letter_after_failure testDeps testNet V005 ping
                  (addressableOf "broken") deadLetterConfig emptyWorld
                  (httpURL "broken") (addressableOf "dls") eq_refl eq_refl)
               _ _ _ _ eq_refl)) _ eq_refl) _ _ eq_refl)) None _ eq_refl).
    + split; reflexivity.
Defined.

Lemma prefer_reply_on_destination_witness :
  exists s rest,
    wire (snd (send_of V003 testDeps testNet ping (addressableOf "sink") plainConfig
                 emptyWorld))
    = (wire emptyWorld ++ s :: rest)%list
    /\ sentTarget s = sanitized (addressableOf "sink")
    /\ sentMessage s = ping
    /\ sentHeader s !! "Prefer" = Some ["reply"]
    /\ (forall k vs, k <> "Prefer" ->
          additionalHeaders plainConfig !! k = Some vs ->
          sentHeader s !! k = Some vs).
Proof.
  apply (prefer_reply_on_destination testDeps testNet V003 ping (addressableOf "sink")
           plainConfig emptyWorld (httpURL "sink") eq_refl).
  vm_compute. reflexivity.
Defined.

(** The failing input of C8: the destination answers 200 without an event
    and the read of the body fails. *)
Lemma undecodable_response_is_no_reply_witness :
  exists s w1 reason,
    wire w1 = (wire emptyWorld ++ [s])%list
    /\ executeRequest_of V005 testDeps tornNet (sanitized (addressableOf "sink")) ping
         (Header_Set "Prefer" "reply" (additionalHeaders replyConfig))
         (retryConfig replyConfig) [] emptyWorld
       = (Panics reason, w1)
    /\ send_of V005 testDeps tornNet ping (addressableOf "sink") replyConfig emptyWorld
       = (Panics reason, finish [ping] w1).
Proof.
  destruct (undecodable_response_is_no_reply testDeps tornNet V005 ping
              (addressableOf "sink") replyConfig emptyWorld (httpURL "sink")
              tornResponse eq_refl)
    as (s & w1 & Hw & _ & Hp).
  - vm_compute. reflexivity.
  - intros s Hs. reflexivity.
  - simpl. lia.
  - reflexivity.
  - destruct (Hp eq_refl) as (reason & He & Hsend).
    exists s, w1, reason. auto.
Defined.

(** * Further properties of the client cache *)

Section PoolMore.
Variable L : Libs.

Lemma createNewClient_ok a st c st' :
  createNewClient L a st = (Ok c, st') ->
  clientPtr c = allocated st /\ Tuning c = connectionArgs st /\ Timeout c = 0%Z
  /\ allocated st' = S (allocated st)
  /\ clients st' = clients st /\ connectionArgs st' = connectionArgs st
  /\ printed st' = printed st.
Proof.
  unfold createNewClient. intros H.
  repeat (case_match; simplify_eq); simpl; auto 10.
Qed.

Lemma createNewClient_err a st e st' :
  createNewClient L a st = (Err e, st') -> st' = st.
Proof.
  unfold createNewClient. intros H.
  repeat (case_match; simplify_eq); reflexivity.
Qed.

Lemma pool_wf_insert st st' k c :
  pool_wf st ->
  clientPtr c = allocated st -> Tuning c = connectionArgs st -> Timeout c = 0%Z ->
  allocated st' = S (allocated st) ->
  clients st' = <[k := c]> (clients st) ->
  connectionArgs st' = connectionArgs st ->
  pool_wf st'.
Proof.
  intros [Hc Hd] Hp Ht Hz Ha Hm Hca. split.
  - intros k0 c0. rewrite Hm, Ha, Hca. intros Hl.
    apply lookup_insert_Some in Hl as [[-> ->]|[Hne Hl]].
    + repeat split; auto; lia.
    + destruct (Hc _ _ Hl) as (? & ? & ?). repeat split; auto; lia.
  - intros k1 k2 c1 c2. rewrite Hm. intros H1 H2 Heq.
    apply lookup_insert_Some in H1 as [[<- <-]|[Hn1 H1]];
      apply lookup_insert_Some in H2 as [[<- <-]|[Hn2 H2]]; auto.
    + destruct (Hc _ _ H2) as (? & _). lia.
    + destruct (Hc _ _ H1) as (? & _). lia.
    + eauto.
Qed.

Lemma pool_wf_step op st : pool_wf st -> pool_wf (run_op L op st).
Proof.
  intros Hwf. destruct op as [a|a|a|ca]; simpl.
  - unfold getClientForAddressable.
    destruct (clients st !! URL_String L (AddrURL a)); [exact Hwf|].
    destruct (createNewClient L a st) as [[c|e] st1] eqn:Hc; simpl.
    + destruct (createNewClient_ok _ _ _ _ Hc) as (? & ? & ? & ? & Hcl & ? & ?).
      eapply pool_wf_insert; eauto. simpl. rewrite Hcl. reflexivity.
    + apply createNewClient_err in Hc. subst. exact Hwf.
  - unfold AddOrUpdateAddressableHandler.
    destruct (createNewClient L a st) as [[c|e] st1] eqn:Hc; simpl.
    + destruct (createNewClient_ok _ _ _ _ Hc) as (? & ? & ? & ? & Hcl & ? & ?).
      eapply pool_wf_insert; eauto. simpl. rewrite Hcl. reflexivity.
    + apply createNewClient_err in Hc. subst. destruct Hwf as [H1 H2].
      split; simpl; eauto.
  - unfold DeleteAddressableHandler. destruct Hwf as [H1 H2]. split; simpl.
    + intros k c Hl. apply lookup_delete_Some in Hl as [_ Hl]. eauto.
    + intros k1 k2 c1 c2 Hl1 Hl2.
      apply lookup_delete_Some in Hl1 as [_ Hl1].
      apply lookup_delete_Some in Hl2 as [_ Hl2]. eauto.
  - unfold ConfigureConnectionArgs.
    destruct (same_config ca (connectionArgs st)); [exact Hwf|].
    destruct Hwf as [H1 H2].
    assert (He : (if bool_decide (0 < size (clients st))%nat
                  then (∅ : gmap string Client) else clients st) = ∅).
    { case_bool_decide; [reflexivity|].
      apply map_size_empty_iff. lia. }
    split; simpl; rewrite He; intros *; rewrite lookup_empty; discriminate.
Qed.

(** X1: in every state the cache can reach from its initial one, by any
    sequence of lookups, upserts, deletes and reconfigurations, every cached
    client is an earlier allocation built with the tuning now in force and
    without a timeout of its own, and no two URLs hold the same client. *)
Theorem pool_reachable_wf ops : pool_wf (run_ops L ops init).
Proof.
  unfold run_ops.
  assert (H0 : pool_wf init).
  { split; simpl; intros *; rewrite lookup_empty; discriminate. }
  revert H0. generalize init. induction ops as [|op ops IH]; simpl; intros st H.
  - exact H.
  - apply IH. apply pool_wf_step. exact H.
Qed.

(** X2: an upsert that can build its client puts a new allocation under the
    URL, whatever was cached there, and the next lookup for that URL returns
    exactly that client and changes nothing. *)
Theorem upsert_then_lookup a st c st1 :
  createNewClient L a st = (Ok c, st1) ->
  clientPtr c = allocated st
  /\ clients (AddOrUpdateAddressableHandler L a st) !! URL_String L (AddrURL a) = Some c
  /\ getClientForAddressable L a (AddOrUpdateAddressableHandler L a st)
     = (Ok c, AddOrUpdateAddressableHandler L a st).
Proof.
  intros Hc. destruct (createNewClient_ok _ _ _ _ Hc) as (Hp & _).
  assert (Hl : clients (AddOrUpdateAddressableHandler L a st)
                 !! URL_String L (AddrURL a) = Some c).
  { unfold AddOrUpdateAddressableHandler. rewrite Hc. simpl. apply lookup_insert_eq. }
  split; [exact Hp|]. split; [exact Hl|].
  unfold getClientForAddressable. rewrite Hl. reflexivity.
Qed.

(** X3: deleting an addressable twice is deleting it once; it leaves the
    other URLs alone; and the lookup that follows never returns the client
    that was deleted: it builds a new allocation or fails. *)
Theorem delete_then_lookup a st c0 :
  clients st !! URL_String L (AddrURL a) = Some c0 ->
  (clientPtr c0 < allocated st)%nat ->
  DeleteAddressableHandler L a (DeleteAddressableHandler L a st)
  = DeleteAddressableHandler L a st
  /\ (forall k, k <> URL_String L (AddrURL a) ->
        clients (DeleteAddressableHandler L a st) !! k = clients st !! k)
  /\ (forall c st',
        getClientForAddressable L a (DeleteAddressableHandler L a st) = (Ok c, st') ->
        clientPtr c = allocated st /\ clientPtr c <> clientPtr c0).
Proof.
  intros Hk Hlt. split; [|split].
  - unfold DeleteAddressableHandler, set_clients. simpl.
    rewrite delete_delete_eq. reflexivity.
  - intros k Hne. unfold DeleteAddressableHandler. simpl.
    apply lookup_delete_ne. congruence.
  - intros c st' Hg. unfold getClientForAddressable in Hg.
    assert (Hn : clients (DeleteAddressableHandler L a st)
                   !! URL_String L (AddrURL a) = None)
      by (unfold DeleteAddressableHandler; simpl; apply lookup_delete_eq).
    rewrite Hn in Hg.
    destruct (createNewClient L a (DeleteAddressableHandler L a st))
      as [[c'|e] st1] eqn:Hc; simplify_eq.
    destruct (createNewClient_ok _ _ _ _ Hc) as (Hp & _). simpl in Hp. lia.
Qed.

(** X4: reconfiguring twice with the same arguments is reconfiguring once,
    and a reconfiguration whose two tuning values equal the current ones
    changes nothing: the cached clients stay. *)
Theorem reconfigure_idempotent ca st :
  ConfigureConnectionArgs ca (ConfigureConnectionArgs ca st)
  = ConfigureConnectionArgs ca st
  /\ (forall cur new,
        connectionArgs st = Some cur -> ca = Some new ->
        MaxIdleConns new = MaxIdleConns cur ->
        MaxIdleConnsPerHost new = MaxIdleConnsPerHost cur ->
        ConfigureConnectionArgs ca st = st).
Proof.
  split.
  - assert (He : (if bool_decide (0 < size (clients st))%nat
                  then (∅ : gmap string Client) else clients st) = ∅).
    { case_bool_decide; [reflexivity|]. apply map_size_empty_iff. lia. }
    unfold ConfigureConnectionArgs.
    destruct (same_config ca (connectionArgs st)) eqn:Hs; simpl.
    + rewrite Hs. reflexivity.
    + rewrite He. destruct (same_config ca ca); [reflexivity|].
      rewrite map_size_empty. reflexivity.
  - intros cur new Hcur -> H1 H2. unfold ConfigureConnectionArgs, same_config.
    rewrite Hcur, !bool_decide_eq_true_2 by assumption. reflexivity.
Qed.

(** X5: a reconfiguration with tuning that differs from the current one, and
    every reconfiguration with a nil argument, leaves the cache empty; each
    client looked up afterwards is a new allocation that carries the new
    tuning. *)
Theorem reconfigure_rebuilds ca st :
  same_config ca (connectionArgs st) = false ->
  clients (ConfigureConnectionArgs ca st) = ∅
  /\ connectionArgs (ConfigureConnectionArgs ca st) = ca
  /\ (forall a c st',
        getClientForAddressable L a (ConfigureConnectionArgs ca st) = (Ok c, st') ->
        Tuning c = ca /\ clientPtr c = allocated st).
Proof.
  intros Hs.
  assert (Hc : clients (ConfigureConnectionArgs ca st) = ∅).
  { unfold ConfigureConnectionArgs. rewrite Hs. simpl.
    case_bool_decide; [reflexivity|]. apply map_size_empty_iff. lia. }
  assert (Ha : connectionArgs (ConfigureConnectionArgs ca st) = ca
               /\ allocated (ConfigureConnectionArgs ca st) = allocated st).
  { unfold ConfigureConnectionArgs. rewrite Hs. split; reflexivity. }
  split; [exact Hc|]. split; [apply Ha|].
  intros a c st' Hg. unfold getClientForAddressable in Hg.
  rewrite Hc, lookup_empty in Hg.
  destruct (createNewClient L a (ConfigureConnectionArgs ca st))
    as [[c'|e] st1] eqn:Hn; simplify_eq.
  destruct (createNewClient_ok _ _ _ _ Hn) as (Hp & Ht & _).
  destruct Ha as [Ha1 Ha2]. split; congruence.
Qed.

(** X6: a lookup fails in one case only: no client is cached for the URL,
    the addressable carries CA material that is not empty, and the system
    pool cannot be read or the material does not parse. An addressable
    without CA material, or with empty material, always gets a client. *)
Theorem lookup_fails_iff a st :
  is_Err (fst (getClientForAddressable L a st))
  <-> clients st !! URL_String L (AddrURL a) = None
      /\ exists pem, CACerts a = Some pem /\ pem <> ""
                     /\ (x509_SystemCertPool L <> None
                         \/ x509_AppendCertsFromPEM L pem = false).
Proof.
  unfold getClientForAddressable, createNewClient.
  destruct (clients st !! URL_String L (AddrURL a)) as [c|]; simpl.
  { split; [tauto|]. intros [H _]. discriminate. }
  destruct (CACerts a) as [pem|]; simpl.
  2:{ split; [tauto|]. intros (_ & pem & H & _). discriminate. }
  case_bool_decide as Hp; simpl.
  { split; [tauto|]. intros (_ & pem' & H & Hne & _). congruence. }
  destruct (x509_SystemCertPool L) as [e|] eqn:Hsys; simpl.
  { split; [|tauto]. intros _. split; [reflexivity|]. exists pem.
    split; [reflexivity|]. split; [exact Hp|]. left. discriminate. }
  destruct (x509_AppendCertsFromPEM L pem) eqn:Happ; simpl.
  - split; [tauto|]. intros (_ & pem' & H & _ & [Hc|Hc]); [congruence|].
    simplify_eq. congruence.
  - split; [|tauto]. intros _. split; [reflexivity|]. exists pem. auto.
Qed.

End PoolMore.

Lemma upsert_then_lookup_witness :
  clientPtr {| clientPtr := 1; RootCAs := CACerts (goodCerts "sink");
               Tuning := None; Timeout := 0 |} = allocated poolWithSink
  /\ clients (AddOrUpdateAddressableHandler testLibs (goodCerts "sink") poolWithSink)
       !! URL_String testLibs (AddrURL (goodCerts "sink"))
     = Some {| clientPtr := 1; RootCAs := CACerts (goodCerts "sink");
               Tuning := None; Timeout := 0 |}
  /\ getClientForAddressable testLibs (goodCerts "sink")
       (AddOrUpdateAddressableHandler testLibs (goodCerts "sink") poolWithSink)
     = (Ok {| clientPtr := 1; RootCAs := CACerts (goodCerts "sink");
              Tuning := None; Timeout := 0 |},
        AddOrUpdateAddressableHandler testLibs (goodCerts "sink") poolWithSink).
Proof.
  apply (upsert_then_lookup testLibs (goodCerts "sink") poolWithSink _
           (snd (createNewClient testLibs (goodCerts "sink") poolWithSink))).
  reflexivity.
Defined.

Lemma delete_then_lookup_witness :
  DeleteAddressableHandler testLibs (addressableOf "sink")
    (DeleteAddressableHandler testLibs (addressableOf "sink") poolWithSink)
  = DeleteAddressableHandler testLibs (addressableOf "sink") poolWithSink
  /\ (forall k, k <> URL_String testLibs (AddrURL (addressableOf "sink")) ->
        clients (DeleteAddressableHandler testLibs (addressableOf "sink") poolWithSink)
          !! k = clients poolWithSink !! k)
  /\ (forall c st',
        getClientForAddressable testLibs (addressableOf "sink")
          (DeleteAddressableHandler testLibs (addressableOf "sink") poolWithSink)
        = (Ok c, st') ->
        clientPtr c = allocated poolWithSink /\ clientPtr c <> clientPtr sinkClient).
Proof.
  apply (delete_then_lookup testLibs (addressableOf "sink") poolWithSink sinkClient
           eq_refl (le_n 1)).
Defined.

Lemma reconfigure_rebuilds_witness :
  clients (ConfigureConnectionArgs
             (Some {| MaxIdleConns := 10; MaxIdleConnsPerHost := 2 |}) poolWithSink)
  = ∅.
Proof.
  apply (proj1 (reconfigure_rebuilds testLibs
                  (Some {| MaxIdleConns := 10; MaxIdleConnsPerHost := 2 |})
                  poolWithSink eq_refl)).
Defined.

(** * Further properties of the backoff *)

Section BackoffMore.
Variable PT : string -> option Z.

(** X7: the backoff is never shorter than the configured one, and the
    Retry-After header never lengthens it beyond the ceiling: it is at most
    the larger of the configured backoff and the ceiling (zero for a nil or
    negative ceiling). *)
Theorem backoff_bounds cfg n resp :
  (Backoff cfg n resp <= generateBackoffFn PT cfg n resp)%Z
  /\ (generateBackoffFn PT cfg n resp
      <= Z.max (Backoff cfg n resp)
               (match RetryAfterMaxDuration cfg with
                | Some ceiling => Z.max 0 ceiling
                | None => 0
                end))%Z.
Proof.
  destruct (RetryAfterMaxDuration cfg) as [ceiling|] eqn:Hc.
  - rewrite (generateBackoffFn_max PT cfg n resp ceiling Hc).
    unfold retryAfterDelay. destruct resp as [r|]; [case_bool_decide|]; lia.
  - rewrite (generateBackoffFn_nil PT cfg n resp Hc). lia.
Qed.

Lemma wrap64_small z :
  (- 2 ^ 63 <= z < 2 ^ 63)%Z -> wrap64 z = z.
Proof.
  intros H. unfold wrap64.
  rewrite Z.mod_small by lia. lia.
Qed.

(** X8: the Retry-After delay is read from the first value of the header.
    Without a response, without the header, or with an empty value it is
    zero; a value that parses as an integer of at most 9223372036 seconds in
    magnitude gives exactly that many seconds, and is never tried as a date;
    a value that is neither an integer nor a date gives zero. *)
Theorem retry_after_delay_parsed :
  parseRetryAfterDuration PT None = 0%Z
  /\ (forall r,
        Header_Get (RespHeader r) RetryAfterHeader = "" ->
        parseRetryAfterDuration PT (Some r) = 0%Z)
  /\ (forall r s rest n,
        RespHeader r !! RetryAfterHeader = Some (s :: rest) ->
        ParseInt s = Some n ->
        (- 9223372036 <= n <= 9223372036)%Z ->
        parseRetryAfterDuration PT (Some r) = (n * Second)%Z)
  /\ (forall r s rest,
        RespHeader r !! RetryAfterHeader = Some (s :: rest) ->
        ParseInt s = None -> PT s = None ->
        parseRetryAfterDuration PT (Some r) = 0%Z).
Proof.
  split; [reflexivity|]. split; [|split].
  - intros r H. unfold parseRetryAfterDuration. rewrite H. reflexivity.
  - intros r s rest n Hh Hp Hn. unfold parseRetryAfterDuration, Header_Get.
    rewrite Hh. case_bool_decide as Hl.
    + destruct s; [discriminate Hp | simpl in Hl; lia].
    + rewrite Hp. apply wrap64_small. unfold Second. lia.
  - intros r s rest Hh Hp Hd. unfold parseRetryAfterDuration, Header_Get.
    rewrite Hh, Hp, Hd. case_bool_decide; reflexivity.
Qed.

End BackoffMore.

Lemma retry_after_delay_parsed_witness :
  parseRetryAfterDuration noDates (Some (tooManyRequests "120")) = (120 * Second)%Z.
Proof.
  apply (proj1 (proj2 (proj2 (retry_after_delay_parsed noDates)))
           (tooManyRequests "120") "120" [] 120%Z);
    [reflexivity | reflexivity | lia].
Defined.

(** * Further properties of the dispatcher *)

Lemma sanitizeURL_twice u : sanitizeURL (sanitizeURL u) = sanitizeURL u.
Proof.
  destruct u as [u|]; [|reflexivity]. cbn [sanitizeURL].
  destruct (bool_decide (Scheme u = "http") || bool_decide (Scheme u = "https"))
    eqn:Hs.
  - cbn [sanitizeURL]. rewrite Hs. reflexivity.
  - reflexivity.
Qed.

Lemma sanitizeURL_scheme u u' :
  sanitizeURL (Some u) = Some u' ->
  (Scheme u' = "http" \/ Scheme u' = "https") /\ Host u' = Host u.
Proof.
  unfold sanitizeURL.
  destruct (bool_decide (Scheme u = "http") || bool_decide (Scheme u = "https"))
    eqn:Hs; intros H; simplify_eq; simpl.
  - apply orb_true_iff in Hs as [Hs|Hs]; apply bool_decide_eq_true_1 in Hs; auto.
  - auto.
Qed.

(** X9: sanitizing a URL twice is sanitizing it once, and what comes out has
    scheme [http] or [https] and the host that went in; sanitizing an
    addressable keeps its CA certificates. *)
Theorem sanitizeURL_idempotent :
  (forall u, sanitizeURL (sanitizeURL u) = sanitizeURL u)
  /\ (forall u u', sanitizeURL (Some u) = Some u' ->
        (Scheme u' = "http" \/ Scheme u' = "https") /\ Host u' = Host u)
  /\ (forall a, sanitized (sanitized a) = sanitized a
                /\ CACerts (sanitized a) = CACerts a).
Proof.
  split; [exact sanitizeURL_twice|]. split; [exact sanitizeURL_scheme|].
  intros a. unfold sanitized. simpl. rewrite sanitizeURL_twice. auto.
Qed.

(** The panic made explicit: the transformers as a function of what is
    encoded. *)
Lemma dispatchExecutionInfoTransformers_eq D destination info :
  dispatchExecutionInfoTransformers D destination info
  = let destination0 := match destination with None => emptyURL | Some u => u end in
    let encode (dst : option URL) (body : string) :=
      if bool_decide (base64_EncodedLen (Z.of_nat (String.length body))
                      > KnativeErrorDataExtensionMaxLength D)%Z
      then Panics (if bool_decide (KnativeErrorDataExtensionMaxLength D < 0)%Z
                   then "makeslice: len out of range" else "index out of range")
      else Returns [KnativeErrorTransformers
                      (match sanitizeURL dst with None => emptyURL | Some u => u end)
                      (ResponseCode info) (base64_Encode body)] in
    if bool_decide (Host destination0 = brokerFilterHost D) then
      match json_Unmarshal_ErrExtensionInfo D (ResponseBody info) with
      | Err _ => Returns []
      | Ok (errDestination, errResponseBody) => encode errDestination errResponseBody
      end
    else encode (Some destination0) (ResponseBody info).
Proof.
  assert (He : forall dst body,
             match make_bytes
                     (if bool_decide
                           (base64_EncodedLen (Z.of_nat (String.length body))
                            > KnativeErrorDataExtensionMaxLength D)%Z
                      then KnativeErrorDataExtensionMaxLength D
                      else base64_EncodedLen (Z.of_nat (String.length body))) with
             | Panics r => Panics r
             | Returns encodedBuf =>
                 match Encode encodedBuf body with
                 | Panics r => Panics r
                 | Returns encodedBuf =>
                     Returns
                       [KnativeErrorTransformers
                          (match sanitizeURL dst with None => emptyURL | Some u => u end)
                          (ResponseCode info)
                          (string_take
                             (Z.to_nat
                                (if bool_decide
                                      (base64_EncodedLen (Z.of_nat (String.length body))
                                       > KnativeErrorDataExtensionMaxLength D)%Z
                                 then KnativeErrorDataExtensionMaxLength D
                                 else base64_EncodedLen
                                        (Z.of_nat (String.length body))))
                             encodedBuf)]
                 end
             end
             = if bool_decide (base64_EncodedLen (Z.of_nat (String.length body))
                               > KnativeErrorDataExtensionMaxLength D)%Z
               then Panics (if bool_decide (KnativeErrorDataExtensionMaxLength D < 0)%Z
                            then "makeslice: len out of range"
                            else "index out of range")
               else Returns
                      [KnativeErrorTransformers
                         (match sanitizeURL dst with None => emptyURL | Some u => u end)
                         (ResponseCode info) (base64_Encode body)]).
  { intros dst body.
    pose proof (encode_clamped (KnativeErrorDataExtensionMaxLength D) body) as Hc.
    pose proof (base64_Encode_length body) as Hlen.
    pose proof (base64_EncodedLen_nonneg (Z.of_nat (String.length body))
                  (Nat2Z.is_nonneg _)) as Hpos.
    destruct (decide (base64_EncodedLen (Z.of_nat (String.length body))
                      > KnativeErrorDataExtensionMaxLength D)%Z) as [Hn|Hn].
    - rewrite !(bool_decide_eq_true_2 _ Hn) in *. unfold make_bytes, Encode in *.
      destruct (decide (KnativeErrorDataExtensionMaxLength D < 0)%Z) as [Hm|Hm].
      + rewrite !(bool_decide_eq_true_2 _ Hm). reflexivity.
      + rewrite !(bool_decide_eq_false_2 _ Hm), zeros_length.
        rewrite bool_decide_eq_true_2 by lia. reflexivity.
    - rewrite !(bool_decide_eq_false_2 _ Hn) in *.
      destruct (make_bytes _) as [buf|r]; [|lia].
      destruct (Encode buf body) as [buf'|r]; [|lia].
      destruct Hc as [_ ->]. reflexivity. }
  unfold dispatchExecutionInfoTransformers. cbv zeta.
  destruct (bool_decide (Host _ = brokerFilterHost D)).
  - destruct (json_Unmarshal_ErrExtensionInfo D (ResponseBody info)) as [[ed eb]|e];
      [apply He | reflexivity].
  - apply He.
Qed.

(** X10: the transformers for a failed attempt are none at all exactly when
    the failing host is the broker filter and its response body does not
    unmarshal. Otherwise the call panics exactly when the base64 encoding of
    the body (the recorded one, or the one unmarshalled for the broker filter)
    is longer than [KnativeErrorDataExtensionMaxLength]; when it returns there
    is one transformer, it carries the attempt's status code, and its data is
    the whole encoding, no longer than that maximum. When the failing host is
    not the broker filter the destination it names has scheme [http] or
    [https] and the failing host. *)
Theorem error_transformers_bounded D destination info :
  let host := Host (match destination with Some u => u | None => emptyURL end) in
  (dispatchExecutionInfoTransformers D destination info = Returns []
   <-> host = brokerFilterHost D
       /\ is_Err (json_Unmarshal_ErrExtensionInfo D (ResponseBody info)))
  /\ (host <> brokerFilterHost D ->
      ((base64_EncodedLen (Z.of_nat (String.length (ResponseBody info)))
        > KnativeErrorDataExtensionMaxLength D)%Z
       <-> exists r, dispatchExecutionInfoTransformers D destination info = Panics r))
  /\ (forall errDestination errResponseBody,
        host = brokerFilterHost D ->
        json_Unmarshal_ErrExtensionInfo D (ResponseBody info)
        = Ok (errDestination, errResponseBody) ->
        ((base64_EncodedLen (Z.of_nat (String.length errResponseBody))
          > KnativeErrorDataExtensionMaxLength D)%Z
         <-> exists r, dispatchExecutionInfoTransformers D destination info = Panics r)
        /\ (forall trs,
              dispatchExecutionInfoTransformers D destination info = Returns trs ->
              exists u,
                trs = [KnativeErrorTransformers u (ResponseCode info)
                         (base64_Encode errResponseBody)]))
  /\ (forall trs t,
        dispatchExecutionInfoTransformers D destination info = Returns trs ->
        t ∈ trs ->
        exists u data,
          trs = [KnativeErrorTransformers u (ResponseCode info) data]
          /\ (Z.of_nat (String.length data)
              <= KnativeErrorDataExtensionMaxLength D)%Z
          /\ (host <> brokerFilterHost D ->
              (Scheme u = "http" \/ Scheme u = "https")
              /\ Host u = host
              /\ data = base64_Encode (ResponseBody info))).
Proof.
  intros host. subst host.
  rewrite dispatchExecutionInfoTransformers_eq. cbv zeta.
  set (d0 := match destination with Some u => u | None => emptyURL end).
  destruct (decide (Host d0 = brokerFilterHost D)) as [Hh|Hh].
  - rewrite (bool_decide_eq_true_2 _ Hh).
    destruct (json_Unmarshal_ErrExtensionInfo D (ResponseBody info))
      as [[ed eb]|e].
    + destruct (decide (base64_EncodedLen (Z.of_nat (String.length eb))
                        > KnativeErrorDataExtensionMaxLength D)%Z) as [Hn|Hn].
      * rewrite (bool_decide_eq_true_2 _ Hn).
        split; [split; [discriminate | intros [_ []]]|].
        split; [intros Hc; contradiction|]. split.
        { intros ed' eb' _ [= <- <-]. split; [split; eauto|]. discriminate. }
        discriminate.
      * rewrite (bool_decide_eq_false_2 _ Hn).
        split; [split; [discriminate | intros [_ []]]|].
        split; [intros Hc; contradiction|]. split.
        { intros ed' eb' _ [= <- <-].
          split; [split; [contradiction | intros [r Hr]; discriminate]|].
          intros trs [= <-]. eauto. }
        intros trs t [= <-] Ht. eexists _, _. split; [reflexivity|].
        split; [rewrite base64_Encode_length; lia | contradiction].
    + split; [split; [intros _; split; [exact Hh | exact I] | reflexivity]|].
      split; [intros Hc; contradiction|]. split; [discriminate|].
      intros trs t [= <-] Ht. inversion Ht.
  - rewrite (bool_decide_eq_false_2 _ Hh).
    destruct (decide (base64_EncodedLen (Z.of_nat (String.length (ResponseBody info)))
                      > KnativeErrorDataExtensionMaxLength D)%Z) as [Hn|Hn].
    + rewrite (bool_decide_eq_true_2 _ Hn).
      split; [split; [discriminate | intros [? _]; contradiction]|].
      split; [intros _; split; eauto|].
      split; [intros ? ? Hc; contradiction | discriminate].
    + rewrite (bool_decide_eq_false_2 _ Hn).
      split; [split; [discriminate | intros [? _]; contradiction]|].
      split; [intros _; split; [contradiction | intros [r Hr]; discriminate]|].
      split; [intros ? ? Hc; contradiction|].
      intros trs t [= <-] Ht. eexists _, _. split; [reflexivity|].
      split; [rewrite base64_Encode_length; lia|]. intros _.
      destruct (sanitizeURL_Some d0) as [u' Hu'].
      destruct (sanitizeURL_scheme d0 u' Hu') as [Hsch Hhost].
      unfold sanitizeURL in Hu'. rewrite Hu'. auto.
Qed.

Section HopFacts.
Variable D : Deps.
Variable net : Network.

(** X11: whenever [executeRequest] returns, its error is nil exactly when the
    status code it recorded is a 2xx one, and a response message comes back
    only without an error: it is then the response read as a message, and it
    reads as an event. *)
Theorem error_iff_not_2xx v target message hdr rc tr w o info err w' :
  executeRequest_of v D net target message hdr rc tr w
  = (Returns (o, info, err), w') ->
  (err = None <-> (200 <= ResponseCode info < 300)%Z)
  /\ (forall m, o = Some m ->
        err = None
        /\ exists h b, m = NewMessage h b /\ ReadEncoding D h b <> EncodingUnknown).
Proof.
  intros He.
  destruct (executeRequest_effect D net _ _ _ _ _ _ _ _ _ He) as (_ & _ & Hr).
  destruct (Hr o info err eq_refl) as [Hi Hm]. split; [|exact Hm].
  rewrite Hi. unfold isFailure, StatusOK, StatusMultipleChoices.
  rewrite orb_false_iff, !bool_decide_eq_false. lia.
Qed.

End HopFacts.

Lemma error_iff_not_2xx_witness :
  (Some (errorString "unexpected HTTP response, expected 2xx, got 500") = None
   <-> (200 <= 500 < 300)%Z)
  /\ (forall m, @None Message = Some m ->
        Some (errorString "unexpected HTTP response, expected 2xx, got 500") = None
        /\ exists h b, m = NewMessage h b
                       /\ ReadEncoding testDeps h b <> EncodingUnknown).
Proof.
  apply (error_iff_not_2xx testDeps testNet V003 (addressableOf "broken") ping ∅ None []
           emptyWorld None
           {| Duration := -1; ResponseCode := 500; ResponseHeader := ∅;
              ResponseBody := "boom" |}
           (Some (errorString "unexpected HTTP response, expected 2xx, got 500"))
           (snd (executeRequest_of V003 testDeps testNet (addressableOf "broken") ping
                   ∅ None [] emptyWorld))).
  vm_compute. reflexivity.
Defined.

Section WireFacts.
Variable D : Deps.
Variable net : Network.

(** X12: a call of [send] hands the retrying client at most one request for
    the destination, and none when the destination has no URL; then at most
    one for the reply target; then at most one for the dead-letter sink: at
    most three in all, in this order, and only for targets that are set. Each
    carries the retry configuration of the call; the ones for the destination
    and for the dead-letter sink carry the original message. In part_005
    nothing at all is handed over when the destination has no URL. *)
Theorem send_wire_summary v message destination config w :
  exists a b c : option Sent,
    wire (snd (send_of v D net message destination config w))
    = (wire w ++ opt_list a ++ opt_list b ++ opt_list c)%list
    /\ (forall s, a = Some s ->
          AddrURL destination <> None
          /\ sentTarget s = sanitized destination
          /\ sentMessage s = message
          /\ sentRetryConfig s = retryConfig config)
    /\ (forall s, b = Some s ->
          Some (sentTarget s) = sanitizeAddressable (reply config)
          /\ sentRetryConfig s = retryConfig config
          /\ (AddrURL destination = None -> v = V003 /\ sentMessage s = message))
    /\ (forall s, c = Some s ->
          Some (sentTarget s) = sanitizeAddressable (deadLetterSink config)
          /\ sentMessage s = message
          /\ sentRetryConfig s = retryConfig config
          /\ (AddrURL destination = None -> v = V003)).
Proof. exact (send_wire_shape D net v message destination config w). Qed.

End WireFacts.

Ltac use_results :=
  repeat match goal with
         | |- context [opt_list ?o] => is_var o; destruct o
         end;
  repeat match goal with
         | H : forall o info err, Returns (?a, ?b, ?c) = Returns (o, info, err) -> _
           |- _ =>
             let Hm := fresh "Hm" in
             destruct (H _ _ _ eq_refl) as [_ Hm]; clear H
         end;
  repeat match goal with
         | H : forall m, Some ?x = Some m -> _ |- _ =>
             let h := fresh "h" in
             let b := fresh "b" in
             let E := fresh "E" in
             destruct (H _ eq_refl) as (_ & h & b & E & _); clear H
         end.

Section FinishFacts.
Variable D : Deps.
Variable net : Network.

(** X13: on every path of [send], a panic included, the deferred loop
    finishes the original message, once and first, and after it at most two
    more messages, each a response that [executeRequest] read back; nothing
    else is finished. *)
Theorem send_finishes_messages v message destination config w :
  exists l,
    finished (snd (send_of v D net message destination config w))
    = (finished w ++ message :: l)%list
    /\ (length l <= 2)%nat
    /\ Forall (fun m => exists h b, m = NewMessage h b) l.
Proof.
  destruct v; cbn [send_of].
  - unfold Part003.send. cbv zeta.
    change Part003.executeRequest with (executeRequest_of V003).
    replace (AddrURL (sanitized destination)) with (sanitizeURL (AddrURL destination))
      by reflexivity.
    destruct (AddrURL destination) as [u|] eqn:Hu;
      [destruct (sanitizeURL_Some u) as [u' ->]|cbn [sanitizeURL]];
      destruct (reply config) as [rep|], (deadLetterSink config) as [dls|];
      cbn [sanitizeAddressable];
      run_send D net V003;
      use_results; simpl;
      repeat match goal with
             | H : finished _ = _ |- _ => progress rewrite H
             end;
      eexists; (split; [reflexivity|]); (split; [simpl; lia|]);
      repeat (constructor; [eauto|]); constructor.
  - unfold Part005.send. cbv zeta.
    change Part005.executeRequest with (executeRequest_of V005).
    destruct (AddrURL destination) as [u|] eqn:Hu;
      destruct (reply config) as [rep|], (deadLetterSink config) as [dls|];
      cbn [sanitizeAddressable];
      run_send D net V005;
      use_results; simpl;
      repeat match goal with
             | H : finished _ = _ |- _ => progress rewrite H
             end;
      eexists; (split; [reflexivity|]); (split; [simpl; lia|]);
      repeat (constructor; [eauto|]); constructor.
Qed.

End FinishFacts.

Section StageFacts.
Variable D : Deps.
Variable net : Network.

Lemma sanitized_URL destination u :
  AddrURL destination = Some u ->
  exists u', AddrURL (sanitized destination) = Some u'.
Proof.
  intros Hu. destruct (sanitizeURL_Some u) as [u' Hu']. exists u'.
  unfold sanitized. simpl. rewrite Hu. exact Hu'.
Qed.

(** X14: when the send to the destination fails and no dead-letter sink is
    set, the call ends there: it returns the record of the failed attempt with
    an error that names the destination and the cause, and nothing is sent to
    the reply target, set or not. *)
Theorem failure_without_dead_letter v message destination config w u
  rm info err w1 :
  AddrURL destination = Some u ->
  deadLetterSink config = None ->
  executeRequest_of v D net (sanitized destination) message
    (Header_Set "Prefer" "reply" (additionalHeaders config))
    (retryConfig config) [] w
  = (Returns (rm, info, Some err), w1) ->
  send_of v D net message destination config w
  = (Returns (Some info,
              Some (errorString
                      ("unable to complete request to "
                       ++ URL_String (libs D) (AddrURL (sanitized destination))
                       ++ ": " ++ Error err))),
     finish [message] w1)
  /\ wire (snd (send_of v D net message destination config w)) = wire w1.
Proof.
  intros Hu Hd H1. destruct (sanitized_URL destination u Hu) as [u' Hs].
  assert (send_of v D net message destination config w
          = (Returns (Some info,
                      Some (errorString
                              ("unable to complete request to "
                               ++ URL_String (libs D) (AddrURL (sanitized destination))
                               ++ ": " ++ Error err))),
             finish [message] w1)) as ->; [|split; reflexivity].
  destruct v; cbn [send_of executeRequest_of] in *.
  - unfold Part003.send. cbv zeta. rewrite Hd. cbn [sanitizeAddressable].
    rewrite Hs in *. rewrite H1. reflexivity.
  - unfold Part005.send. rewrite Hu. cbv zeta. rewrite Hd. cbn [sanitizeAddressable].
    rewrite H1. reflexivity.
Qed.

(** X15: when the destination answers with an event and a reply target is
    set, the reply hop is a call of [executeRequest] on the reply target with
    the response message, not the original one, under the same retry
    configuration; its headers are the passed-through response headers, with
    the caller's [Kn-Namespace] header written over them when the caller set
    one. If the hop succeeds the call returns its record and no error; if it
    fails and no dead-letter sink is set, the call returns its record and an
    error that names the reply target. *)
Theorem reply_is_forwarded v message destination config w u rep
  rm info w1 out2 w2 :
  AddrURL destination = Some u ->
  reply config = Some rep ->
  executeRequest_of v D net (sanitized destination) message
    (Header_Set "Prefer" "reply" (additionalHeaders config))
    (retryConfig config) [] w
  = (Returns (Some rm, info, None), w1) ->
  executeRequest_of v D net (sanitized rep) rm
    (propagateNamespace D (additionalHeaders config) (ResponseHeader info))
    (retryConfig config) [] w1
  = (out2, w2) ->
  (requestBuilt v D (sanitized rep) rm [] w1 = true ->
   exists s,
     wire w2 = (wire w1 ++ [s])%list
     /\ sentTarget s = sanitized rep
     /\ sentMessage s = rm
     /\ sentRetryConfig s = retryConfig config
     /\ (Header_Get (additionalHeaders config) (KnNamespaceHeader D) <> "" ->
         sentHeader s !! KnNamespaceHeader D
         = Some [Header_Get (additionalHeaders config) (KnNamespaceHeader D)]))
  /\ (forall rr info2,
        out2 = Returns (rr, info2, None) ->
        send_of v D net message destination config w
        = (Returns (Some info2, None),
           finish ([message; rm] ++ opt_list rr)%list w2))
  /\ (forall rr info2 err,
        out2 = Returns (rr, info2, Some err) ->
        deadLetterSink config = None ->
        send_of v D net message destination config w
        = (Returns (Some info2,
                    Some (errorString
                            ("failed to forward reply to "
                             ++ URL_String (libs D) (AddrURL (sanitized rep))
                             ++ ": " ++ Error err))),
           finish [message; rm] w2)).
Proof.
  intros Hu Hr H1 H2. split.
  { intros Hb.
    destruct (executeRequest_built D net v (sanitized rep) rm
                (propagateNamespace D (additionalHeaders config) (ResponseHeader info))
                (retryConfig config) [] w1 Hb)
      as (s & w' & wr & Hw & _ & Ht & Hm & Hrc & _ & _ & Hh & He).
    rewrite He in H2. inversion H2; subst. exists s.
    do 4 (split; [solve [auto]|]). intros Hns. rewrite Hh.
    apply lookup_union_Some_l. unfold propagateNamespace.
    rewrite (bool_decide_eq_true_2 _ Hns). apply lookup_insert_eq. }
  destruct (sanitized_URL destination u Hu) as [u' Hs].
  destruct v; cbn [send_of executeRequest_of] in *.
  - unfold Part003.send. cbv zeta. rewrite Hr. cbn [sanitizeAddressable].
    rewrite Hs. rewrite H1, H2.
    split; [intros; subst out2; reflexivity|].
    intros rr info2 err -> ->. reflexivity.
  - unfold Part005.send. rewrite Hu. cbv zeta. rewrite Hr. cbn [sanitizeAddressable].
    rewrite H1, H2.
    split; [intros; subst out2; reflexivity|].
    intros rr info2 err -> ->. reflexivity.
Qed.

(** X16: when forwarding the reply fails and a dead-letter sink is set, the
    code builds the transformers from the reply target's URL and the record
    of the failed reply hop. For a reply target other than the broker filter
    this panics exactly when the base64 encoding of the recorded body is
    longer than [KnativeErrorDataExtensionMaxLength], and the call panics
    with it; otherwise there is one transformer, with the sanitized reply
    URL, the recorded status code and the recorded body in base64. The
    dead-letter hop is then a call of [executeRequest] on the sink with the
    original message, not the reply, and with this transformer. If it fails
    the call returns an error that names the reply target, the sink and both
    causes; if it succeeds the call returns no error. *)
Theorem reply_failure_goes_to_dead_letter v message destination config w u rep dls
  rm info w1 rr info2 err2 w2 :
  AddrURL destination = Some u ->
  reply config = Some rep ->
  deadLetterSink config = Some dls ->
  executeRequest_of v D net (sanitized destination) message
    (Header_Set "Prefer" "reply" (additionalHeaders config))
    (retryConfig config) [] w
  = (Returns (Some rm, info, None), w1) ->
  executeRequest_of v D net (sanitized rep) rm
    (propagateNamespace D (additionalHeaders config) (ResponseHeader info))
    (retryConfig config) [] w1
  = (Returns (rr, info2, Some err2), w2) ->
  (forall r,
     dispatchExecutionInfoTransformers D (AddrURL (sanitized rep)) info2 = Panics r ->
     send_of v D net message destination config w
     = (Panics r, finish [message; rm] w2))
  /\ (forall ru,
        AddrURL rep = Some ru ->
        Host ru <> brokerFilterHost D ->
        ((base64_EncodedLen (Z.of_nat (String.length (ResponseBody info2)))
          > KnativeErrorDataExtensionMaxLength D)%Z
         <-> exists r,
               dispatchExecutionInfoTransformers D (AddrURL (sanitized rep)) info2
               = Panics r))
  /\ (forall tr,
        dispatchExecutionInfoTransformers D (AddrURL (sanitized rep)) info2
        = Returns tr ->
        (forall ru,
           AddrURL rep = Some ru ->
           Host ru <> brokerFilterHost D ->
           exists u',
             AddrURL (sanitized rep) = Some u'
             /\ tr = [KnativeErrorTransformers u' (ResponseCode info2)
                        (base64_Encode (ResponseBody info2))])
        /\ forall out3 w3,
             executeRequest_of v D net (sanitized dls) message
               (propagateNamespace D (additionalHeaders config) (ResponseHeader info))
               (retryConfig config) tr w2
             = (out3, w3) ->
             (requestBuilt v D (sanitized dls) message tr w2 = true ->
              exists s,
                wire w3 = (wire w2 ++ [s])%list
                /\ sentTarget s = sanitized dls
                /\ sentMessage s = message
                /\ sentRetryConfig s = retryConfig config
                /\ sentTransformers s = withSpan D (sanitized dls) tr)
             /\ (forall dr info3 err3,
                   out3 = Returns (dr, info3, Some err3) ->
                   send_of v D net message destination config w
                   = (Returns
                        (Some info3,
                         Some (errorString
                                 ("failed to forward reply to "
                                  ++ URL_String (libs D) (AddrURL (sanitized rep))
                                  ++ " (" ++ Error err2
                                  ++ ") and failed to send it to the dead letter sink "
                                  ++ URL_String (libs D) (AddrURL (sanitized dls))
                                  ++ " (" ++ Error err3 ++ ")"))),
                      finish [message; rm] w3))
             /\ (forall dr info3,
                   out3 = Returns (dr, info3, None) ->
                   send_of v D net message destination config w
                   = (Returns (Some info3, None),
                      finish ([message; rm] ++ opt_list dr)%list w3))).
Proof.
  intros Hu Hr Hd H1 H2.
  destruct (sanitized_URL destination u Hu) as [u' Hs].
  assert (Hsend :
            send_of v D net message destination config w
            = match dispatchExecutionInfoTransformers D (AddrURL (sanitized rep))
                      info2 with
              | Panics r => (Panics r, finish [message; rm] w2)
              | Returns tr =>
                  match executeRequest_of v D net (sanitized dls) message
                          (propagateNamespace D (additionalHeaders config)
                             (ResponseHeader info))
                          (retryConfig config) tr w2 with
                  | (Panics r, w3) => (Panics r, finish [message; rm] w3)
                  | (Returns (_, info3, Some err3), w3) =>
                      (Returns
                         (Some info3,
                          Some (errorString
                                  ("failed to forward reply to "
                                   ++ URL_String (libs D) (AddrURL (sanitized rep))
                                   ++ " (" ++ Error err2
                                   ++ ") and failed to send it to the dead letter sink "
                                   ++ URL_String (libs D) (AddrURL (sanitized dls))
                                   ++ " (" ++ Error err3 ++ ")"))),
                       finish [message; rm] w3)
                  | (Returns (dr, info3, None), w3) =>
                      (Returns (Some info3, None),
                       finish ([message; rm] ++ opt_list dr)%list w3)
                  end
              end).
  { destruct v; cbn [send_of executeRequest_of] in *.
    - unfold Part003.send. cbv zeta. rewrite Hr, Hd. cbn [sanitizeAddressable].
      rewrite Hs. rewrite H1, H2. reflexivity.
    - unfold Part005.send. rewrite Hu. cbv zeta. rewrite Hr, Hd.
      cbn [sanitizeAddressable]. rewrite H1, H2. reflexivity. }
  rewrite Hsend. split; [|split].
  - intros r ->. reflexivity.
  - intros ru Hru Hh.
    destruct (dispatchExecutionInfoTransformers_sanitized D rep ru info2 Hru Hh)
      as (u'' & _ & Hp & Hret).
    split; [exact Hp|]. intros [r Hr'].
    destruct (Z_gt_le_dec
                (base64_EncodedLen (Z.of_nat (String.length (ResponseBody info2))))
                (KnativeErrorDataExtensionMaxLength D)) as [Hgt|Hle]; [exact Hgt|].
    rewrite (Hret Hle) in Hr'. discriminate.
  - intros tr Htr. rewrite Htr. split.
    + intros ru Hru Hh.
      destruct (dispatchExecutionInfoTransformers_sanitized D rep ru info2 Hru Hh)
        as (u'' & Hs'' & Hp & Hret).
      exists u''. split; [exact Hs''|].
      destruct (Z_gt_le_dec
                  (base64_EncodedLen (Z.of_nat (String.length (ResponseBody info2))))
                  (KnativeErrorDataExtensionMaxLength D)) as [Hgt|Hle].
      * destruct (Hp Hgt) as [r Hr']. congruence.
      * rewrite (Hret Hle) in Htr. congruence.
    + intros out3 w3 H3. split.
      { intros Hb.
        destruct (executeRequest_built D net v (sanitized dls) message
                    (propagateNamespace D (additionalHeaders config)
                       (ResponseHeader info))
                    (retryConfig config) tr w2 Hb)
          as (s & w' & wr & Hw & _ & Ht & Hm & Hrc & Htrs & _ & _ & He).
        rewrite He in H3. inversion H3; subst. exists s. auto. }
      rewrite H3. split; intros; subst out3; reflexivity.
Qed.

End StageFacts.

Section PooledFacts.
Variable D : Deps.
Variable net : Network.

Lemma getClientForAddressable_kept a st :
  cache_kept st (snd (getClientForAddressable (libs D) a st)).
Proof.
  intros k c Hk. unfold getClientForAddressable.
  destruct (clients st !! URL_String (libs D) (AddrURL a)) eqn:Ha; [exact Hk|].
  destruct (createNewClient (libs D) a st) as [[c'|e] st1] eqn:Hc; simpl;
    destruct (createNewClient_clients _ _ _ _ _ Hc) as [Hcl _]; rewrite Hcl;
    [|exact Hk].
  rewrite lookup_insert_ne; [exact Hk|]. intros <-. congruence.
Qed.

Lemma pooled_run_refl rc w : pooled_run rc w w.
Proof.
  split; [auto|]. split; [intros k c H; exact H|].
  exists []. rewrite app_nil_r. split; [reflexivity | constructor].
Qed.

Lemma pooled_run_finish rc w w' l :
  pooled_run rc w w' -> pooled_run rc w (finish l w').
Proof. intros H. exact H. Qed.

Lemma pooled_run_trans rc w w1 w2 :
  pooled_run rc w w1 -> pooled_run rc w1 w2 -> pooled_run rc w w2.
Proof.
  intros (Hwf1 & Hk1 & l1 & Hw1 & Hl1) (Hwf2 & Hk2 & l2 & Hw2 & Hl2).
  split; [auto|]. split; [intros k c H; auto|].
  exists (l1 ++ l2)%list. split; [rewrite Hw2, Hw1, app_assoc; reflexivity|].
  apply Forall_app. split; [|exact Hl2].
  eapply Forall_impl; [exact Hl1|].
  intros s (c & Hc & Hs). exists c. split; [apply Hk2; exact Hc | exact Hs].
Qed.

Lemma executeRequest_pooled target message hdr rc tr w out w' :
  Part005.executeRequest D net target message hdr rc tr w = (out, w') ->
  pooled_run rc w w'.
Proof.
  unfold Part005.executeRequest, Part005.createRequest, Part005.newClient.
  destruct (http_NewRequest D _);
    [intros H; inversion H; subst; apply pooled_run_refl|].
  destruct (cehttp_WriteRequest D message _) as [[h b]|e];
    [|intros H; inversion H; subst; apply pooled_run_refl].
  destruct (getClientForAddressable (libs D) target (pool w)) as [[c|e] st] eqn:Hg.
  - intros H.
    assert (Hw' : w' = transmit
                         {| sentTarget := target;
                            sentURL := URL_String (libs D) (AddrURL target);
                            sentMessage := message;
                            sentTransformers :=
                              if span_IsRecordingEvents D
                              then (tr ++ [PopulateSpan
                                             (URL_String (libs D) (AddrURL target))])%list
                              else tr;
                            sentHeader := hdr ∪ h; sentBody := b;
                            sentRetryConfig := rc;
                            sentClient := Some (Part005.retryingClient c rc) |}
                         (with_pool st w)).
    { destruct (answer _) in H; inversion H; reflexivity. }
    subst w'. clear H. split; [|split].
    + simpl. intros Hwf.
      change st with (snd (Ok c, st)). rewrite <- Hg.
      exact (pool_wf_step (libs D) (OpGet target) (pool w) Hwf).
    + simpl. change st with (snd (Ok c, st)). rewrite <- Hg.
      apply getClientForAddressable_kept.
    + eexists [_]. split; [reflexivity|]. constructor; [|constructor].
      exists c. simpl. split; [|reflexivity].
      exact (getClientForAddressable_cached _ _ _ _ _ Hg).
  - intros H. inversion H; subst.
    apply getClientForAddressable_err in Hg. subst st. rewrite with_pool_same.
    apply pooled_run_refl.
Qed.

(** X17: in part_005, a call of [send] touches the client cache through
    lookups only: it keeps every client that was cached, it keeps the cache
    well formed (no timeout is ever written into a cached client), and every
    request it sends goes out on the client the cache holds for the request's
    URL when the call ends, or on a copy of that client with the request
    timeout of the retry configuration. *)
Theorem send_uses_pooled_clients message destination config w :
  (pool_wf (pool w) ->
   pool_wf (pool (snd (Part005.send D net message destination config w))))
  /\ (forall k c,
        clients (pool w) !! k = Some c ->
        clients (pool (snd (Part005.send D net message destination config w))) !! k
        = Some c)
  /\ exists l,
       wire (snd (Part005.send D net message destination config w))
       = (wire w ++ l)%list
       /\ Forall (fun s =>
                    exists c,
                      clients (pool (snd (Part005.send D net message destination
                                            config w))) !! sentURL s = Some c
                      /\ sentClient s
                         = Some (Part005.retryingClient c (retryConfig config)))
                 l.
Proof.
  change (pooled_run (retryConfig config) w
            (snd (Part005.send D net message destination config w))).
  unfold Part005.send. cbv zeta.
  destruct (AddrURL destination); [|simpl; apply pooled_run_finish, pooled_run_refl].
  repeat match goal with
         | |- context [Part005.executeRequest D net ?t ?m ?h ?rc ?tr ?w] =>
             let E := fresh "E" in
             destruct (Part005.executeRequest D net t m h rc tr w)
               as [[[[? ?] [?|]]|?] ?] eqn:E;
             apply executeRequest_pooled in E
         | |- context [dispatchExecutionInfoTransformers D ?u ?i] =>
             destruct (dispatchExecutionInfoTransformers D u i)
         | |- context [match ?o with Some _ => _ | None => _ end] =>
             destruct o
         end;
    simpl; apply pooled_run_finish;
    repeat (eapply pooled_run_trans; [|eassumption]);
    apply pooled_run_refl.
Qed.

End PooledFacts.

(** * SendMessage and its options *)

Section OptionFacts.
Variable D : Deps.
Variable net : Network.

Lemma applyOptions_app opts1 opts2 c :
  applyOptions (opts1 ++ opts2) c
  = match applyOptions opts1 c with
    | Ok c1 => applyOptions opts2 c1
    | Err e => Err e
    end.
Proof.
  revert c. induction opts1 as [|o opts1 IH]; intros c; simpl; [reflexivity|].
  destruct (o c) as [c1 [e|]]; [reflexivity | apply IH].
Qed.

Lemma applyOptions_builtin opts c :
  Forall builtin_option opts ->
  exists cfg, applyOptions opts c = Ok cfg /\ retryConfig cfg = retryConfig c.
Proof.
  intros H. revert c. induction H as [|o opts Ho _ IH]; intros c; simpl.
  - eauto.
  - destruct Ho; simpl;
      match goal with
      | |- context [applyOptions opts ?c'] => destruct (IH c') as (cfg & -> & Hr)
      end; eauto.
Qed.

(** X18: the options that these files define never fail, and none of them
    sets a retry configuration: a call of [SendMessage] or [SendEvent] with
    such options runs [send] under a configuration without one, and every
    request it sends goes out without a retry configuration. *)
Theorem builtin_options_never_retry v message destination opts w :
  Forall builtin_option opts ->
  exists cfg,
    applyOptions opts newSenderConfig = Ok cfg
    /\ retryConfig cfg = None
    /\ SendMessage v D net message destination opts w
       = send_of v D net message destination cfg w
    /\ exists l,
         wire (snd (SendMessage v D net message destination opts w))
         = (wire w ++ l)%list
         /\ Forall (fun s => sentRetryConfig s = None) l.
Proof.
  intros H. destruct (applyOptions_builtin opts newSenderConfig H) as (cfg & Hc & Hr).
  exists cfg. split; [exact Hc|]. split; [exact Hr|].
  unfold SendMessage. rewrite Hc. split; [reflexivity|].
  destruct (send_wire_shape D net v message destination cfg w)
    as (a & b & c & Hl & Ha & Hb & Hcs).
  exists (opt_list a ++ opt_list b ++ opt_list c)%list. split; [exact Hl|].
  assert (Ho : forall o : option Sent,
             (forall s, o = Some s -> sentRetryConfig s = retryConfig cfg) ->
             Forall (fun s => sentRetryConfig s = None) (opt_list o)).
  { intros [s|] Hs; constructor; [|constructor].
    rewrite (Hs s eq_refl). exact Hr. }
  rewrite !Forall_app. split; [|split]; apply Ho; intros s Hs.
  - apply (Ha s Hs).
  - apply (Hb s Hs).
  - apply (Hcs s Hs).
Qed.

(** X19: [SendMessage] stops at the first option that returns an error: the
    options after it are not applied, [send] is not called, so nothing is
    sent and no message is finished, and the call returns a nil record and
    that error, wrapped. *)
Theorem first_failing_option_stops v message destination opts1 o opts2 c1 c' e w :
  applyOptions opts1 newSenderConfig = Ok c1 ->
  o c1 = (c', Some e) ->
  SendMessage v D net message destination (opts1 ++ o :: opts2) w
  = (Returns (None, Some (wrapError "could not apply option" e)), w).
Proof.
  intros H1 Ho. unfold SendMessage. rewrite applyOptions_app, H1. simpl.
  rewrite Ho. reflexivity.
Qed.

End OptionFacts.

Lemma builtin_options_never_retry_witness :
  exists cfg,
    applyOptions [WithReply (Some (addressableOf "reply"));
                  WithHeader {["X-Request-Id" := ["42"]]};
                  WithReply None] newSenderConfig = Ok cfg
    /\ retryConfig cfg = None
    /\ SendMessage V005 testDeps testNet ping (addressableOf "sink")
         [WithReply (Some (addressableOf "reply"));
          WithHeader {["X-Request-Id" := ["42"]]};
          WithReply None] emptyWorld
       = send_of V005 testDeps testNet ping (addressableOf "sink") cfg emptyWorld
    /\ exists l,
         wire (snd (SendMessage V005 testDeps testNet ping (addressableOf "sink")
                      [WithReply (Some (addressableOf "reply"));
                       WithHeader {["X-Request-Id" := ["42"]]};
                       WithReply None] emptyWorld))
         = (wire emptyWorld ++ l)%list
         /\ Forall (fun s => sentRetryConfig s = None) l.
Proof.
  apply (builtin_options_never_retry testDeps testNet V005 ping (addressableOf "sink")).
  repeat constructor.
Defined.

Lemma first_failing_option_stops_witness :
  SendMessage V003 testDeps testNet ping (addressableOf "sink")
    ([WithReply None]
     ++ (fun sc => (sc, Some (errorString "no such option")))
     :: [WithReply (Some (addressableOf "reply"))]) emptyWorld
  = (Returns (None, Some (wrapError "could not apply option"
                            (errorString "no such option"))), emptyWorld).
Proof.
  apply (first_failing_option_stops testDeps testNet V003 ping (addressableOf "sink")
           [WithReply None] (fun sc => (sc, Some (errorString "no such option")))
           [WithReply (Some (addressableOf "reply"))]
           newSenderConfig newSenderConfig (errorString "no such option") emptyWorld);
    reflexivity.
Defined.

(** * The sending client *)

Section ClientFacts.
Import ClientImpl.
Variable L : Libs.
Variable NewEventFromHTTPRequest : Request -> result Event.
Variable FromRequest : Request -> option error.
Variable transport : Transport.

Lemma lookup_keeps_cache a st :
  cache_kept st (snd (getClientForAddressable L a st)).
Proof.
  intros k c Hk. unfold getClientForAddressable.
  destruct (clients st !! URL_String L (AddrURL a)) eqn:Ha; [exact Hk|].
  destruct (createNewClient L a st) as [[c'|e] st1] eqn:Hc; simpl;
    destruct (createNewClient_clients _ _ _ _ _ Hc) as [Hcl _]; rewrite Hcl;
    [|exact Hk].
  rewrite lookup_insert_ne; [exact Hk|]. intros <-. congruence.
Qed.

Lemma with_Timeout_same c : with_Timeout (Timeout c) c = c.
Proof. destruct c; reflexivity. Qed.

Lemma applyOptionList_app o1 o2 req :
  applyOptionList (o1 ++ o2) req
  = match applyOptionList o1 req with
    | (r, Some e) => (r, Some e)
    | (r, None) => applyOptionList o2 r
    end.
Proof.
  revert req. induction o1 as [|o o1 IH]; intros req; simpl; [reflexivity|].
  destruct (o req) as [r [e|]]; [reflexivity | apply IH].
Qed.

Lemma reportMetrics_keeps c tags req answer w :
  cache (reportMetrics NewEventFromHTTPRequest c tags req answer w) = cache w
  /\ sent (reportMetrics NewEventFromHTTPRequest c tags req answer w) = sent w.
Proof. unfold reportMetrics. repeat case_match; split; reflexivity. Qed.

Lemma SendWithRetries_cases c tags req config w :
  (exists req' e,
      applyRequestOptions c req = (req', Some e)
      /\ SendWithRetries L NewEventFromHTTPRequest FromRequest transport
           c tags req config w
         = (Err (wrapError "could not apply request options" e), w))
  \/ (exists req' e,
        applyRequestOptions c req = (req', None)
        /\ SendWithRetries L NewEventFromHTTPRequest FromRequest transport
             c tags req config w
           = (Err e, {| cache := snd (getClientForAddressable L (target req') (cache w));
                        sent := sent w; reports := reports w |}))
  \/ (exists req' pooled d,
        applyRequestOptions c req = (req', None)
        /\ getClientForAddressable L (target req') (cache w)
           = (Ok pooled, snd (getClientForAddressable L (target req') (cache w)))
        /\ d = {| dRequest := req';
                  dClient := with_Timeout (effectiveTimeout c config pooled) pooled;
                  dRetry := config |}
        /\ SendWithRetries L NewEventFromHTTPRequest FromRequest transport
             c tags req config w
           = dispatch NewEventFromHTTPRequest transport c tags d
               (snd (getClientForAddressable L (target req') (cache w))) w).
Proof.
  unfold SendWithRetries, Send, getConfiguredHttpClient, effectiveTimeout.
  destruct (applyRequestOptions c req) as [req' [e|]] eqn:Ho.
  { left. exists req', e. destruct config; auto. }
  right.
  destruct (getClientForAddressable L (target req') (cache w)) as [[pooled|e] st]
    eqn:Hg; simpl.
  2:{ left. eexists req', _. rewrite Hg. split; [reflexivity|].
      destruct config; reflexivity. }
  destruct config as [cfg|].
  - destruct (FromRequest req') as [e|].
    { left. eexists req', _. rewrite Hg. split; reflexivity. }
    right. eexists req', pooled, _. rewrite Hg. split; [reflexivity|].
    split; [reflexivity|]. split; [reflexivity|].
    repeat case_bool_decide; rewrite ?with_Timeout_same; reflexivity.
  - right. eexists req', pooled, _. rewrite Hg. split; [reflexivity|].
    split; [reflexivity|]. split; [reflexivity|].
    case_bool_decide; rewrite ?with_Timeout_same; reflexivity.
Qed.

(** X20: a call of [Send] or [SendWithRetries] uses the cache through one
    lookup at most: cached clients stay as they are. The request it sends goes
    out on a copy of the client cached for the target's URL whose timeout is
    the request timeout of the retry configuration when that is non-zero, else
    the timeout of the sending client when that is positive, else the pooled
    client's own; the copy is what changes, never the cached client. *)
Theorem call_timeout_on_copy c tags req config w ans w' :
  SendWithRetries L NewEventFromHTTPRequest FromRequest transport
    c tags req config w = (ans, w') ->
  cache_kept (cache w) (cache w')
  /\ (pool_wf (cache w) -> pool_wf (cache w'))
  /\ (sent w' = sent w
      \/ exists d pooled,
          sent w' = (sent w ++ [d])%list
          /\ clients (cache w') !! URL_String L (AddrURL (target (dRequest d)))
             = Some pooled
          /\ dClient d = with_Timeout (effectiveTimeout c config pooled) pooled
          /\ dRetry d = config
          /\ applyRequestOptions c req = (dRequest d, None)).
Proof.
  intros H.
  destruct (SendWithRetries_cases c tags req config w)
    as [(req' & e & Ho & Hs)|[(req' & e & Ho & Hs)|(req' & pooled & d & Ho & Hg & Hd & Hs)]];
    rewrite Hs in H; unfold dispatch in H; inversion H; subst ans w'; clear H.
  - split; [intros k x Hk; exact Hk|]. split; [auto|]. left. reflexivity.
  - simpl. split; [apply lookup_keeps_cache|].
    split; [exact (pool_wf_step L (OpGet (target req')) (cache w))|]. left. reflexivity.
  - destruct (reportMetrics_keeps c tags (dRequest d) (transport (sent w) d)
                {| cache := snd (getClientForAddressable L (target req') (cache w));
                   sent := (sent w ++ [d])%list; reports := reports w |})
      as [Hc Hw].
    simpl in Hc, Hw. rewrite Hc, Hw. split; [apply lookup_keeps_cache|].
    split; [exact (pool_wf_step L (OpGet (target req')) (cache w))|].
    right. exists d, pooled. split; [reflexivity|]. subst d. simpl.
    split; [exact (getClientForAddressable_cached _ _ _ _ _ Hg)|]. auto.
Qed.

(** X21: request options run in the order they were added, across calls of
    [AddRequestOptions], each on the request the one before left; the first
    one that fails ends the call: the later ones do not run, the cache is not
    consulted, nothing is sent or reported, and the error comes back wrapped
    twice. *)
Theorem request_options_in_order c a b :
  requestOptions (AddRequestOptions b (AddRequestOptions a c))
  = (requestOptions c ++ a ++ b)%list
  /\ (forall req,
        applyRequestOptions (AddRequestOptions b (AddRequestOptions a c)) req
        = match applyRequestOptions (AddRequestOptions a c) req with
          | (r, Some e) => (r, Some e)
          | (r, None) => applyOptionList b r
          end)
  /\ (forall opts1 o opts2 req r1 r2 e tags config w,
        requestOptions c = (opts1 ++ o :: opts2)%list ->
        applyOptionList opts1 req = (r1, None) ->
        o r1 = (r2, Some e) ->
        SendWithRetries L NewEventFromHTTPRequest FromRequest transport
          c tags req config w
        = (Err (wrapError "could not apply request options"
                  (wrapError "could not apply request option" e)), w)).
Proof.
  assert (Ha : forall x c0, requestOptions (AddRequestOptions x c0)
                            = (requestOptions c0 ++ x)%list).
  { intros x c0. unfold AddRequestOptions. case_bool_decide; [reflexivity|].
    destruct x; [rewrite app_nil_r; reflexivity | simpl in *; lia]. }
  split; [rewrite !Ha, app_assoc; reflexivity|]. split.
  - intros req. unfold applyRequestOptions. rewrite (Ha b), applyOptionList_app.
    reflexivity.
  - intros opts1 o opts2 req r1 r2 e tags config w Hc H1 Ho.
    assert (Hf : applyRequestOptions c req
                 = (r2, Some (wrapError "could not apply request option" e))).
    { unfold applyRequestOptions. rewrite Hc, applyOptionList_app, H1. simpl.
      rewrite Ho. reflexivity. }
    unfold SendWithRetries, Send. rewrite Hf. destruct config; reflexivity.
Qed.

(** X22: a call reports to the stats reporter at most once, and exactly when
    a reporter is set, the send returned a response, the request sent reads as
    an event and the context carries a metric tag; the report then holds the
    tag's namespace, name and resource group, the event's source and type, and
    the status code of the response. *)
Theorem metrics_reported_once c tags req config w ans w' :
  SendWithRetries L NewEventFromHTTPRequest FromRequest transport
    c tags req config w = (ans, w') ->
  reports w'
  = (reports w ++
     match statsReporter c, ans, tags with
     | true, Ok response, Some tg =>
         match NewEventFromHTTPRequest (fst (applyRequestOptions c req)) with
         | Ok event =>
             [({| argNamespace := Namespace tg; argEventSource := Source event;
                  argEventType := EventType event; argName := Name tg;
                  argResourceGroup := ResourceGroup tg |}, StatusCode response)]
         | Err _ => []
         end
     | _, _, _ => []
     end)%list.
Proof.
  intros H.
  destruct (SendWithRetries_cases c tags req config w)
    as [(req' & e & Ho & Hs)|[(req' & e & Ho & Hs)|(req' & pooled & d & Ho & Hg & Hd & Hs)]];
    rewrite Hs in H; unfold dispatch in H; inversion H; subst ans w'; clear H.
  - simpl. destruct (statsReporter c); rewrite app_nil_r; reflexivity.
  - simpl. destruct (statsReporter c); rewrite app_nil_r; reflexivity.
  - rewrite Ho. subst d. unfold reportMetrics. simpl.
    destruct (statsReporter c); [|rewrite app_nil_r; reflexivity].
    destruct (transport (sent w) _) as [r|e]; [|rewrite app_nil_r; reflexivity].
    destruct (NewEventFromHTTPRequest req') as [ev|e];
      destruct tags as [tg|]; simpl; rewrite ?app_nil_r; reflexivity.
Qed.

End ClientFacts.

(** * The fake client *)

Section FakeFacts.
Import FakeClient.
Variable ToEvent : ClientImpl.Request -> result Event.

Lemma Send_effect c request :
  sentEvents (snd (Send ToEvent c request))
  = (sentEvents c ++ match recorded ToEvent c request with
                     | Some e => [e]
                     | None => []
                     end)%list
  /\ requestOptions (snd (Send ToEvent c request)) = requestOptions c
  /\ delay (snd (Send ToEvent c request)) = delay c
  /\ match recorded ToEvent c request with
     | Some _ => fst (Send ToEvent c request) = Ok 200%Z
     | None => is_Err (fst (Send ToEvent c request))
     end.
Proof.
  unfold Send, recorded.
  destruct (applyRequestOptions (requestOptions c) request) as [r [e|]]; simpl.
  - rewrite app_nil_r. auto.
  - destruct (ToEvent r); simpl; rewrite ?app_nil_r; auto.
Qed.

Lemma recorded_options c c' request :
  requestOptions c' = requestOptions c ->
  recorded ToEvent c' request = recorded ToEvent c request.
Proof. unfold recorded. intros ->. reflexivity. Qed.

Lemma recorded_run c' c (calls : list (ClientImpl.Request * option RetryConfig)) :
  requestOptions c' = requestOptions c ->
  omap (fun call => recorded ToEvent c' (fst call)) calls
  = omap (fun call => recorded ToEvent c (fst call)) calls.
Proof.
  intros Ho. induction calls as [|call calls IH]; simpl; [reflexivity|].
  rewrite (recorded_options c c' (fst call) Ho).
  destruct (recorded ToEvent c (fst call)); [f_equal|]; exact IH.
Qed.

(** X23: over any run of calls of the fake client, with or without a retry
    configuration, the recorded events are, in order, the events of exactly
    those requests whose options all succeed and that read as an event; each
    of these calls answers 200, every other call returns an error and records
    nothing; the options and the delay of the client never change. *)
Theorem fake_client_records c calls :
  sentEvents (snd (sendAll ToEvent c calls))
  = (sentEvents c ++ omap (fun call => recorded ToEvent c (fst call)) calls)%list
  /\ requestOptions (snd (sendAll ToEvent c calls)) = requestOptions c
  /\ delay (snd (sendAll ToEvent c calls)) = delay c
  /\ Forall2 (fun r call =>
                match recorded ToEvent c (fst call) with
                | Some _ => r = Ok 200%Z
                | None => is_Err r
                end)
             (fst (sendAll ToEvent c calls)) calls.
Proof.
  revert c. induction calls as [|[request config] calls IH]; intros c; simpl.
  - rewrite app_nil_r. repeat split. constructor.
  - unfold SendWithRetries.
    destruct (Send_effect c request) as (He & Ho & Hd & Hr).
    destruct (Send ToEvent c request) as [r c1]. simpl in *.
    destruct (IH c1) as (He' & Ho' & Hd' & Hr').
    destruct (sendAll ToEvent c1 calls) as [rs c2]. simpl in *.
    assert (Hrec : forall q, recorded ToEvent c1 q = recorded ToEvent c q)
      by (intros q; apply recorded_options; exact Ho).
    split; [|split; [congruence|split; [congruence|]]].
    + rewrite He', He, (recorded_run c1 c calls Ho).
      destruct (recorded ToEvent c request); simpl;
        rewrite <- ?app_assoc; reflexivity.
    + constructor; [exact Hr|].
      eapply Forall2_impl; [exact Hr'|]. intros x y. simpl. rewrite Hrec. auto.
Qed.

End FakeFacts.

(** * Token review *)

Section AuthFacts.
Import Auth.
Variable Create : TokenReview -> result TokenReview * TokenReview.
Variable Errorf : string -> string.

(** X24: [VerifyJWT] returns user info exactly when the token review it
    creates, which carries the given token and the given audience as its only
    audience, comes back without a create error, with an empty status error,
    and authenticated; the user info it returns is then read from the status
    of the review object that was passed to the create call, as that object is
    after the call. *)
Theorem VerifyJWT_accepts_iff jwt audience u :
  VerifyJWT Create Errorf jwt audience = Ok u
  <-> exists reviewed passed,
        Create {| Token := jwt; Audiences := [audience]; Status := zeroStatus |}
        = (Ok reviewed, passed)
        /\ StatusError (Status reviewed) = ""
        /\ Authenticated (Status reviewed) = true
        /\ u = User (Status passed).
Proof.
  unfold VerifyJWT.
  destruct (Create _) as [[reviewed|e] passed].
  - case_bool_decide as He.
    + split; [discriminate|]. intros (r & p & H & Hs & _).
      inversion H; subst. contradiction.
    + destruct (Authenticated (Status reviewed)) eqn:Ha; simpl.
      * split.
        -- intros H. inversion H; subst. exists reviewed, passed.
           split; [reflexivity|]. split; [|split; [exact Ha | reflexivity]].
           destruct (StatusError (Status reviewed)); [reflexivity|].
           first [discriminate He | exfalso; apply He; discriminate].
        -- intros (r & p & H & _ & _ & ->). inversion H; subst. reflexivity.
      * split; [discriminate|]. intros (r & p & H & _ & Hau & _).
        inversion H; subst. congruence.
  - split; [discriminate|]. intros (r & p & H & _). discriminate.
Qed.

End AuthFacts.

(** * The event of a ping source *)

Section PingFacts.
Import MTPing.
Variable CloudEvent : Type.
Variable NewEvent : CloudEvent.
Variable SetType : string -> CloudEvent -> CloudEvent.
Variable SetSource : string -> CloudEvent -> CloudEvent.
Variable SetExtension : string -> string -> CloudEvent -> CloudEvent.
Variable SetData : string -> string -> CloudEvent -> CloudEvent * option error.
Variable PingSourceEventType : string.
Variable PingSourceSource : string -> string -> string.
Variable DecodeString : string -> string.
Variable rangeOver : gmap string string -> list (string * string).
Variable SetDataError : string -> string -> error -> string.

Local Abbreviation make :=
  (makeEvent CloudEvent NewEvent SetType SetSource SetExtension SetData
     PingSourceEventType PingSourceSource DecodeString rangeOver SetDataError).

(** X25: the payload of a ping event is the decoded [DataBase64] whenever
    that field is set, and [Data] then plays no part; with both fields empty
    no payload is set, the content type of the source plays no part, and no
    error is returned. An error can only come from setting the payload. *)
Theorem ping_event_payload :
  (forall src d,
     DataBase64 src <> "" ->
     makeEvent CloudEvent NewEvent SetType SetSource SetExtension SetData
       PingSourceEventType PingSourceSource DecodeString rangeOver SetDataError src
     = make {| Name := Name src; Namespace := Namespace src;
               ContentType := ContentType src; Data := d;
               DataBase64 := DataBase64 src;
               CloudEventOverrides := CloudEventOverrides src |})
  /\ (forall src ct,
        DataBase64 src = "" -> Data src = "" ->
        snd (make src) = None
        /\ make src
           = make {| Name := Name src; Namespace := Namespace src;
                     ContentType := ct; Data := Data src;
                     DataBase64 := DataBase64 src;
                     CloudEventOverrides := CloudEventOverrides src |})
  /\ (forall src e,
        snd (make src) = Some e ->
        DataBase64 src <> "" \/ Data src <> "").
Proof.
  unfold makeEvent. split; [|split].
  - intros src d Hb. simpl. rewrite !(bool_decide_eq_true_2 _ Hb). reflexivity.
  - intros src ct Hb Hd. simpl.
    rewrite !bool_decide_eq_false_2 by (rewrite ?Hb, ?Hd; auto).
    split; reflexivity.
  - intros src e. repeat case_bool_decide; auto; simpl; discriminate.
Qed.

End PingFacts.

(** * The store delegate of the API server source *)

Section DelegateFacts.
Import ApiServer.
Variable Obj : Type.
Variable MakeEvent : Change -> Obj -> result Event.
Variable uuid_New : nat -> string.
Variable NewRequest : option error.
Variable BindEvent : Event -> option error.
Variable ceSend : Event -> option Response * option error.

Local Abbreviation handle :=
  (handle Obj MakeEvent uuid_New NewRequest BindEvent ceSend).

(** X26: [Add], [Update] and [Delete] return an error exactly when the event
    cannot be made, and then hand nothing to the client. Once the event is
    made they return nil whatever becomes of the delivery, unless the client
    returns no response at all, on which the code panics: a request that
    cannot be built or bound, and a response of any status, are logged and
    not returned. At most one event is handed to the client, under a new id,
    and a failure to send is logged exactly for a status below 200 or from
    400 on. *)
Theorem store_callbacks_hide_delivery change obj st :
  (forall e,
     fst (handle change obj st) = Returns (Some e)
     <-> MakeEvent change obj = Err e)
  /\ (forall e,
        MakeEvent change obj = Err e ->
        delivered (snd (handle change obj st)) = delivered st)
  /\ (forall event,
        MakeEvent change obj = Ok event ->
        (fst (handle change obj st) = Returns None
         \/ (exists r, fst (handle change obj st) = Panics r
                       /\ NewRequest = None
                       /\ BindEvent (SetID (uuid_New (ids st)) event) = None
                       /\ fst (ceSend (SetID (uuid_New (ids st)) event)) = None))
        /\ (delivered (snd (handle change obj st)) = delivered st
            \/ delivered (snd (handle change obj st))
               = (delivered st ++ [SetID (uuid_New (ids st)) event])%list)
        /\ (forall resp err,
              NewRequest = None ->
              BindEvent (SetID (uuid_New (ids st)) event) = None ->
              ceSend (SetID (uuid_New (ids st)) event) = (Some resp, err) ->
              fst (handle change obj st) = Returns None
              /\ ((LevelError, "failed to send cloudevent")
                    ∈ drop (length (logged st)) (logged (snd (handle change obj st)))
                  <-> (StatusCode resp < 200 \/ 400 <= StatusCode resp)%Z))).
Proof.
  unfold ApiServer.handle, sendCloudEvent.
  destruct (MakeEvent change obj) as [event|e0]; simpl.
  2:{ split; [intros e; split; congruence|]. split; [reflexivity|]. discriminate. }
  split.
  { intros e. split; [|intros H; discriminate H].
    destruct NewRequest; [simpl; discriminate|].
    destruct (BindEvent _); [simpl; discriminate|].
    destruct (ceSend _) as [[resp|] err]; [|simpl; discriminate].
    destruct (bool_decide _ || bool_decide _); simpl; discriminate. }
  split; [discriminate|].
  intros ev Hev. inversion Hev; subst ev. clear Hev.
  destruct NewRequest as [e1|] eqn:Hn; simpl.
  { split; [auto|]. split; [auto|]. discriminate. }
  destruct (BindEvent _) as [e2|] eqn:Hb; simpl.
  { split; [auto|]. split; [auto|]. discriminate. }
  destruct (ceSend _) as [[resp|] err] eqn:Hs; simpl.
  2:{ split; [right; eauto|]. split; [auto|]. discriminate. }
  split; [left; destruct (bool_decide _ || bool_decide _); reflexivity|].
  split; [right; destruct (bool_decide _ || bool_decide _); reflexivity|].
  intros resp' err' _ _ Hr. inversion Hr; subst resp' err'. clear Hr.
  split; [destruct (bool_decide _ || bool_decide _); reflexivity|].
  destruct (bool_decide (StatusCode resp < 200)%Z
            || bool_decide (StatusCode resp >= 400)%Z) eqn:Hc; simpl;
    rewrite <- !app_assoc, drop_app_length; simpl.
  - apply orb_true_iff in Hc.
    rewrite !bool_decide_eq_true in Hc.
    split; [intros _; lia|]. intros _. do 1 constructor. constructor.
  - apply orb_false_iff in Hc.
    rewrite !bool_decide_eq_false in Hc.
    split; [|lia]. intros Hin.
    repeat (apply elem_of_cons in Hin as [Hin|Hin]; [discriminate Hin|]).
    inversion Hin.
Qed.

End DelegateFacts.

(** * Runs of the further properties on the fixtures *)

Lemma reconfigure_idempotent_witness :
  ConfigureConnectionArgs (Some {| MaxIdleConns := 10; MaxIdleConnsPerHost := 2 |})
    tunedPool = tunedPool.
Proof.
  apply (proj2 (reconfigure_idempotent
                  (Some {| MaxIdleConns := 10; MaxIdleConnsPerHost := 2 |}) tunedPool)
           {| MaxIdleConns := 10; MaxIdleConnsPerHost := 2 |}
           {| MaxIdleConns := 10; MaxIdleConnsPerHost := 2 |});
    reflexivity.
Defined.

Lemma sanitizeURL_idempotent_witness :
  (Scheme (httpURL "sink.default.svc") = "http"
   \/ Scheme (httpURL "sink.default.svc") = "https")
  /\ Host (httpURL "sink.default.svc") = Host (mkURL "" "" "sink.default.svc" "" "" "").
Proof.
  apply (proj1 (proj2 sanitizeURL_idempotent)
           (mkURL "" "" "sink.default.svc" "" "" "") (httpURL "sink.default.svc")).
  reflexivity.
Defined.

Lemma failure_without_dead_letter_witness :
  exists info err w1,
    send_of V005 testDeps testNet ping (addressableOf "broken") replyConfig emptyWorld
    = (Returns (Some info,
                Some (errorString
                        ("unable to complete request to "
                         ++ URL_String (libs testDeps)
                              (AddrURL (sanitized (addressableOf "broken")))
                         ++ ": " ++ Error err))),
       finish [ping] w1)
    /\ wire (snd (send_of V005 testDeps testNet ping (addressableOf "broken")
                    replyConfig emptyWorld)) = wire w1.
Proof.
  eexists _, _, _.
  apply (failure_without_dead_letter testDeps testNet V005 ping (addressableOf "broken")
           replyConfig emptyWorld (httpURL "broken") None _ _ _ eq_refl eq_refl).
  reflexivity.
Defined.

Lemma reply_is_forwarded_witness :
  exists rm rr info2 w2,
    send_of V003 testDeps echoNet ping (addressableOf "echo")
      (forwardConfig "reply" None) emptyWorld
    = (Returns (Some info2, None), finish ([ping; rm] ++ opt_list rr)%list w2)
    /\ rm = NewMessage {["Ce-Specversion" := ["1.0"]]} "pong"
    /\ map sentURL (wire w2) = ["http://echo/"; "http://reply/"].
Proof.
  eexists _, _, _, _. split.
  - apply (proj1 (proj2 (reply_is_forwarded testDeps echoNet V003 ping
                           (addressableOf "echo") (forwardConfig "reply" None)
                           emptyWorld (httpURL "echo") (addressableOf "reply")
                           _ _ _ _ _ eq_refl eq_refl eq_refl eq_refl))
             _ _ eq_refl).
  - split; reflexivity.
Defined.

Lemma reply_failure_goes_to_dead_letter_witness :
  exists rm dr info3 w3,
    send_of V005 testDeps echoNet ping (addressableOf "echo")
      (forwardConfig "down" (Some (addressableOf "dls"))) emptyWorld
    = (Returns (Some info3, None), finish ([ping; rm] ++ opt_list dr)%list w3)
    /\ rm = NewMessage {["Ce-Specversion" := ["1.0"]]} "pong"
    /\ map sentURL (wire w3) = ["http://echo/"; "http://down/"; "http://dls/"]
    /\ map sentTransformers (wire w3)
       = [[]; [];
          [KnativeErrorTransformers (httpURL "down") 500
             "ZGlzcGF0Y2ggZXJyb3I6IGNvbm5lY3Rpb24gcmVmdXNlZA=="]].
Proof.
  eexists _, _, _, _. split.
  - apply (proj2 (proj2 (proj2 (proj2 (proj2
             (reply_failure_goes_to_dead_letter testDeps echoNet V005 ping
                (addressableOf "echo")
                (forwardConfig "down" (Some (addressableOf "dls")))
                emptyWorld (httpURL "echo") (addressableOf "down")
                (addressableOf "dls") _ _ _ _ _ _ _
                eq_refl eq_refl eq_refl eq_refl eq_refl))
             _ eq_refl) _ _ eq_refl)) None _ eq_refl).
  - repeat split; reflexivity.
Defined.

Lemma call_timeout_on_copy_witness :
  cache_kept (ClientImpl.cache freshState) (ClientImpl.cache (snd pingCall))
  /\ (pool_wf (ClientImpl.cache freshState) ->
      pool_wf (ClientImpl.cache (snd pingCall)))
  /\ (ClientImpl.sent (snd pingCall) = ClientImpl.sent freshState
      \/ exists d pooled,
          ClientImpl.sent (snd pingCall) = (ClientImpl.sent freshState ++ [d])%list
          /\ clients (ClientImpl.cache (snd pingCall))
               !! URL_String testLibs
                    (AddrURL (ClientImpl.target (ClientImpl.dRequest d)))
             = Some pooled
          /\ ClientImpl.dClient d
             = ClientImpl.with_Timeout
                 (ClientImpl.effectiveTimeout slowClient None pooled) pooled
          /\ ClientImpl.dRetry d = None
          /\ ClientImpl.applyRequestOptions slowClient pingRequest
             = (ClientImpl.dRequest d, None)).
Proof.
  apply (call_timeout_on_copy testLibs readsAsPing noContextError okTransport
           slowClient (Some pingTag) pingRequest None freshState (fst pingCall)).
  reflexivity.
Defined.

Lemma metrics_reported_once_witness :
  ClientImpl.reports (snd pingCall)
  = [({| ClientImpl.argNamespace := "default";
         ClientImpl.argEventSource := "/apis/v1/namespaces/default/pingsources/p";
         ClientImpl.argEventType := "dev.knative.sources.ping";
         ClientImpl.argName := "p";
         ClientImpl.argResourceGroup := "pingsources.sources.knative.dev" |},
      202%Z)].
Proof.
  exact (metrics_reported_once testLibs readsAsPing noContextError okTransport
           slowClient (Some pingTag) pingRequest None freshState
           (Ok {| StatusCode := 202; Status := "202 Accepted"; RespHeader := ∅;
                  Body := ""; ReadErr := None |})
           (snd pingCall) eq_refl).
Defined.
